(** * PREVC front end: the session-status polling tracker of static/js/main.js

    A shallow embedding of [SessionManager] (static/js/main.js, lines
    109-247) together with the parts of [Utils] and of the browser it
    talks to: the interval-timer table, the in-flight [fetch] requests,
    the console and the handful of DOM nodes the tracker writes.

    JavaScript statements become functions in a state-and-exception monad
    over the page state; asynchronous work (timer callbacks, promise
    settlement) becomes events of a small event loop. *)

From stdpp Require Import gmap strings list fin_maps sorting pretty.
From Stdlib Require Import Ascii.

Open Scope Z_scope.

(** ** JavaScript values that reach the tracker *)

(** [JNum n] is an integer, below 10^21 in magnitude, so that it prints as
    its decimal numeral; [JOther text] is any other value (a number that is
    not such an integer, an array, an object), with the string it converts
    to. *)
Inductive jsval : Type :=
  | JUndefined
  | JNull
  | JBool (b : bool)
  | JNum (n : Z)
  | JStr (s : string)
  | JOther (text : string).

(** What a template literal makes of a value, as in [`/status/${v}`]. *)
Definition template_string (v : jsval) : string :=
  match v with
  | JUndefined => "undefined"
  | JNull => "null"
  | JBool b => if b then "true" else "false"
  | JNum n => pretty n
  | JStr s => s
  | JOther text => text
  end.

(** [v === 'lit'] for a string literal on the right. *)
Definition strict_eq_str (v : jsval) (lit : string) : bool :=
  match v with
  | JStr s => bool_decide (s = lit)
  | _ => false
  end.

(** The decoded JSON body handed to [handleStatusUpdate].  Only the two
    properties the tracker reads are kept; a body that is a number, a string
    or a boolean reads both as [undefined], a [null] body has no property. *)
Inductive jsdata : Type :=
  | DataNull
  | DataObj (status session_id : jsval).

Inductive exn : Type :=
  | TypeError (what : string)
  | NetworkError (what : string)
  | HttpError (code : Z) (statusText : string)
  | SyntaxError.

(** ** The page state *)

(** [window.APP], main.js lines 4-8.  A timer handle is the positive integer
    [setInterval] returns; [None] is [null]. [currentSessionId] holds
    whatever value a script stores in it. *)
Record app_globals : Type := {
  currentSessionId : jsval;
  pollingInterval : option positive;
  isProcessing : bool
}.

(** An interval timer of the browser: the session its callback closes over
    and its period in milliseconds. *)
Record timer : Type := {
  cb_session : string;
  period : Z
}.

(** [#progressBar]: [width] and text both carry a percentage; the number is
    kept. *)
Record progress_bar : Type := {
  pb_width : Z;
  pb_text : Z;
  pb_classes : gset string
}.

Record icon : Type := {
  i_classes : gset string;
  i_color : option string
}.

(** A step node [#step-...] with the [<i>] elements below it. *)
Record step_el : Type := {
  el_classes : gset string;
  el_icons : list icon
}.

Record document : Type := {
  progressBar : progress_bar;
  statusText : string;
  stepEls : gmap string step_el;
  progressSection : bool;            (* shown? *)
  resultSection : bool;              (* shown? *)
  sessionIdText : string;
  formInputsDisabled : bool;
  uploadBtnDisabled : bool;
  uploadBtnText : string;
  reviewBtnClick : option string;    (* target of the click handler *)
  downloadBtnClick : option string;
  toasts : list (string * string)    (* message, type *)
}.

(** Entries into the two terminal handlers, recorded in call order. *)
Inductive handler_call : Type :=
  | CallComplete (data : jsdata)
  | CallError (data : jsdata).

Record page : Type := {
  app : app_globals;
  timers : gmap positive timer;      (* active interval timers *)
  next_timer : positive;             (* next handle setInterval hands out *)
  pending : list string;             (* URLs of the fetches in flight *)
  console : list (string * exn);     (* console.error lines *)
  calls : list handler_call;
  doc : document
}.

#[global] Instance jsval_eq_dec : EqDecision jsval.
Proof. solve_decision. Defined.
#[global] Instance jsdata_eq_dec : EqDecision jsdata.
Proof. solve_decision. Defined.
#[global] Instance exn_eq_dec : EqDecision exn.
Proof. solve_decision. Defined.
#[global] Instance handler_call_eq_dec : EqDecision handler_call.
Proof. solve_decision. Defined.

(** *** Field updates *)

Definition set_pollingInterval (h : option positive) (s : page) : page :=
  {| app := {| currentSessionId := currentSessionId (app s);
               pollingInterval := h;
               isProcessing := isProcessing (app s) |};
     timers := timers s; next_timer := next_timer s; pending := pending s;
     console := console s; calls := calls s; doc := doc s |}.

Definition set_timers (t : gmap positive timer) (s : page) : page :=
  {| app := app s; timers := t; next_timer := next_timer s;
     pending := pending s; console := console s; calls := calls s;
     doc := doc s |}.

Definition set_next_timer (n : positive) (s : page) : page :=
  {| app := app s; timers := timers s; next_timer := n;
     pending := pending s; console := console s; calls := calls s;
     doc := doc s |}.

Definition set_pending (l : list string) (s : page) : page :=
  {| app := app s; timers := timers s; next_timer := next_timer s;
     pending := l; console := console s; calls := calls s; doc := doc s |}.

Definition set_console (l : list (string * exn)) (s : page) : page :=
  {| app := app s; timers := timers s; next_timer := next_timer s;
     pending := pending s; console := l; calls := calls s; doc := doc s |}.

Definition set_calls (l : list handler_call) (s : page) : page :=
  {| app := app s; timers := timers s; next_timer := next_timer s;
     pending := pending s; console := console s; calls := l; doc := doc s |}.

Definition upd_doc (f : document → document) (s : page) : page :=
  {| app := app s; timers := timers s; next_timer := next_timer s;
     pending := pending s; console := console s; calls := calls s;
     doc := f (doc s) |}.

Definition set_progressBar (b : progress_bar) (d : document) : document :=
  {| progressBar := b; statusText := statusText d; stepEls := stepEls d;
     progressSection := progressSection d; resultSection := resultSection d;
     sessionIdText := sessionIdText d;
     formInputsDisabled := formInputsDisabled d;
     uploadBtnDisabled := uploadBtnDisabled d;
     uploadBtnText := uploadBtnText d; reviewBtnClick := reviewBtnClick d;
     downloadBtnClick := downloadBtnClick d; toasts := toasts d |}.

Definition set_statusText (t : string) (d : document) : document :=
  {| progressBar := progressBar d; statusText := t; stepEls := stepEls d;
     progressSection := progressSection d; resultSection := resultSection d;
     sessionIdText := sessionIdText d;
     formInputsDisabled := formInputsDisabled d;
     uploadBtnDisabled := uploadBtnDisabled d;
     uploadBtnText := uploadBtnText d; reviewBtnClick := reviewBtnClick d;
     downloadBtnClick := downloadBtnClick d; toasts := toasts d |}.

Definition set_stepEls (m : gmap string step_el) (d : document) : document :=
  {| progressBar := progressBar d; statusText := statusText d; stepEls := m;
     progressSection := progressSection d; resultSection := resultSection d;
     sessionIdText := sessionIdText d;
     formInputsDisabled := formInputsDisabled d;
     uploadBtnDisabled := uploadBtnDisabled d;
     uploadBtnText := uploadBtnText d; reviewBtnClick := reviewBtnClick d;
     downloadBtnClick := downloadBtnClick d; toasts := toasts d |}.

Definition set_sections (prog res : bool) (d : document) : document :=
  {| progressBar := progressBar d; statusText := statusText d;
     stepEls := stepEls d; progressSection := prog; resultSection := res;
     sessionIdText := sessionIdText d;
     formInputsDisabled := formInputsDisabled d;
     uploadBtnDisabled := uploadBtnDisabled d;
     uploadBtnText := uploadBtnText d; reviewBtnClick := reviewBtnClick d;
     downloadBtnClick := downloadBtnClick d; toasts := toasts d |}.

Definition set_sessionIdText (t : string) (d : document) : document :=
  {| progressBar := progressBar d; statusText := statusText d;
     stepEls := stepEls d; progressSection := progressSection d;
     resultSection := resultSection d; sessionIdText := t;
     formInputsDisabled := formInputsDisabled d;
     uploadBtnDisabled := uploadBtnDisabled d;
     uploadBtnText := uploadBtnText d; reviewBtnClick := reviewBtnClick d;
     downloadBtnClick := downloadBtnClick d; toasts := toasts d |}.

Definition set_form (inputs btn : bool) (btnText : string) (d : document) : document :=
  {| progressBar := progressBar d; statusText := statusText d;
     stepEls := stepEls d; progressSection := progressSection d;
     resultSection := resultSection d; sessionIdText := sessionIdText d;
     formInputsDisabled := inputs; uploadBtnDisabled := btn;
     uploadBtnText := btnText; reviewBtnClick := reviewBtnClick d;
     downloadBtnClick := downloadBtnClick d; toasts := toasts d |}.

Definition set_clicks (review download : option string) (d : document) : document :=
  {| progressBar := progressBar d; statusText := statusText d;
     stepEls := stepEls d; progressSection := progressSection d;
     resultSection := resultSection d; sessionIdText := sessionIdText d;
     formInputsDisabled := formInputsDisabled d;
     uploadBtnDisabled := uploadBtnDisabled d;
     uploadBtnText := uploadBtnText d; reviewBtnClick := review;
     downloadBtnClick := download; toasts := toasts d |}.

Definition set_toasts (l : list (string * string)) (d : document) : document :=
  {| progressBar := progressBar d; statusText := statusText d;
     stepEls := stepEls d; progressSection := progressSection d;
     resultSection := resultSection d; sessionIdText := sessionIdText d;
     formInputsDisabled := formInputsDisabled d;
     uploadBtnDisabled := uploadBtnDisabled d;
     uploadBtnText := uploadBtnText d; reviewBtnClick := reviewBtnClick d;
     downloadBtnClick := downloadBtnClick d; toasts := l |}.

(** ** Statements: state and exceptions *)

Inductive outcome (A : Type) : Type :=
  | Ret (a : A)
  | Throw (e : exn).
Arguments Ret {A} a.
Arguments Throw {A} e.

Definition M (A : Type) : Type := page → page * outcome A.

Definition ret {A} (a : A) : M A := λ s, (s, Ret a).
Definition throw {A} (e : exn) : M A := λ s, (s, Throw e).
Definition bind {A B} (m : M A) (k : A → M B) : M B :=
  λ s, match m s with
       | (s', Ret a) => k a s'
       | (s', Throw e) => (s', Throw e)
       end.
(** A statement that only changes the state. *)
Definition modify (f : page → page) : M unit := λ s, (f s, Ret tt).
(** [m.catch(h)] / [try m catch (e) h]. *)
Definition catch {A} (m : M A) (h : exn → M A) : M A :=
  λ s, match m s with
       | (s', Ret a) => (s', Ret a)
       | (s', Throw e) => h e s'
       end.

#[global] Instance M_ret : MRet M := @ret.
#[global] Instance M_bind : MBind M := λ A B k m, bind m k.

Definition exec {A} (m : M A) (s : page) : page := fst (m s).
Definition result {A} (m : M A) (s : page) : outcome A := snd (m s).

Definition gets {A} (f : page → A) : M A := λ s, (s, Ret (f s)).

(** ** The browser *)

(** [setInterval(cb, ms)]: registers the timer under a fresh handle. *)
Definition setInterval (sessionId : string) (ms : Z) : M positive :=
  λ s, let h := next_timer s in
       (set_next_timer (Pos.succ h)
          (set_timers (<[h := {| cb_session := sessionId; period := ms |}]>
                         (timers s)) s),
        Ret h).

(** [clearInterval(h)]: an unknown handle is ignored. *)
Definition clearInterval (h : positive) : M unit :=
  modify (λ s, set_timers (delete h (timers s)) s).

Definition console_error (label : string) (e : exn) : M unit :=
  modify (λ s, set_console (console s ++ [(label, e)]) s).

(** How a [fetch] settles: rejected by the transport, or a response whose
    body does or does not decode as JSON. *)
Inductive fetch_outcome : Type :=
  | Rejected (what : string)
  | Response (ok : bool) (code : Z) (statusText : string)
             (json : option jsdata).

(** ** Utils *)

(** [Utils.showToast], lines 28-58: one more toast in the container. *)
Definition showToast (message type : string) : M unit :=
  modify (upd_doc (λ d, set_toasts (toasts d ++ [(message, type)]) d)).

(** [Utils.apiRequest], lines 86-106, from the moment the fetch settles. *)
Definition apiRequest_settled (o : fetch_outcome) : M jsdata :=
  catch
    (match o with
     | Rejected what => throw (NetworkError what)
     | Response ok code statusText json =>
         if negb ok then throw (HttpError code statusText)
         else match json with
              | Some data => mret data
              | None => throw SyntaxError
              end
     end)
    (λ error, console_error "API Request Error:" error;; throw error).

(** ** SessionManager *)

Definition jq_removeClass (cs : list string) (X : gset string) : gset string :=
  X ∖ list_to_set cs.
Definition jq_addClass (cs : list string) (X : gset string) : gset string :=
  X ∪ list_to_set cs.

(** [startPolling], lines 112-120. *)
Definition startPolling (sessionId : string) : M unit :=
  h ← gets (λ s, pollingInterval (app s));
  match h with
  | Some old => clearInterval old
  | None => mret tt
  end;;
  new ← setInterval sessionId 2000;
  modify (set_pollingInterval (Some new)).

(** [stopPolling], lines 123-128. *)
Definition stopPolling : M unit :=
  h ← gets (λ s, pollingInterval (app s));
  match h with
  | Some old => clearInterval old;; modify (set_pollingInterval None)
  | None => mret tt
  end.

Record step : Type := {
  step_id : string;
  threshold : Z
}.

#[global] Instance step_eq_dec : EqDecision step.
Proof. solve_decision. Defined.

(** The catalog of [updateStepIndicators], lines 174-181. *)
Definition steps : list step :=
  [ {| step_id := "step-upload"; threshold := 20 |};
    {| step_id := "step-transcription"; threshold := 35 |};
    {| step_id := "step-ocr"; threshold := 50 |};
    {| step_id := "step-correlation"; threshold := 65 |};
    {| step_id := "step-ai"; threshold := 80 |};
    {| step_id := "step-complete"; threshold := 100 |} ].

(** Lines 188-191. *)
Definition mark_completed (el : step_el) : step_el :=
  {| el_classes := jq_addClass ["completed"]
                     (jq_removeClass ["current"] (el_classes el));
     el_icons :=
       (λ i, {| i_classes :=
                  jq_addClass ["fa-check-circle"]
                    (jq_removeClass ["fa-circle"; "fa-circle-notch"; "fa-spin"]
                       (i_classes i));
                i_color := Some "#28a745" |}) <$> el_icons el |}.

(** Lines 193-196. *)
Definition mark_current (el : step_el) : step_el :=
  {| el_classes := jq_addClass ["current"]
                     (jq_removeClass ["completed"] (el_classes el));
     el_icons :=
       (λ i, {| i_classes :=
                  jq_addClass ["fa-circle-notch"; "fa-spin"]
                    (jq_removeClass ["fa-circle"; "fa-check-circle"]
                       (i_classes i));
                i_color := Some "#007bff" |}) <$> el_icons el |}.

(** The body of the [forEach], lines 183-198, on the node of one step. *)
Definition render_step (percent : Z) (st : step) (el : step_el) : step_el :=
  if percent >=? threshold st then mark_completed el
  else if percent >=? threshold st - 15 then mark_current el
  else el.

(** [updateStepIndicators], lines 173-199: a step whose node is not in the
    page selects nothing and is skipped. *)
Definition render_steps (percent : Z) (m : gmap string step_el)
  : gmap string step_el :=
  foldl (λ m st, alter (render_step percent st) (step_id st) m) m steps.

Definition updateStepIndicators (percent : Z) : M unit :=
  modify (upd_doc (λ d, set_stepEls (render_steps percent (stepEls d)) d)).

(** [updateProgress], lines 160-170. jQuery's [.css('width', v)] sets a
    negative length as 0, so the width is [percent + '%'] clamped at 0%; the
    text and the step indicators take [percent] as it is. *)
Definition updateProgress (percent : Z) (text : string) : M unit :=
  modify (upd_doc (λ d,
    set_progressBar {| pb_width := 0 `max` percent;
                       pb_text := pb_text (progressBar d);
                       pb_classes := pb_classes (progressBar d) |} d));;
  modify (upd_doc (λ d,
    set_progressBar {| pb_width := pb_width (progressBar d); pb_text := percent;
                       pb_classes := pb_classes (progressBar d) |} d));;
  modify (upd_doc (set_statusText text));;
  updateStepIndicators percent.

(** [setupDownloadButtons], lines 238-246. *)
Definition setupDownloadButtons (sessionId : string) : M unit :=
  modify (upd_doc (set_clicks (Some ("/review/" +:+ sessionId))
                              (Some ("/export/" +:+ sessionId +:+ "/docx")))).

(** [data.session_id] where line 210 calls [.substring] on it: only a string
    has the method, any other value throws there, before line 213 reads the
    property again. *)
Definition data_session_id (data : jsdata) : M string :=
  match data with
  | DataObj _ (JStr sid) => mret sid
  | _ => throw (TypeError "data.session_id.substring")
  end.

(** [onProcessingComplete], lines 202-217. *)
Definition onProcessingComplete (data : jsdata) : M unit :=
  modify (λ s, set_calls (calls s ++ [CallComplete data]) s);;
  stopPolling;;
  modify (upd_doc (λ d, set_sections false (resultSection d) d));;
  modify (upd_doc (λ d, set_sections (progressSection d) true d));;
  sid ← data_session_id data;
  modify (upd_doc (set_sessionIdText (String.substring 0 8 sid)));;
  setupDownloadButtons sid;;
  showToast "Documentação gerada com sucesso!" "success".

(** [onProcessingError], lines 220-235. *)
Definition onProcessingError (data : jsdata) : M unit :=
  modify (λ s, set_calls (calls s ++ [CallError data]) s);;
  stopPolling;;
  modify (upd_doc (λ d,
    set_progressBar
      {| pb_width := pb_width (progressBar d);
         pb_text := pb_text (progressBar d);
         pb_classes :=
           jq_addClass ["bg-danger"]
             (jq_removeClass ["progress-bar-striped"; "progress-bar-animated"]
                (pb_classes (progressBar d))) |} d));;
  modify (upd_doc (set_statusText "Erro no processamento"));;
  showToast "Erro durante o processamento. Tente novamente." "danger";;
  modify (upd_doc (λ d, set_form false (uploadBtnDisabled d) (uploadBtnText d) d));;
  modify (upd_doc (λ d, set_form (formInputsDisabled d) false "Processar Arquivos" d)).

(** [data.status]: reading a property of [null] throws. *)
Definition data_status (data : jsdata) : M jsval :=
  match data with
  | DataObj status _ => mret status
  | DataNull => throw (TypeError "data.status")
  end.

(** [handleStatusUpdate], lines 143-157. *)
Definition handleStatusUpdate (data : jsdata) : M unit :=
  status ← data_status data;
  if strict_eq_str status "uploading" then
    updateProgress 20 "Upload concluído"
  else if strict_eq_str status "processing" then
    updateProgress 60 "Processando dados..."
  else if strict_eq_str status "completed" then
    updateProgress 100 "Processamento concluído!";;
    onProcessingComplete data
  else if strict_eq_str status "error" then
    onProcessingError data
  else mret tt.

(** [checkStatus], lines 131-140, split where the promise suspends: issuing
    the request, and the handlers run when it settles. *)
Definition checkStatus (sessionId : string) : M unit :=
  modify (λ s, set_pending (pending s ++ ["/status/" +:+ sessionId]) s).

Definition checkStatus_settled (o : fetch_outcome) : M unit :=
  catch
    (data ← apiRequest_settled o; handleStatusUpdate data)
    (λ error,
       console_error "Error checking status:" error;;
       showToast "Erro ao verificar status" "danger").

(** ** The event loop

    What can run on the page: calls the other scripts make into
    [SessionManager] (the upload form starts and cancels polling and sets the
    first progress values), an interval timer firing, a fetch settling. *)
Inductive event : Type :=
  | EvStart (sessionId : string)
  | EvStop
  | EvProgress (percent : Z) (text : string)
  | EvTick (h : positive)
  | EvSettle (k : nat) (o : fetch_outcome).

Definition dispatch (ev : event) : M unit :=
  match ev with
  | EvStart sessionId => startPolling sessionId
  | EvStop => stopPolling
  | EvProgress percent text => updateProgress percent text
  | EvTick h =>
      t ← gets (λ s, timers s !! h);
      match t with
      | Some t => checkStatus (cb_session t)
      | None => mret tt              (* a cleared timer never fires *)
      end
  | EvSettle k o =>
      u ← gets (λ s, pending s !! k);
      match u with
      | Some _ =>
          modify (λ s, set_pending (delete k (pending s)) s);;
          checkStatus_settled o
      | None => mret tt
      end
  end.

Definition step_event (ev : event) (s : page) : page := exec (dispatch ev) s.

Definition run (evs : list event) (s : page) : page :=
  foldl (λ s ev, step_event ev s) s evs.

(** Events other than a script calling [startPolling]. *)
Definition not_start (ev : event) : Prop :=
  match ev with EvStart _ => False | _ => True end.

(** *** A page as loaded

    [window.APP] as main.js initialises it, no timer, nothing in flight, and
    a progress panel whose six steps are present and not yet marked. *)
Definition pending_step : step_el :=
  {| el_classes := ∅;
     el_icons := [ {| i_classes := {[ "fas"; "fa-circle" ]};
                      i_color := None |} ] |}.

Definition loaded_doc : document :=
  {| progressBar := {| pb_width := 0; pb_text := 0;
                       pb_classes := {[ "progress-bar";
                                        "progress-bar-striped";
                                        "progress-bar-animated" ]} |};
     statusText := "";
     stepEls := list_to_map ((λ st, (step_id st, pending_step)) <$> steps);
     progressSection := false; resultSection := false;
     sessionIdText := "";
     formInputsDisabled := false; uploadBtnDisabled := false;
     uploadBtnText := "Processar Arquivos";
     reviewBtnClick := None; downloadBtnClick := None;
     toasts := [] |}.

Definition loaded_page : page :=
  {| app := {| currentSessionId := JNull; pollingInterval := None;
               isProcessing := false |};
     timers := ∅; next_timer := 1%positive; pending := [];
     console := []; calls := [];
     doc := loaded_doc |}.

(** ** Observations *)

(** The progress percentage the bar shows. *)
Definition progress (s : page) : Z := pb_width (progressBar (doc s)).

(** How a step node reads on screen: the two class names the tracker
    toggles; a node with neither is pending. *)
Inductive step_class : Type := Completed | Current | Pending.

#[global] Instance step_class_eq_dec : EqDecision step_class.
Proof. solve_decision. Defined.

Definition classify (el : step_el) : step_class :=
  if decide ("completed" ∈ el_classes el) then Completed
  else if decide ("current" ∈ el_classes el) then Current
  else Pending.

Definition step_classes (s : page) : gmap string step_class :=
  classify <$> stepEls (doc s).

(** Every active timer is the one [window.APP.pollingInterval] holds. *)
Definition tracked (s : page) : Prop :=
  dom (timers s) ⊆ from_option singleton ∅ (pollingInterval (app s)).

#[global] Instance tracked_dec s : Decision (tracked s).
Proof. unfold tracked. apply _. Defined.

(** The progress shown after each of a series of status updates. *)
Fixpoint progress_trace (ds : list jsdata) (s : page) : list Z :=
  match ds with
  | [] => []
  | d :: ds' =>
      let s' := exec (handleStatusUpdate d) s in
      progress s' :: progress_trace ds' s'
  end.

Definition has_status (lit : string) (data : jsdata) : Prop :=
  ∃ sid, data = DataObj (JStr lit) sid.


(** Events that are no answer with status 'completed'. *)
Definition no_completed_answer (ev : event) : Prop :=
  match ev with
  | EvSettle _ (Response _ _ _ (Some data)) => ¬ has_status "completed" data
  | _ => True
  end.

(** One update advances the progress the way an increment under a ceiling of
    90 would: from below the ceiling it rises, and not above the ceiling. *)
Definition advances (p p' : Z) : Prop := p < 90 → p < p' ≤ 90.

(** The page on which the handlers of an answer run while another poll of
    the same session is still in flight: two ticks have issued two requests
    and the later one has just been answered. *)
Definition answering_page : page :=
  let s := run [EvProgress 10 "Enviando arquivos..."; EvStart "3f9a";
                EvProgress 30 "Processando dados...";
                EvTick 1%positive; EvTick 1%positive] loaded_page in
  set_pending (delete 1%nat (pending s)) s.

(** The frame an 'error' update would have if it changed nothing but the
    classes of the bar, the status text and the enabled state of the form
    ([calls] is the record of handler entries, no part of the page). *)
Definition only_styling_text_form (s s' : page) : Prop :=
  ∃ classes text inputs btn,
    set_calls (calls s) s'
    = upd_doc (λ d, set_form inputs btn (uploadBtnText d)
                      (set_statusText text
                         (set_progressBar
                            {| pb_width := pb_width (progressBar d);
                               pb_text := pb_text (progressBar d);
                               pb_classes := classes |} d))) s.

(** A page on which a session has completed while an earlier poll of it was
    still in flight: two ticks issue two requests, the later one is answered
    first, with 'completed'. *)
Definition completed_page : page :=
  run [EvProgress 10 "Enviando arquivos..."; EvStart "3f9a";
       EvProgress 30 "Processando dados...";
       EvTick 1%positive; EvTick 1%positive;
       EvSettle 1 (Response true 200 "OK"
                     (Some (DataObj (JStr "completed") (JStr "3f9a"))))]
      loaded_page.

(** ** FileHandler (main.js, lines 250-282) *)

(** A [File] of the browser: the three properties the scripts read. *)
Record file : Type := {
  file_name : string;
  file_size : Z;
  file_type : string
}.

#[global] Instance file_eq_dec : EqDecision file.
Proof. solve_decision. Defined.

(** [s.split(sep)] for a one-character separator: never empty. *)
Fixpoint split_on (sep : Ascii.ascii) (s : string) : list string :=
  match s with
  | EmptyString => [EmptyString]
  | String c s' =>
      if Ascii.eqb c sep then EmptyString :: split_on sep s'
      else match split_on sep s' with
           | seg :: segs => String c seg :: segs
           | [] => [String c EmptyString]
           end
  end.

(** [s.toLowerCase()] on the letters A-Z; strings are taken as ASCII. *)
Definition lower_ascii (c : Ascii.ascii) : Ascii.ascii :=
  let n := Ascii.nat_of_ascii c in
  if ((65 <=? n) && (n <=? 90))%nat then Ascii.ascii_of_nat (n + 32) else c.

Fixpoint toLowerCase (s : string) : string :=
  match s with
  | EmptyString => EmptyString
  | String c s' => String (lower_ascii c) (toLowerCase s')
  end.

(** [name.split('.').pop().toLowerCase()], lines 253 and (upload) 148. *)
Definition extension (name : string) : string :=
  toLowerCase (default EmptyString (last (split_on "."%char name))).

(** [FileHandler.validateFile], lines 252-255. *)
Definition validateFile (f : file) (allowedTypes : list string) : bool :=
  bool_decide (extension (file_name f) ∈ allowedTypes).

(** [FileHandler.validateSize], lines 258-260. *)
Definition validateSize (f : file) (maxSize : Z) : bool :=
  file_size f <=? maxSize.

(** What [createFilePreview], lines 263-281, puts in the list: the
    [data-filename], the icon, the name and the byte count it hands to
    [Utils.formatFileSize], whose text is not modelled. *)
Record preview : Type := {
  pv_filename : string;
  pv_icon : string;
  pv_name : string;
  pv_bytes : Z
}.

Definition createFilePreview (f : file) : preview :=
  let isImage := String.prefix "image/" (file_type f) in
  {| pv_filename := file_name f;
     pv_icon := if isImage then "fa-image" else "fa-file-text";
     pv_name := file_name f;
     pv_bytes := file_size f |}.

(** ** The upload form (upload script) *)

Definition transcription_types : list string := ["txt"; "vtt"].
Definition screenshot_types : list string := ["png"; "jpg"; "jpeg"; "gif"; "bmp"].
Definition MB : Z := 1024 * 1024.

(** [selectedFiles], lines 4-7 of the upload script. *)
Record selected_files : Type := {
  transcription : option file;
  screenshots : list file
}.

(** What [uploadFiles] appends to its [FormData]. *)
Record form_data : Type := {
  fd_transcription : option file;
  fd_screenshots : list file;
  fd_transcription_only_mode : bool;
  fd_aiProvider : string;
  fd_aiModel : string;
  fd_agentType : string;
  fd_aiToken : string
}.

(** The AI settings of the form, as [.val()] reads them. *)
Record ai_config : Type := {
  aiProvider : string;
  aiModel : string;
  agentType : string;
  aiToken : string
}.

(** The nodes the transcription-only checkbox rewrites. *)
Record mode_nodes : Type := {
  screenshotsSection : bool;           (* shown? *)
  screenshotsRequired : bool;
  dragDropP : string;
  dragDropSmall : string;
  ocrSpan : string                     (* #step-ocr span *)
}.

(** The nodes of the upload page the upload script writes, besides those the
    tracker shares. *)
Record upload_dom : Type := {
  onlyModeChecked : bool;              (* #transcriptionOnlyMode *)
  transcriptionInput : list file;      (* files of #transcription *)
  screenshotsInput : list file;        (* files of #screenshots *)
  modeNodes : mode_nodes;
  fileListContent : list preview;
  fileList : bool;                     (* shown? *)
  uploadBtnClasses : gset string;
  uploadFormParent : bool;             (* shown? *)
  ai : ai_config
}.

Record upload_page : Type := {
  selectedFiles : selected_files;
  nodes : upload_dom;
  uploading : list form_data;          (* POST /upload in flight *)
  processing : list string;            (* POST /process/... in flight *)
  main : page
}.

(** *** Field updates of the upload page *)

Definition set_onlyModeChecked (x : bool) (d : upload_dom) : upload_dom :=
  {| onlyModeChecked := x; transcriptionInput := transcriptionInput d;
     screenshotsInput := screenshotsInput d; modeNodes := modeNodes d;
     fileListContent := fileListContent d; fileList := fileList d;
     uploadBtnClasses := uploadBtnClasses d;
     uploadFormParent := uploadFormParent d; ai := ai d |}.

Definition set_transcriptionInput (x : list file) (d : upload_dom)
  : upload_dom :=
  {| onlyModeChecked := onlyModeChecked d; transcriptionInput := x;
     screenshotsInput := screenshotsInput d; modeNodes := modeNodes d;
     fileListContent := fileListContent d; fileList := fileList d;
     uploadBtnClasses := uploadBtnClasses d;
     uploadFormParent := uploadFormParent d; ai := ai d |}.

Definition set_screenshotsInput (x : list file) (d : upload_dom)
  : upload_dom :=
  {| onlyModeChecked := onlyModeChecked d;
     transcriptionInput := transcriptionInput d; screenshotsInput := x;
     modeNodes := modeNodes d; fileListContent := fileListContent d;
     fileList := fileList d; uploadBtnClasses := uploadBtnClasses d;
     uploadFormParent := uploadFormParent d; ai := ai d |}.

Definition set_modeNodes (x : mode_nodes) (d : upload_dom) : upload_dom :=
  {| onlyModeChecked := onlyModeChecked d;
     transcriptionInput := transcriptionInput d;
     screenshotsInput := screenshotsInput d; modeNodes := x;
     fileListContent := fileListContent d; fileList := fileList d;
     uploadBtnClasses := uploadBtnClasses d;
     uploadFormParent := uploadFormParent d; ai := ai d |}.

Definition set_fileListContent (x : list preview) (d : upload_dom)
  : upload_dom :=
  {| onlyModeChecked := onlyModeChecked d;
     transcriptionInput := transcriptionInput d;
     screenshotsInput := screenshotsInput d; modeNodes := modeNodes d;
     fileListContent := x; fileList := fileList d;
     uploadBtnClasses := uploadBtnClasses d;
     uploadFormParent := uploadFormParent d; ai := ai d |}.

Definition set_fileList (x : bool) (d : upload_dom) : upload_dom :=
  {| onlyModeChecked := onlyModeChecked d;
     transcriptionInput := transcriptionInput d;
     screenshotsInput := screenshotsInput d; modeNodes := modeNodes d;
     fileListContent := fileListContent d; fileList := x;
     uploadBtnClasses := uploadBtnClasses d;
     uploadFormParent := uploadFormParent d; ai := ai d |}.

Definition set_uploadBtnClasses (x : gset string) (d : upload_dom)
  : upload_dom :=
  {| onlyModeChecked := onlyModeChecked d;
     transcriptionInput := transcriptionInput d;
     screenshotsInput := screenshotsInput d; modeNodes := modeNodes d;
     fileListContent := fileListContent d; fileList := fileList d;
     uploadBtnClasses := x; uploadFormParent := uploadFormParent d;
     ai := ai d |}.

Definition set_uploadFormParent (x : bool) (d : upload_dom) : upload_dom :=
  {| onlyModeChecked := onlyModeChecked d;
     transcriptionInput := transcriptionInput d;
     screenshotsInput := screenshotsInput d; modeNodes := modeNodes d;
     fileListContent := fileListContent d; fileList := fileList d;
     uploadBtnClasses := uploadBtnClasses d; uploadFormParent := x;
     ai := ai d |}.

Definition set_selectedFiles (x : selected_files) (u : upload_page)
  : upload_page :=
  {| selectedFiles := x; nodes := nodes u; uploading := uploading u;
     processing := processing u;
     main := main u |}.

Definition set_nodes (x : upload_dom) (u : upload_page) : upload_page :=
  {| selectedFiles := selectedFiles u; nodes := x; uploading := uploading u;
     processing := processing u;
     main := main u |}.

Definition set_uploading (x : list form_data) (u : upload_page)
  : upload_page :=
  {| selectedFiles := selectedFiles u; nodes := nodes u; uploading := x;
     processing := processing u;
     main := main u |}.

Definition set_processing (x : list string) (u : upload_page) : upload_page :=
  {| selectedFiles := selectedFiles u; nodes := nodes u;
     uploading := uploading u; processing := x;
     main := main u |}.

Definition set_main (x : page) (u : upload_page) : upload_page :=
  {| selectedFiles := selectedFiles u; nodes := nodes u;
     uploading := uploading u; processing := processing u;
     main := x |}.

Definition upd_nodes (f : upload_dom → upload_dom) (u : upload_page)
  : upload_page :=
  set_nodes (f (nodes u)) u.

Definition upd_main (f : page → page) (u : upload_page) : upload_page :=
  set_main (f (main u)) u.

Definition set_isProcessing (b : bool) (s : page) : page :=
  {| app := {| currentSessionId := currentSessionId (app s);
               pollingInterval := pollingInterval (app s);
               isProcessing := b |};
     timers := timers s; next_timer := next_timer s; pending := pending s;
     console := console s; calls := calls s; doc := doc s |}.

Definition set_currentSessionId (v : jsval) (s : page) : page :=
  {| app := {| currentSessionId := v;
               pollingInterval := pollingInterval (app s);
               isProcessing := isProcessing (app s) |};
     timers := timers s; next_timer := next_timer s; pending := pending s;
     console := console s; calls := calls s; doc := doc s |}.

Definition set_transcription (t : option file) (u : upload_page) : upload_page :=
  set_selectedFiles {| transcription := t;
                       screenshots := screenshots (selectedFiles u) |} u.

Definition set_screenshots (l : list file) (u : upload_page) : upload_page :=
  set_selectedFiles {| transcription := transcription (selectedFiles u);
                       screenshots := l |} u.

(** *** Statements of the upload script *)

(** Statements run one after the other. *)
Definition seq (fs : list (upload_page → upload_page)) (u : upload_page)
  : upload_page :=
  foldl (λ u f, f u) u fs.

Definition toast (message type : string) : upload_page → upload_page :=
  upd_main (exec (showToast message type)).

(** The double quote, for the literals that contain one. *)
Definition dq : string := String (ascii_of_nat 34) EmptyString.

Definition rocket_label : string :=
  "<i class=" +:+ dq +:+ "fas fa-rocket me-2" +:+ dq +:+ "></i>Processar Arquivos".

Definition spinner_label : string :=
  "<i class=" +:+ dq +:+ "fas fa-spinner fa-spin me-2" +:+ dq +:+ "></i>Enviando...".

(** [$('#uploadForm input').prop('disabled', false);
     $('#uploadBtn').prop('disabled', false).html(rocket)]: lines 333-334,
    367-368 and 382-383 of the upload script. *)
Definition enable_form : upload_page → upload_page :=
  seq [ upd_main (upd_doc (λ d, set_form false (uploadBtnDisabled d)
                                   (uploadBtnText d) d));
        upd_main (upd_doc (λ d, set_form (formInputsDisabled d) false
                                   rocket_label d)) ].

Definition hide_progressSection : upload_page → upload_page :=
  upd_main (upd_doc (λ d, set_sections false (resultSection d) d)).

(** The test [updateFormValidation] makes, lines 250-259. *)
Definition isValid (u : upload_page) : bool :=
  if onlyModeChecked (nodes u)
  then bool_decide (transcription (selectedFiles u) ≠ None)
  else bool_decide (transcription (selectedFiles u) ≠ None)
       && (0 <? length (screenshots (selectedFiles u)))%nat.

(** [updateFormValidation], lines 246-268. *)
Definition updateFormValidation : upload_page → upload_page := λ u,
  let valid := isValid u in
  seq [ upd_main (upd_doc (λ d, set_form (formInputsDisabled d) (negb valid)
                                   (uploadBtnText d) d));
        upd_nodes (λ d, set_uploadBtnClasses
                     (if valid
                      then jq_addClass ["btn-primary"]
                             (jq_removeClass ["btn-secondary"]
                                (uploadBtnClasses d))
                      else jq_addClass ["btn-secondary"]
                             (jq_removeClass ["btn-primary"]
                                (uploadBtnClasses d))) d) ] u.

(** [updateFileList], lines 181-212. *)
Definition updateFileList : upload_page → upload_page :=
  seq [ upd_nodes (set_fileListContent []);
        (λ u, match transcription (selectedFiles u) with
              | Some t => upd_nodes (λ d, set_fileListContent
                            (fileListContent d ++ [createFilePreview t]) d) u
              | None => u
              end);
        (λ u, foldl (λ u f, upd_nodes (λ d, set_fileListContent
                              (fileListContent d ++ [createFilePreview f]) d) u)
                u (screenshots (selectedFiles u)));
        (λ u, let hasFiles :=
                bool_decide (transcription (selectedFiles u) ≠ None)
                || (0 <? length (screenshots (selectedFiles u)))%nat in
              upd_nodes (set_fileList hasFiles) u);
        updateFormValidation ].

(** The change handler of [#transcription], lines 10-26; [files] is what the
    user picked, already in the input when the handler runs. *)
Definition on_transcription_change (files : list file)
  : upload_page → upload_page :=
  seq [ upd_nodes (set_transcriptionInput files);
        (λ u, match files with
              | f :: _ =>
                  if validateFile f transcription_types then
                    if validateSize f (10 * MB) then
                      seq [ set_transcription (Some f); updateFileList ] u
                    else
                      seq [ toast "Arquivo de transcrição muito grande (máximo 10MB)"
                              "warning";
                            upd_nodes (set_transcriptionInput []) ] u
                  else
                    seq [ toast "Formato de transcrição não suportado" "warning";
                          upd_nodes (set_transcriptionInput []) ] u
              | [] => u
              end) ].

(** [$('#step-ocr i').removeClass(rem).addClass(add)]. *)
Definition ocr_icon (rem add : list string) : upload_page → upload_page :=
  upd_main (upd_doc (λ d, set_stepEls
    (alter (λ el, {| el_classes := el_classes el;
                     el_icons :=
                       (λ i, {| i_classes :=
                                  jq_addClass add (jq_removeClass rem (i_classes i));
                                i_color := i_color i |}) <$> el_icons el |})
       "step-ocr" (stepEls d)) d)).

(** The screenshots section shown or hidden, the input required or not, and
    the two texts of the drop zone. *)
Definition mode_texts (withScreenshots : bool) (p small : string)
  : upload_page → upload_page :=
  upd_nodes (λ d, set_modeNodes
    {| screenshotsSection := withScreenshots;
       screenshotsRequired := withScreenshots;
       dragDropP := p; dragDropSmall := small;
       ocrSpan := ocrSpan (modeNodes d) |} d).

(** [$('#step-ocr span').text(t)]: nothing to write when the step node is
    not in the page. *)
Definition ocr_span (t : string) : upload_page → upload_page := λ u,
  if bool_decide (is_Some (stepEls (doc (main u)) !! "step-ocr"))
  then upd_nodes (λ d, set_modeNodes
         {| screenshotsSection := screenshotsSection (modeNodes d);
            screenshotsRequired := screenshotsRequired (modeNodes d);
            dragDropP := dragDropP (modeNodes d);
            dragDropSmall := dragDropSmall (modeNodes d);
            ocrSpan := t |} d) u
  else u.

(** The change handler of the transcription-only checkbox, lines 29-69. *)
Definition on_onlyMode_change (isChecked : bool) : upload_page → upload_page :=
  seq [ upd_nodes (set_onlyModeChecked isChecked);
        (if isChecked then
           seq [ set_screenshots [];
                 upd_nodes (set_screenshotsInput []);
                 mode_texts false
                   "<strong>Arraste transcrição aqui</strong> ou use o campo acima"
                   "Apenas transcrições (.txt, .vtt)";
                 ocr_span "Análise de screenshots (PULADO - modo só transcrição)";
                 ocr_icon ["fa-circle"] ["fa-minus-circle"; "text-muted"];
                 toast "Modo apenas transcrição ativado" "info" ]
         else
           seq [ mode_texts true
                   "<strong>Arraste arquivos aqui</strong> ou use os campos acima"
                   "Transcrições (.txt, .vtt) e Screenshots (.png, .jpg)";
                 ocr_span "Análise de screenshots (OCR)";
                 ocr_icon ["fa-minus-circle"; "text-muted"] ["fa-circle"];
                 toast "Screenshots obrigatórios novamente" "info" ]);
        updateFileList ].

(** The [forEach] of the screenshots handler, lines 76-83: the files kept so
    far, their total size, and the page with the toasts shown so far. *)
Definition screenshots_loop (files : list file) (u : upload_page)
  : list file * Z * upload_page :=
  foldl (λ '(validFiles, totalSize, u) f,
           if validateFile f screenshot_types
           then (validFiles ++ [f], totalSize + file_size f, u)
           else (validFiles, totalSize,
                 toast ("Formato não suportado: " +:+ file_name f) "warning" u))
    ([], 0, u) files.

(** The change handler of [#screenshots], lines 71-93. *)
Definition on_screenshots_change (files : list file)
  : upload_page → upload_page :=
  seq [ upd_nodes (set_screenshotsInput files);
        (λ u, let '(validFiles, totalSize, u) := screenshots_loop files u in
              if totalSize >? 40 * MB then
                seq [ toast "Total de screenshots muito grande (máximo 40MB)"
                        "warning";
                      upd_nodes (set_screenshotsInput []) ] u
              else
                seq [ set_screenshots validFiles; updateFileList ] u) ].

(** One round of the [forEach] of [processDraggedFiles], lines 147-169. *)
Definition drop_one (u : upload_page) (f : file) : upload_page :=
  let ext := extension (file_name f) in
  if bool_decide (ext ∈ transcription_types) then
    match transcription (selectedFiles u) with
    | None =>
        if validateSize f (10 * MB) then
          seq [ set_transcription (Some f);
                upd_nodes (set_transcriptionInput [f]) ] u
        else toast "Arquivo de transcrição muito grande" "warning" u
    | Some _ => toast "Apenas um arquivo de transcrição é permitido" "warning" u
    end
  else if bool_decide (ext ∈ screenshot_types) then
    set_screenshots (screenshots (selectedFiles u) ++ [f]) u
  else toast ("Formato não suportado: " +:+ file_name f) "warning" u.

(** [processDraggedFiles], lines 146-179. *)
Definition processDraggedFiles (files : list file) : upload_page → upload_page :=
  seq [ (λ u, foldl drop_one u files);
        (λ u, if (0 <? length (screenshots (selectedFiles u)))%nat
              then upd_nodes (set_screenshotsInput (screenshots (selectedFiles u))) u
              else u);
        updateFileList ].

(** [removeFile], lines 214-228. *)
Definition removeFile (filename : string) : upload_page → upload_page :=
  seq [ (λ u, match transcription (selectedFiles u) with
              | Some t =>
                  if bool_decide (file_name t = filename)
                  then seq [ set_transcription None;
                             upd_nodes (set_transcriptionInput []) ] u
                  else u
              | None => u
              end);
        (λ u, set_screenshots
                (filter (λ f, file_name f ≠ filename)
                   (screenshots (selectedFiles u))) u);
        (λ u, upd_nodes (set_screenshotsInput (screenshots (selectedFiles u))) u);
        updateFileList ].

(** [validateForm], lines 230-244: the page with the toast it may show, and
    its verdict. *)
Definition validateForm (u : upload_page) : upload_page * bool :=
  let transcriptionOnlyMode := onlyModeChecked (nodes u) in
  if bool_decide (transcription (selectedFiles u) = None) then
    (toast "Arquivo de transcrição é obrigatório" "warning" u, false)
  else if negb transcriptionOnlyMode
          && (length (screenshots (selectedFiles u)) =? 0)%nat then
    (toast ("Screenshots são obrigatórios (ou marque a opção " +:+ dq
            +:+ "apenas transcrição" +:+ dq +:+ ")") "warning" u, false)
  else (u, true).

(** [startProcessing], lines 341-373, up to the fetch. The function uses its
    argument in template literals only (line 342 and, through
    [startPolling], main.js line 132), so it is given here as the string
    these make of it. *)
Definition startProcessing (sessionId : string) : upload_page → upload_page :=
  λ u, set_processing (processing u ++ [sessionId]) u.

(** [uploadFiles], lines 270-339, up to the fetch. *)
Definition uploadFiles : upload_page → upload_page := λ u,
  let transcriptionOnlyMode := onlyModeChecked (nodes u) in
  let formData :=
    {| fd_transcription := transcription (selectedFiles u);
       fd_screenshots := if transcriptionOnlyMode then []
                         else screenshots (selectedFiles u);
       fd_transcription_only_mode := transcriptionOnlyMode;
       fd_aiProvider := aiProvider (ai (nodes u));
       fd_aiModel := aiModel (ai (nodes u));
       fd_agentType := agentType (ai (nodes u));
       fd_aiToken := aiToken (ai (nodes u)) |} in
  seq [ upd_main (upd_doc (λ d, set_form true (uploadBtnDisabled d)
                                   (uploadBtnText d) d));
        upd_main (upd_doc (λ d, set_form (formInputsDisabled d) true
                                   spinner_label d));
        upd_main (upd_doc (λ d, set_sections true (resultSection d) d));
        upd_main (exec (updateProgress 10 "Enviando arquivos..."));
        (λ u, set_uploading (uploading u ++ [formData]) u) ] u.

(** The submit handler, lines 130-138. *)
Definition on_submit (u : upload_page) : upload_page :=
  let '(u, ok) := validateForm u in
  if ok then uploadFiles u else u.

(** How a POST of the upload script settles. For [/upload] the decoded body
    is [null] or any other value, of which the script reads [session_id]
    only: [undefined] when the body has no such property (an object without
    it, a number, a string, a boolean). For [/process] the body is not
    looked at. *)
Inductive upload_body : Type :=
  | BodyNull
  | BodyObj (session_id : jsval).

Inductive post_outcome (B : Type) : Type :=
  | PostRejected (what : string)
  | PostResponse (ok : bool) (code : Z) (json : option B).
Arguments PostRejected {B} what.
Arguments PostResponse {B} ok code json.

(** The [catch] of [uploadFiles], lines 328-338. *)
Definition upload_failed (error : exn) : upload_page → upload_page :=
  seq [ upd_main (exec (console_error "Upload error:" error));
        toast "Erro no upload. Tente novamente." "danger";
        enable_form;
        hide_progressSection ].

(** The handlers of [uploadFiles], lines 309-338, when its fetch settles.
    The [Error] thrown for a response that is not ok carries the status code
    only. *)
Definition upload_settled (o : post_outcome upload_body)
  : upload_page → upload_page :=
  match o with
  | PostRejected what => upload_failed (NetworkError what)
  | PostResponse false code _ => upload_failed (HttpError code "")
  | PostResponse true _ None => upload_failed SyntaxError
  | PostResponse true _ (Some data) =>
      seq [ toast "Arquivos enviados com sucesso!" "success";
            (match data with
             | BodyNull => upload_failed (TypeError "data.session_id")
             | BodyObj session_id =>
                 seq [ upd_main (set_currentSessionId session_id);
                       upd_main (exec (updateProgress 20 "Upload concluído"));
                       startProcessing (template_string session_id);
                       upd_nodes (set_uploadFormParent false) ]
             end) ]
  end.

(** The [catch] of [startProcessing], lines 362-372. *)
Definition process_failed (error : exn) : upload_page → upload_page :=
  seq [ upd_main (exec (console_error "Processing error:" error));
        toast "Erro ao iniciar processamento" "danger";
        enable_form;
        hide_progressSection ].

(** The handlers of [startProcessing], lines 345-372, when its fetch settles. *)
Definition process_settled (sessionId : string) (o : post_outcome unit)
  : upload_page → upload_page :=
  match o with
  | PostRejected what => process_failed (NetworkError what)
  | PostResponse false code _ => process_failed (HttpError code "")
  | PostResponse true _ None => process_failed SyntaxError
  | PostResponse true _ (Some _) =>
      seq [ toast "Processamento iniciado" "info";
            upd_main (exec (startPolling sessionId));
            upd_main (exec (updateProgress 30 "Processando dados..."));
            upd_main (set_isProcessing true) ]
  end.

(** The click handler of [#cancelBtn], lines 376-391; [confirmed] is what
    [confirm] returned. *)
Definition on_cancel (confirmed : bool) : upload_page → upload_page :=
  if confirmed then
    seq [ upd_main (exec stopPolling);
          upd_main (set_isProcessing false);
          enable_form;
          upd_nodes (set_uploadFormParent true);
          hide_progressSection;
          toast "Processamento cancelado" "info" ]
  else id.

(** The values [form.reset()] gives back to the controls of [#uploadForm]:
    what the markup declares for the checkbox and for the AI settings. A
    file input has no default and is emptied. *)
Record form_defaults : Type := {
  default_onlyModeChecked : bool;
  default_ai : ai_config
}.

(** [$('#uploadForm')[0].reset()], line 464. A reset fires no change event,
    so no handler of the script runs. *)
Definition form_reset (dflt : form_defaults) : upload_page → upload_page :=
  upd_nodes (λ d,
    {| onlyModeChecked := default_onlyModeChecked dflt;
       transcriptionInput := []; screenshotsInput := [];
       modeNodes := modeNodes d; fileListContent := fileListContent d;
       fileList := fileList d; uploadBtnClasses := uploadBtnClasses d;
       uploadFormParent := uploadFormParent d; ai := default_ai dflt |}).

(** [window.UploadHandler.reset], lines 463-475. The object is built outside
    the ready callback, so the [selectedFiles] its last statement assigns is
    not the [let] of line 4 that the handlers read, but a variable of the
    global object (the script has no strict-mode directive). The result is
    the page and the value given to that global. *)
Definition UploadHandler_reset (dflt : form_defaults) (u : upload_page)
  : upload_page * selected_files :=
  (seq [ form_reset dflt;
         upd_nodes (set_fileList false);
         upd_nodes (set_fileListContent []);
         hide_progressSection;
         upd_main (upd_doc (λ d, set_sections (progressSection d) false d));
         upd_nodes (set_uploadFormParent true) ] u,
   {| transcription := None; screenshots := [] |}).

(** *** Events of the upload page *)

Inductive upload_event : Type :=
  | UvTranscription (files : list file)
  | UvOnlyMode (isChecked : bool)
  | UvScreenshots (files : list file)
  | UvDrop (files : list file)
  | UvRemove (filename : string)
  | UvSubmit
  | UvUploadSettled (k : nat) (o : post_outcome upload_body)
  | UvProcessSettled (k : nat) (o : post_outcome unit)
  | UvCancel (confirmed : bool)
  | UvTracker (ev : event).

Definition upload_step (ev : upload_event) (u : upload_page) : upload_page :=
  match ev with
  | UvTranscription files => on_transcription_change files u
  | UvOnlyMode isChecked => on_onlyMode_change isChecked u
  | UvScreenshots files => on_screenshots_change files u
  | UvDrop files => processDraggedFiles files u
  | UvRemove filename => removeFile filename u
  | UvSubmit => on_submit u
  | UvUploadSettled k o =>
      match uploading u !! k with
      | Some _ => upload_settled o (set_uploading (delete k (uploading u)) u)
      | None => u
      end
  | UvProcessSettled k o =>
      match processing u !! k with
      | Some sessionId =>
          process_settled sessionId o
            (set_processing (delete k (processing u)) u)
      | None => u
      end
  | UvCancel confirmed => on_cancel confirmed u
  | UvTracker ev => upd_main (step_event ev) u
  end.

Definition upload_run (evs : list upload_event) (u : upload_page) : upload_page :=
  foldl (λ u ev, upload_step ev u) u evs.

(** The upload page as loaded: nothing selected, the form as the unchecked
    branch of the checkbox handler leaves it, and the button as the initial
    [updateFormValidation()] of the script, line 414, sets it. *)
Definition loaded_upload : upload_page :=
  updateFormValidation
    {| selectedFiles := {| transcription := None; screenshots := [] |};
       nodes :=
         {| onlyModeChecked := false;
            transcriptionInput := []; screenshotsInput := [];
            modeNodes :=
              {| screenshotsSection := true; screenshotsRequired := true;
                 dragDropP := "<strong>Arraste arquivos aqui</strong> ou use os campos acima";
                 dragDropSmall := "Transcrições (.txt, .vtt) e Screenshots (.png, .jpg)";
                 ocrSpan := "Análise de screenshots (OCR)" |};
            fileListContent := []; fileList := false;
            uploadBtnClasses := {[ "btn"; "btn-secondary" ]};
            uploadFormParent := true;
            ai := {| aiProvider := "openai"; aiModel := "gpt-4";
                     agentType := "default"; aiToken := "" |} |};
       uploading := []; processing := [];
       main := loaded_page |}.

(** ** The history page (history script) *)

(** The [pagination] object of a /history answer, as [displayPagination]
    reads it: [page], [pages], [has_prev] and [has_next]. *)
Record pagination : Type := {
  pg_page : Z;
  pg_pages : Z;
  has_prev : bool;
  has_next : bool
}.

(** The links [displayPagination] appends to [#paginationNav], with their
    [data-page]. *)
Inductive nav_link : Type :=
  | LinkPrev (data_page : Z)
  | LinkNumber (i : Z) (active : bool)
  | LinkNext (data_page : Z).

(** [displayPagination], lines 297-349 of the history script: the content of
    the nav after the call, which empties it first. *)
Definition displayPagination (pagination : pagination) : list nav_link :=
  if pg_pages pagination <=? 1 then []
  else
    let startPage := 1 `max` (pg_page pagination - 2) in
    let endPage := pg_pages pagination `min` (pg_page pagination + 2) in
    (if has_prev pagination then [LinkPrev (pg_page pagination - 1)] else [])
    ++ ((λ i, LinkNumber i (bool_decide (i = pg_page pagination)))
          <$> seqZ startPage (endPage - startPage + 1))
    ++ (if has_next pagination then [LinkNext (pg_page pagination + 1)] else []).

Definition data_page (l : nav_link) : Z :=
  match l with
  | LinkPrev p | LinkNext p => p
  | LinkNumber i _ => i
  end.

(** The click handler of a link, lines 341-348: the [currentPage] it leaves
    and whether it calls [loadSessions]. *)
Definition on_page_click (l : nav_link) (currentPage : Z) : Z * bool :=
  let page := data_page l in
  if negb (page =? 0) && negb (page =? currentPage) then (page, true)
  else (currentPage, false).

(** The numbered links of a nav, in order. *)
Definition numbered (nav : list nav_link) : list (Z * bool) :=
  omap (λ l, match l with
             | LinkNumber i active => Some (i, active)
             | _ => None
             end) nav.

(** *** [debounce], lines 411-421 of the history script *)

Section debounce.
Variable A : Type.                     (* the arguments of a call *)
Variable wait : Z.

(** The closure [debounce] returns, with the timeouts it has pending (their
    arguments and delay) and the calls of [func] made so far. *)
Record debounced : Type := {
  db_timeout : option positive;        (* [let timeout], undefined at first *)
  db_timers : gmap positive (A * Z);
  db_next : positive;                  (* next handle setTimeout hands out *)
  db_calls : list A
}.

Definition db_init : debounced :=
  {| db_timeout := None; db_timers := ∅; db_next := 1%positive;
     db_calls := [] |}.

(** [clearTimeout(timeout)]. *)
Definition db_clear (s : debounced) : debounced :=
  match db_timeout s with
  | Some h => {| db_timeout := db_timeout s; db_timers := delete h (db_timers s);
                 db_next := db_next s; db_calls := db_calls s |}
  | None => s
  end.

(** [executedFunction(...args)]. *)
Definition executedFunction (args : A) (s : debounced) : debounced :=
  let s := db_clear s in
  {| db_timeout := Some (db_next s);
     db_timers := <[ db_next s := (args, wait) ]> (db_timers s);
     db_next := Pos.succ (db_next s);
     db_calls := db_calls s |}.

(** The timeout [h] expires: if it is still pending it is spent and [later]
    runs with the arguments of the call that set it. *)
Definition db_fire (h : positive) (s : debounced) : debounced :=
  match db_timers s !! h with
  | Some (args, _) =>
      let s := db_clear
                 {| db_timeout := db_timeout s; db_timers := delete h (db_timers s);
                    db_next := db_next s; db_calls := db_calls s |} in
      {| db_timeout := db_timeout s; db_timers := db_timers s;
         db_next := db_next s; db_calls := db_calls s ++ [args] |}
  | None => s
  end.

Inductive db_event : Type :=
  | DbCall (args : A)
  | DbFire (h : positive).

Definition db_step (ev : db_event) (s : debounced) : debounced :=
  match ev with
  | DbCall args => executedFunction args s
  | DbFire h => db_fire h s
  end.

Definition db_run (evs : list db_event) (s : debounced) : debounced :=
  foldl (λ s ev, db_step ev s) s evs.

(** Every pending timeout is the one [timeout] holds. *)
Definition db_tracked (s : debounced) : Prop :=
  ∀ h, is_Some (db_timers s !! h) → db_timeout s = Some h.

End debounce.

Arguments db_timeout {A}.
Arguments db_timers {A}.
Arguments db_next {A}.
Arguments db_calls {A}.
Arguments db_init {A}.
Arguments db_clear {A}.
Arguments executedFunction {A}.
Arguments db_fire {A}.
Arguments DbCall {A}.
Arguments DbFire {A}.
Arguments db_step {A}.
Arguments db_run {A}.
Arguments db_tracked {A}.

(** *** Further observations *)

(** What line 187 or line 192 decides for a step at [percent]: the mark it
    sets, or [None] when neither test passes and the node is not touched. *)
Definition step_mark (percent : Z) (st : step) : option step_class :=
  if percent >=? threshold st then Some Completed
  else if percent >=? threshold st - 15 then Some Current
  else None.

(** The handle and the timer table agree: no handle and no timer, or the
    handle of the one active timer, which ticks every 2000 ms. *)
Definition polling_ok (s : page) : Prop :=
  match pollingInterval (app s) with
  | None => timers s = ∅
  | Some h => ∃ sessionId,
      timers s = {[ h := {| cb_session := sessionId; period := 2000 |} ]}
  end.

(** The classes of [#progressBar]. *)
Definition bar_classes (s : page) : gset string :=
  pb_classes (progressBar (doc s)).

(** *** Notions the statements use *)

(** The nodes of [m] read as [p] alone would mark them, for the catalog steps
    present in [m0]. *)
Definition reads_as (p : Z) (m0 m : gmap string step_el) : Prop :=
  ∀ st, st ∈ steps → is_Some (m0 !! step_id st) →
        ∃ el, m !! step_id st = Some el ∧
              classify el = default Pending (step_mark p st).

(** Whether the character [c] occurs in [s]. *)
Fixpoint has_char (c : ascii) (s : string) : bool :=
  match s with
  | EmptyString => false
  | String a s' => Ascii.eqb a c || has_char c s'
  end.

(** The files the form holds, in the order the list shows them. *)
Definition selected_list (u : upload_page) : list file :=
  option_list (transcription (selectedFiles u)) ++ screenshots (selectedFiles u).

(** The file list shows the selected files and the button is enabled exactly
    when the form is valid. *)
Definition in_sync (u : upload_page) : Prop :=
  fileListContent (nodes u) = createFilePreview <$> selected_list u ∧
  fileList (nodes u) = bool_decide (selected_list u ≠ []) ∧
  uploadBtnDisabled (doc (main u)) = negb (isValid u).

(** The events that change the selection: the two inputs, the only-mode
    checkbox, a drop and the remove icon of a preview. *)
Definition is_selection_event (ev : upload_event) : Prop :=
  match ev with
  | UvTranscription _ | UvOnlyMode _ | UvScreenshots _ | UvDrop _ | UvRemove _ =>
      True
  | _ => False
  end.

(** The screenshots the handler keeps, what they weigh, and the toasts for
    the others. *)
Definition accepted (files : list file) : list file :=
  filter (λ f, validateFile f screenshot_types) files.

Definition total_size (files : list file) : Z :=
  foldr (λ f n, file_size f + n) 0 files.

Definition refusals (files : list file) : list (string * string) :=
  (λ f, ("Formato não suportado: " +:+ file_name f, "warning"))
    <$> filter (λ f, ¬ validateFile f screenshot_types) files.

Definition add_toasts (l : list (string * string)) : upload_page → upload_page :=
  upd_main (upd_doc (λ d, set_toasts (toasts d ++ l) d)).

(** The screenshots among dropped files, and the transcription a drop
    selects when none is selected yet. *)
Definition dropped_screenshots (files : list file) : list file :=
  filter (λ f, extension (file_name f) ∈ screenshot_types) files.

Definition dropped_transcription (files : list file) : option file :=
  List.find (λ f, bool_decide (extension (file_name f) ∈ transcription_types)
                  && (file_size f <=? 10 * MB)) files.

(** An answer that reaches the second [then] of a POST: [response.ok] with a
    body that decodes as JSON. *)
Definition post_ok {B} (o : post_outcome B) : bool :=
  match o with
  | PostResponse true _ (Some _) => true
  | _ => false
  end.

Ltac unfold_m :=
  unfold exec, result, mbind, M_bind, bind, catch, gets, modify, mret, M_ret,
    ret, throw.

Ltac each_step H :=
  unfold steps in H;
  repeat (apply elem_of_cons in H as [->|H]);
  [..|by apply elem_of_nil in H].

Ltac in_steps := apply (bool_decide_unpack _); by vm_compute.

Ltac decide_marks :=
  unfold step_mark; simpl;
  repeat match goal with
         | |- context [?a >=? ?b] => destruct (Z.geb_spec a b)
         | H : context [?a >=? ?b] |- _ => destruct (Z.geb_spec a b)
         end;
  try done; try lia.

(** * Properties *)

(** The upload flow up to the first answered poll. *)
Example ex_flow :
  let s := run [EvProgress 10 "Enviando arquivos..."; EvStart "abc";
                EvProgress 30 "Processando dados..."; EvTick 1%positive;
                EvSettle 0 (Response true 200 "OK"
                              (Some (DataObj (JStr "processing") (JStr "abc"))))]
               loaded_page in
  progress s = 60 ∧ pending s = [] ∧ tracked s ∧
  step_classes s !! "step-correlation" = Some Current ∧
  step_classes s !! "step-ai" = Some Pending.
Proof. vm_compute. repeat split; done. Qed.

(** ** Branches of [handleStatusUpdate] *)

Lemma handle_uploading sid :
  handleStatusUpdate (DataObj (JStr "uploading") sid)
  = updateProgress 20 "Upload concluído".
Proof. reflexivity. Qed.

Lemma handle_processing sid :
  handleStatusUpdate (DataObj (JStr "processing") sid)
  = updateProgress 60 "Processando dados...".
Proof. reflexivity. Qed.

Lemma handle_completed sid :
  handleStatusUpdate (DataObj (JStr "completed") sid)
  = (updateProgress 100 "Processamento concluído!";;
     onProcessingComplete (DataObj (JStr "completed") sid)).
Proof. reflexivity. Qed.

Lemma handle_error sid :
  handleStatusUpdate (DataObj (JStr "error") sid)
  = onProcessingError (DataObj (JStr "error") sid).
Proof. reflexivity. Qed.

Lemma strict_eq_str_false v lit : v ≠ JStr lit → strict_eq_str v lit = false.
Proof.
  destruct v as [| |b|n|s|text]; simpl; try done.
  intros Hne. apply bool_decide_eq_false. congruence.
Qed.

Lemma handle_other status sid :
  status ≠ JStr "uploading" → status ≠ JStr "processing" →
  status ≠ JStr "completed" → status ≠ JStr "error" →
  handleStatusUpdate (DataObj status sid) = mret tt.
Proof.
  intros Hu Hp Hc He. unfold handleStatusUpdate, data_status.
  change (mret status ≫= ?k) with (k status). cbv beta.
  by rewrite !strict_eq_str_false.
Qed.

(** ** Stepping through statements *)

Lemma exec_bind {A B} (m : M A) (k : A → M B) s a :
  result m s = Ret a → exec (m ≫= k) s = exec (k a) (exec m s).
Proof.
  unfold exec, result, mbind, M_bind, bind.
  destruct (m s) as [s' [a'|e]]; simpl; congruence.
Qed.

Lemma result_bind {A B} (m : M A) (k : A → M B) s a :
  result m s = Ret a → result (m ≫= k) s = result (k a) (exec m s).
Proof.
  unfold exec, result, mbind, M_bind, bind.
  destruct (m s) as [s' [a'|e]]; simpl; congruence.
Qed.

Lemma result_modify f s : result (modify f) s = Ret tt.
Proof. reflexivity. Qed.

Lemma result_updateProgress p t s : result (updateProgress p t) s = Ret tt.
Proof. reflexivity. Qed.

Lemma result_stopPolling s : result stopPolling s = Ret tt.
Proof.
  unfold result, stopPolling, mbind, M_bind, bind, gets. simpl.
  by destruct (pollingInterval (app s)).
Qed.

Lemma result_startPolling sessionId s : result (startPolling sessionId) s = Ret tt.
Proof.
  unfold result, startPolling, mbind, M_bind, bind, gets. simpl.
  by destruct (pollingInterval (app s)).
Qed.

(** What [updateProgress] leaves of the page. *)
Lemma updateProgress_spec p t s :
  exec (updateProgress p t) s
  = upd_doc (λ d,
      set_stepEls (render_steps p (stepEls d))
        (set_statusText t
           (set_progressBar {| pb_width := 0 `max` p; pb_text := p;
                               pb_classes := pb_classes (progressBar d) |} d)))
      s.
Proof. reflexivity. Qed.

(** What [stopPolling] leaves of the page. *)
Lemma stopPolling_spec s :
  exec stopPolling s
  = match pollingInterval (app s) with
    | Some h => set_pollingInterval None (set_timers (delete h (timers s)) s)
    | None => s
    end.
Proof.
  unfold exec, stopPolling, mbind, M_bind, bind, gets. simpl.
  by destruct (pollingInterval (app s)).
Qed.

Lemma startPolling_spec sessionId s :
  exec (startPolling sessionId) s
  = let live := match pollingInterval (app s) with
                | Some h => delete h (timers s)
                | None => timers s
                end in
    set_pollingInterval (Some (next_timer s))
      (set_next_timer (Pos.succ (next_timer s))
         (set_timers
            (<[next_timer s := {| cb_session := sessionId; period := 2000 |}]>
               live) s)).
Proof.
  unfold exec, startPolling, mbind, M_bind, bind, gets. simpl.
  by destruct (pollingInterval (app s)).
Qed.

(** ** The invariant of the timer handle *)

Lemma tracked_alt s :
  tracked s ↔ ∀ h, is_Some (timers s !! h) → pollingInterval (app s) = Some h.
Proof.
  unfold tracked. split.
  - intros Hsub h Hh. apply elem_of_dom in Hh. apply Hsub in Hh.
    destruct (pollingInterval (app s)); simpl in Hh; set_solver.
  - intros Hall h Hh. apply elem_of_dom in Hh. rewrite (Hall h Hh). simpl.
    set_solver.
Qed.

Lemma tracked_timers s :
  tracked s →
  timers s = match pollingInterval (app s) with
             | Some h => match timers s !! h with
                         | Some t => {[ h := t ]}
                         | None => ∅
                         end
             | None => ∅
             end.
Proof.
  intros Htr. apply map_eq. intros i.
  pose proof (proj1 (tracked_alt s) Htr i) as Hi.
  destruct (pollingInterval (app s)) as [h|] eqn:Hh.
  - destruct (decide (i = h)) as [->|Hne].
    + destruct (timers s !! h) eqn:Ht.
      * by rewrite lookup_singleton_eq.
      * by rewrite lookup_empty.
    + assert (timers s !! i = None) as ->.
      { destruct (timers s !! i) eqn:Ht; [|done].
        exfalso. apply Hne. assert (Some h = Some i) by (apply Hi; eauto).
        congruence. }
      destruct (timers s !! h).
      * by rewrite lookup_singleton_ne.
      * by rewrite lookup_empty.
  - rewrite lookup_empty. destruct (timers s !! i) eqn:Ht; [|done].
    discriminate Hi. eauto.
Qed.

Lemma tracked_stopPolling_timers s :
  tracked s → timers (exec stopPolling s) = ∅.
Proof.
  intros Htr. rewrite stopPolling_spec.
  pose proof (tracked_timers s Htr) as Ht.
  destruct (pollingInterval (app s)) as [h|]; simpl; [|done].
  rewrite Ht. destruct (timers s !! h).
  - apply delete_singleton_eq.
  - apply delete_empty.
Qed.

Lemma tracked_startPolling_timers sessionId s :
  tracked s →
  timers (exec (startPolling sessionId) s)
  = {[ next_timer s := {| cb_session := sessionId; period := 2000 |} ]}.
Proof.
  intros Htr. rewrite startPolling_spec. simpl.
  pose proof (tracked_timers s Htr) as Ht.
  destruct (pollingInterval (app s)) as [h|]; rewrite Ht.
  - destruct (timers s !! h).
    + by rewrite delete_singleton_eq.
    + by rewrite delete_empty.
  - done.
Qed.

(** ** The terminal handlers *)

Lemma onProcessingComplete_frame data s :
  let s' := exec (onProcessingComplete data) s in
  app s' = app (exec stopPolling s) ∧
  timers s' = timers (exec stopPolling s) ∧
  calls s' = calls s ++ [CallComplete data] ∧
  pending s' = pending s ∧
  progressBar (doc s') = progressBar (doc s) ∧
  stepEls (doc s') = stepEls (doc s).
Proof.
  unfold onProcessingComplete, stopPolling, data_session_id, clearInterval,
    showToast, setupDownloadButtons.
  unfold_m. simpl.
  destruct (pollingInterval (app s));
    destruct data as [|st [| | | |sid|text]]; simpl; done.
Qed.

Lemma onProcessingError_frame data s :
  let s' := exec (onProcessingError data) s in
  result (onProcessingError data) s = Ret tt ∧
  app s' = app (exec stopPolling s) ∧
  timers s' = timers (exec stopPolling s) ∧
  calls s' = calls s ++ [CallError data] ∧
  pending s' = pending s ∧
  console s' = console s ∧
  next_timer s' = next_timer s ∧
  doc s' =
    set_form false false "Processar Arquivos"
      (set_toasts (toasts (doc s) ++
                   [("Erro durante o processamento. Tente novamente.", "danger")])
         (set_statusText "Erro no processamento"
            (set_progressBar
               {| pb_width := pb_width (progressBar (doc s));
                  pb_text := pb_text (progressBar (doc s));
                  pb_classes :=
                    jq_addClass ["bg-danger"]
                      (jq_removeClass
                         ["progress-bar-striped"; "progress-bar-animated"]
                         (pb_classes (progressBar (doc s)))) |}
               (doc s)))).
Proof.
  unfold onProcessingError, stopPolling, clearInterval, showToast.
  unfold_m. simpl.
  destruct (pollingInterval (app s)); simpl; done.
Qed.

(** Which timers and which handle a status update leaves: those it found, or
    what [stopPolling] leaves of them. *)
Lemma handleStatusUpdate_polling data s :
  let s' := exec (handleStatusUpdate data) s in
  (app s' = app s ∧ timers s' = timers s) ∨
  (app s' = app (exec stopPolling s) ∧ timers s' = timers (exec stopPolling s)).
Proof.
  destruct data as [|status sid]; [by left|].
  unfold handleStatusUpdate, data_status.
  change (mret status ≫= ?k) with (k status). cbv beta.
  destruct (strict_eq_str status "uploading"); [by left|].
  destruct (strict_eq_str status "processing"); [by left|].
  destruct (strict_eq_str status "completed").
  { right.
    rewrite (exec_bind _ _ _ tt) by apply result_updateProgress.
    destruct (onProcessingComplete_frame (DataObj status sid)
                (exec (updateProgress 100 "Processamento concluído!") s))
      as (Ha & Ht & _).
    rewrite Ha, Ht. rewrite !stopPolling_spec. simpl.
    by destruct (pollingInterval (app s)). }
  destruct (strict_eq_str status "error"); [|by left].
  right. by destruct (onProcessingError_frame (DataObj status sid) s) as (_ & Ha & Ht & _).
Qed.

Lemma tracked_ext s s' :
  app s' = app s → timers s' = timers s → tracked s → tracked s'.
Proof. unfold tracked. by intros -> ->. Qed.

Lemma tracked_stopPolling s : tracked s → tracked (exec stopPolling s).
Proof.
  intros Htr. unfold tracked. rewrite (tracked_stopPolling_timers s Htr).
  rewrite dom_empty_L. set_solver.
Qed.

Lemma tracked_startPolling sessionId s :
  tracked s → tracked (exec (startPolling sessionId) s).
Proof.
  intros Htr. unfold tracked.
  rewrite (tracked_startPolling_timers sessionId s Htr).
  rewrite startPolling_spec. simpl. by rewrite dom_singleton_L.
Qed.

Lemma tracked_handleStatusUpdate data s :
  tracked s → tracked (exec (handleStatusUpdate data) s).
Proof.
  intros Htr.
  destruct (handleStatusUpdate_polling data s) as [[Ha Ht]|[Ha Ht]].
  - by apply (tracked_ext s).
  - apply (tracked_ext (exec stopPolling s)); auto using tracked_stopPolling.
Qed.

(** The handlers of a settled fetch touch the timers only through
    [handleStatusUpdate]. *)
Lemma checkStatus_settled_polling o s :
  let s' := exec (checkStatus_settled o) s in
  (app s' = app s ∧ timers s' = timers s) ∨
  (∃ data, app s' = app (exec (handleStatusUpdate data) s) ∧
           timers s' = timers (exec (handleStatusUpdate data) s)).
Proof.
  destruct o as [what|[|] code statusText [data|]]; try by left.
  right. exists data.
  unfold checkStatus_settled, apiRequest_settled.
  unfold_m. simpl.
  destruct (handleStatusUpdate data s) as [s1 [[]|e]]; simpl; done.
Qed.

Theorem tracked_step ev s : tracked s → tracked (step_event ev s).
Proof.
  intros Htr. destruct ev as [sessionId| |percent text|h|k o]; unfold step_event.
  - by apply tracked_startPolling.
  - by apply tracked_stopPolling.
  - by apply (tracked_ext s).
  - simpl. unfold_m. simpl. by destruct (timers s !! h).
  - simpl. unfold mbind, M_bind, bind, gets.
    unfold exec. destruct (pending s !! k) as [u|] eqn:Hk; simpl; [|done].
    change (fst ?x) with (exec (checkStatus_settled o)
                            (set_pending (delete k (pending s)) s)).
    set (s0 := set_pending (delete k (pending s)) s).
    assert (tracked s0) as Htr0 by by apply (tracked_ext s).
    destruct (checkStatus_settled_polling o s0) as [[Ha Ht]|(data & Ha & Ht)].
    + by apply (tracked_ext s0).
    + apply (tracked_ext (exec (handleStatusUpdate data) s0)); auto.
      by apply tracked_handleStatusUpdate.
Qed.

Theorem tracked_run evs s : tracked s → tracked (run evs s).
Proof.
  revert s. induction evs as [|ev evs IH]; intros s Htr; simpl; [done|].
  apply IH. by apply tracked_step.
Qed.

Lemma tracked_loaded_page : tracked loaded_page.
Proof. by vm_compute. Qed.

(** A timer that is not active does not fire: with no timer left, timer
    events leave the page as it is. *)
Lemma tick_idle h s : timers s !! h = None → step_event (EvTick h) s = s.
Proof.
  intros Hh. unfold step_event. simpl. unfold_m. simpl. by rewrite Hh.
Qed.

Lemma ticks_idle hs s : timers s = ∅ → run (EvTick <$> hs) s = s.
Proof.
  intros Hnone. induction hs as [|h hs IH]; simpl; [done|].
  rewrite tick_idle; [done|]. by rewrite Hnone, lookup_empty.
Qed.

(** With no timer active and no request in flight, nothing but a new
    [startPolling] wakes the tracker: no other event enters a handler. *)
Lemma idle_step ev s :
  timers s = ∅ → pending s = [] → not_start ev →
  timers (step_event ev s) = ∅ ∧ pending (step_event ev s) = [] ∧
  calls (step_event ev s) = calls s.
Proof.
  intros Ht Hp Hev. destruct ev as [sessionId| |percent text|h|k o]; [done|..].
  - unfold step_event. rewrite stopPolling_spec.
    destruct (pollingInterval (app s)); simpl; [|done].
    by rewrite Ht, delete_empty.
  - done.
  - rewrite tick_idle; [done|]. by rewrite Ht, lookup_empty.
  - unfold step_event. simpl. unfold_m. simpl. by rewrite Hp.
Qed.

Lemma idle_run evs s :
  timers s = ∅ → pending s = [] → Forall not_start evs →
  timers (run evs s) = ∅ ∧ calls (run evs s) = calls s.
Proof.
  intros Ht Hp Hall. revert s Ht Hp.
  induction Hall as [|ev evs Hev _ IH]; intros s Ht Hp; simpl; [done|].
  destruct (idle_step ev s Ht Hp Hev) as (Ht' & Hp' & Hc').
  destruct (IH _ Ht' Hp') as [Ht'' Hc'']. split; [done|]. by rewrite Hc''.
Qed.

(** A live timer firing issues one status request for its session and
    changes nothing else. *)
Lemma tick_live h t s :
  timers s !! h = Some t →
  step_event (EvTick h) s
  = set_pending (pending s ++ ["/status/" +:+ cb_session t]) s.
Proof.
  intros Hh. unfold step_event. simpl. unfold_m. simpl. by rewrite Hh.
Qed.

Lemma settle_spec k url o s :
  pending s !! k = Some url →
  step_event (EvSettle k o) s
  = exec (checkStatus_settled o) (set_pending (delete k (pending s)) s).
Proof.
  intros Hk. unfold step_event. simpl.
  unfold mbind at 1, M_bind, bind, gets, exec. rewrite Hk. simpl.
  unfold mbind at 1, M_bind, bind, modify. simpl. done.
Qed.

(** The handler entries of an answered poll are those of the status update
    it carries, also when the update throws. *)
Lemma calls_checkStatus_settled_ok code statusText data s :
  calls (exec (checkStatus_settled
                 (Response true code statusText (Some data))) s)
  = calls (exec (handleStatusUpdate data) s).
Proof.
  unfold checkStatus_settled, apiRequest_settled. unfold_m. simpl.
  destruct (handleStatusUpdate data s) as [s1 [[]|e]]; simpl; done.
Qed.

Lemma calls_handle_completed sid s :
  calls (exec (handleStatusUpdate (DataObj (JStr "completed") sid)) s)
  = calls s ++ [CallComplete (DataObj (JStr "completed") sid)].
Proof.
  rewrite handle_completed.
  rewrite (exec_bind _ _ _ tt) by apply result_updateProgress.
  by destruct (onProcessingComplete_frame (DataObj (JStr "completed") sid)
                 (exec (updateProgress 100 "Processamento concluído!") s))
    as (_ & _ & -> & _).
Qed.

(** What a status update does to the requests in flight and to the record
    of handler entries: it issues and withdraws no request, and enters at
    most one handler. *)
Lemma handleStatusUpdate_pending_calls data s :
  let s' := exec (handleStatusUpdate data) s in
  pending s' = pending s ∧
  (calls s' = calls s ∨ ∃ c, calls s' = calls s ++ [c]).
Proof.
  destruct data as [|status sid]; [by split; [|left]|].
  unfold handleStatusUpdate, data_status.
  change (mret status ≫= ?k) with (k status). cbv beta.
  destruct (strict_eq_str status "uploading"); [by split; [|left]|].
  destruct (strict_eq_str status "processing"); [by split; [|left]|].
  destruct (strict_eq_str status "completed").
  { rewrite (exec_bind _ _ _ tt) by apply result_updateProgress.
    destruct (onProcessingComplete_frame (DataObj status sid)
                (exec (updateProgress 100 "Processamento concluído!") s))
      as (_ & _ & Hc & Hp & _).
    cbv zeta. rewrite Hc, Hp. split; [done|]. right. by eexists. }
  destruct (strict_eq_str status "error"); [|by split; [|left]].
  destruct (onProcessingError_frame (DataObj status sid) s)
    as (_ & _ & _ & Hc & Hp & _).
  cbv zeta. rewrite Hc, Hp. split; [done|]. right. by eexists.
Qed.

Lemma checkStatus_settled_pending_calls o s :
  let s' := exec (checkStatus_settled o) s in
  pending s' = pending s ∧
  (calls s' = calls s ∨ ∃ c, calls s' = calls s ++ [c]).
Proof.
  destruct o as [what|[|] code statusText [data|]];
    try (by split; [|left]).
  destruct (handleStatusUpdate_pending_calls data s) as [Hp Hc].
  unfold checkStatus_settled, apiRequest_settled.
  unfold_m. simpl. unfold exec in Hp, Hc.
  destruct (handleStatusUpdate data s) as [s1 [[]|e]]; simpl in *; done.
Qed.

(** Once no timer is active and the handle is null, every event other than
    a call of [startPolling] keeps it so: it leaves [window.APP] as it is
    and issues no request; what is in flight can only be answered, and each
    answer enters at most one handler. *)
Lemma quiet_step ev s :
  timers s = ∅ → pollingInterval (app s) = None → not_start ev →
  let s' := step_event ev s in
  timers s' = ∅ ∧ app s' = app s ∧
  pending s' `sublist_of` pending s ∧
  calls s `prefix_of` calls s' ∧
  (length (calls s') + length (pending s')
   ≤ length (calls s) + length (pending s))%nat.
Proof.
  intros Ht Hh Hev. cbv zeta.
  assert (∀ s0, timers s0 = ∅ → pollingInterval (app s0) = None →
                exec stopPolling s0 = s0) as Hstop.
  { intros s0 _ Hh0. rewrite stopPolling_spec. by rewrite Hh0. }
  destruct ev as [sessionId| |percent text|h|k o]; [done|..].
  - unfold step_event. change (dispatch EvStop) with stopPolling.
    rewrite Hstop by done. by split_and!.
  - by split_and!.
  - rewrite tick_idle by (by rewrite Ht, lookup_empty). by split_and!.
  - unfold step_event. simpl. unfold mbind, M_bind, bind, gets, exec.
    destruct (pending s !! k) as [u|] eqn:Hk; simpl; [|by split_and!].
    change (fst ?x) with (exec (checkStatus_settled o)
                            (set_pending (delete k (pending s)) s)).
    set (s0 := set_pending (delete k (pending s)) s).
    assert (timers s0 = ∅) as Ht0 by done.
    assert (pollingInterval (app s0) = None) as Hh0 by done.
    destruct (checkStatus_settled_pending_calls o s0) as [Hp Hc].
    assert (app (exec (checkStatus_settled o) s0) = app s0 ∧
            timers (exec (checkStatus_settled o) s0) = timers s0) as [Ha' Ht'].
    { destruct (checkStatus_settled_polling o s0) as [?|(data & Ha & Htm)];
        [done|].
      rewrite Ha, Htm.
      destruct (handleStatusUpdate_polling data s0) as [?|[Ha1 Ht1]]; [done|].
      by rewrite Ha1, Ht1, Hstop. }
    rewrite Ha', Ht', Hp.
    assert (length (pending s0) < length (pending s))%nat as Hlen.
    { subst s0. simpl. rewrite length_delete by eauto.
      apply lookup_lt_Some in Hk. lia. }
    split_and!; try done.
    + apply sublist_delete.
    + destruct Hc as [->|[c ->]]; [done|]. by apply prefix_app_r.
    + destruct Hc as [->|[c ->]]; [simpl in *; lia|].
      rewrite length_app. simpl in *. lia.
Qed.

Lemma quiet_run evs s :
  timers s = ∅ → pollingInterval (app s) = None → Forall not_start evs →
  let s' := run evs s in
  timers s' = ∅ ∧ app s' = app s ∧
  pending s' `sublist_of` pending s ∧
  calls s `prefix_of` calls s' ∧
  (length (calls s') + length (pending s')
   ≤ length (calls s) + length (pending s))%nat.
Proof.
  intros Ht Hh Hall. revert s Ht Hh. cbv zeta.
  induction Hall as [|ev evs Hev _ IH]; intros s Ht Hh; simpl; [done|].
  destruct (quiet_step ev s Ht Hh Hev) as (Ht1 & Ha1 & Hp1 & Hc1 & Hl1).
  destruct (IH (step_event ev s)) as (Ht2 & Ha2 & Hp2 & Hc2 & Hl2);
    [done|by rewrite Ha1|].
  split_and!; [done|congruence|by etrans|by etrans|lia].
Qed.

(** ** The step catalog *)

(** C9. In the step catalog of [updateStepIndicators], each step's threshold
    is strictly below the threshold of the step that follows it. *)
Theorem thresholds_strictly_increasing (i : nat) (a b : step) :
  steps !! i = Some a → steps !! S i = Some b → threshold a < threshold b.
Proof.
  intros Ha Hb.
  do 6 (destruct i as [|i]; [simpl in Ha, Hb; simplify_eq; simpl; lia|]).
  simpl in Ha. discriminate.
Qed.

Lemma thresholds_strictly_increasing_witness :
  steps !! 2%nat = Some {| step_id := "step-ocr"; threshold := 50 |} ∧
  steps !! 3%nat = Some {| step_id := "step-correlation"; threshold := 65 |} ∧
  50 < 65.
Proof.
  split; [reflexivity|]. split; [reflexivity|].
  apply (thresholds_strictly_increasing 2
           {| step_id := "step-ocr"; threshold := 50 |}
           {| step_id := "step-correlation"; threshold := 65 |});
    reflexivity.
Defined.

(** ** Status updates *)

(** C6. A status update whose status is none of 'uploading', 'processing',
    'completed', 'error' (any other string, or a value that is not a string)
    returns normally and leaves the whole page state as it was: progress,
    timers, handler calls and all. *)
Theorem unknown_status_is_noop (status sid : jsval) (s : page) :
  status ≠ JStr "uploading" → status ≠ JStr "processing" →
  status ≠ JStr "completed" → status ≠ JStr "error" →
  handleStatusUpdate (DataObj status sid) s = (s, Ret tt).
Proof. intros Hu Hp Hc He. by rewrite handle_other. Qed.

Lemma unknown_status_is_noop_witness :
  handleStatusUpdate (DataObj (JStr "queued") (JStr "3f9a"))
    (exec (startPolling "3f9a") loaded_page)
  = (exec (startPolling "3f9a") loaded_page, Ret tt).
Proof.
  apply (unknown_status_is_noop (JStr "queued") (JStr "3f9a")); by vm_compute.
Defined.

(** C8. [stopPolling] with no timer handle held ([pollingInterval] is null)
    returns normally and leaves the page state as it was; with a handle held
    it clears that timer, so it is no longer active, resets the handle to
    null and changes nothing else. *)
Theorem stopPolling_cases (s : page) :
  match pollingInterval (app s) with
  | None => stopPolling s = (s, Ret tt)
  | Some h =>
      let s' := exec stopPolling s in
      result stopPolling s = Ret tt ∧
      s' = set_pollingInterval None (set_timers (delete h (timers s)) s) ∧
      timers s' !! h = None ∧
      pollingInterval (app s') = None
  end.
Proof.
  pose proof (stopPolling_spec s) as Hs.
  pose proof (result_stopPolling s) as Hr.
  destruct (pollingInterval (app s)) as [h|] eqn:Hh.
  - simpl. rewrite Hs. simpl. repeat split; auto. apply lookup_delete_eq.
  - unfold exec, result in *. destruct (stopPolling s); simpl in *. congruence.
Qed.

(** C10, as the code has it. An 'error' status update leaves the progress
    percentage (bar width and bar text) and every step node, hence every
    step classification, as they were. But it changes more than the styling
    of the bar, the status text and the enabled state of the form: it also
    appends a toast and rewrites the label of the upload button, and the
    [stopPolling] it begins with clears the timer and the handle. The
    requests in flight, the console and the rest of the document are as
    before. *)
Theorem error_update_keeps_progress (sid : jsval) (s : page) :
  let s' := exec (handleStatusUpdate (DataObj (JStr "error") sid)) s in
  progress s' = progress s ∧
  pb_text (progressBar (doc s')) = pb_text (progressBar (doc s)) ∧
  stepEls (doc s') = stepEls (doc s) ∧
  step_classes s' = step_classes s ∧
  doc s' =
    set_form false false "Processar Arquivos"
      (set_toasts (toasts (doc s) ++
                   [("Erro durante o processamento. Tente novamente.", "danger")])
         (set_statusText "Erro no processamento"
            (set_progressBar
               {| pb_width := pb_width (progressBar (doc s));
                  pb_text := pb_text (progressBar (doc s));
                  pb_classes :=
                    jq_addClass ["bg-danger"]
                      (jq_removeClass
                         ["progress-bar-striped"; "progress-bar-animated"]
                         (pb_classes (progressBar (doc s)))) |}
               (doc s)))) ∧
  app s' = app (exec stopPolling s) ∧
  timers s' = timers (exec stopPolling s) ∧
  pending s' = pending s ∧
  console s' = console s ∧
  next_timer s' = next_timer s.
Proof.
  rewrite handle_error.
  destruct (onProcessingError_frame (DataObj (JStr "error") sid) s)
    as (_ & Ha & Ht & _ & Hp & Hc & Hn & Hd).
  cbv zeta. unfold step_classes, progress. rewrite Hd. by split_and!.
Qed.

(** C10 fails as stated: an 'error' update changes more than the classes of
    the bar, the status text and the enabled state of the form. On the page
    that has just started polling, the toast it appends is one such change
    (the cleared timer is another). *)
Lemma error_update_changes_more :
  ¬ (∀ (sid : jsval) (s : page),
       let s' := exec (handleStatusUpdate (DataObj (JStr "error") sid)) s in
       progress s' = progress s ∧ step_classes s' = step_classes s ∧
       only_styling_text_form s s').
Proof.
  intros Hclaim.
  destruct (Hclaim (JStr "3f9a") (exec (startPolling "3f9a") loaded_page))
    as (_ & _ & classes & text & inputs & btn & Heq).
  apply (f_equal (λ s, toasts (doc s))) in Heq. vm_compute in Heq.
  discriminate.
Qed.

Example error_update_on_polling_page :
  let s := exec (startPolling "3f9a") loaded_page in
  let s' := exec (handleStatusUpdate (DataObj (JStr "error") (JStr "3f9a"))) s in
  toasts (doc s) = [] ∧
  toasts (doc s')
  = [("Erro durante o processamento. Tente novamente.", "danger")] ∧
  timers s = {[ 1%positive := {| cb_session := "3f9a"; period := 2000 |} ]} ∧
  timers s' = ∅.
Proof. by vm_compute. Qed.

(** C3. An 'error' status update, on a page whose only active timer is the
    one held in [pollingInterval], returns normally, enters
    [onProcessingError] exactly once, clears the handle and leaves no timer
    active, and issues no request. From then on, whatever events follow
    other than a script calling [startPolling] again (timer events, answers
    to requests that were in flight, [stopPolling], progress updates), no
    timer is active, the handle stays null and no request is issued: what
    was in flight can only be answered, and each such answer enters at most
    one handler. Timer events change nothing at all, and with no request in
    flight no handler is entered any more. *)
Theorem error_update_is_terminal (sid : jsval) (s : page) :
  tracked s →
  let data := DataObj (JStr "error") sid in
  let s' := exec (handleStatusUpdate data) s in
  result (handleStatusUpdate data) s = Ret tt ∧
  calls s' = calls s ++ [CallError data] ∧
  pollingInterval (app s') = None ∧
  timers s' = ∅ ∧
  pending s' = pending s ∧
  (∀ hs : list positive, run (EvTick <$> hs) s' = s') ∧
  (pending s = [] → ∀ evs, Forall not_start evs →
     timers (run evs s') = ∅ ∧ calls (run evs s') = calls s') ∧
  (∀ evs, Forall not_start evs →
     timers (run evs s') = ∅ ∧
     pollingInterval (app (run evs s')) = None ∧
     pending (run evs s') `sublist_of` pending s ∧
     calls s' `prefix_of` calls (run evs s') ∧
     (length (calls (run evs s'))
      ≤ length (calls s') + length (pending s))%nat).
Proof.
  intros Htr data s'. subst s'. subst data. rewrite handle_error.
  destruct (onProcessingError_frame (DataObj (JStr "error") sid) s)
    as (Hr & Ha & Ht & Hc & Hp & _).
  assert (timers (exec (onProcessingError (DataObj (JStr "error") sid)) s) = ∅)
    as Hnone by (rewrite Ht; by apply tracked_stopPolling_timers).
  assert (pollingInterval
            (app (exec (onProcessingError (DataObj (JStr "error") sid)) s))
          = None) as Hh.
  { rewrite Ha, stopPolling_spec. by destruct (pollingInterval (app s)) eqn:E. }
  split_and!; auto.
  - intros hs. by apply ticks_idle.
  - intros Hidle evs Hevs. apply idle_run; [done| |done]. by rewrite Hp.
  - intros evs Hevs.
    destruct (quiet_run evs _ Hnone Hh Hevs) as (Ht' & Ha' & Hp' & Hc' & Hl').
    rewrite Hp in Hp', Hl'.
    split_and!; [done|by rewrite Ha'|done|done|lia].
Qed.

Lemma error_update_is_terminal_witness :
  let s := run [EvStart "3f9a"; EvTick 1%positive] loaded_page in
  let data := DataObj (JStr "error") (JStr "3f9a") in
  let s' := exec (handleStatusUpdate data) s in
  let late := [EvTick 1%positive;
               EvSettle 0 (Response true 200 "OK"
                             (Some (DataObj (JStr "processing") (JStr "3f9a"))));
               EvTick 1%positive; EvStop] in
  tracked s ∧
  timers s = {[ 1%positive := {| cb_session := "3f9a"; period := 2000 |} ]} ∧
  pending s = ["/status/3f9a"] ∧
  calls s' = [CallError data] ∧ timers s' = ∅ ∧
  run (EvTick <$> [1; 1; 2]%positive) s' = s' ∧
  timers (run late s') = ∅ ∧
  pending (run late s') `sublist_of` ["/status/3f9a"].
Proof.
  cbv zeta.
  set (s := run [EvStart "3f9a"; EvTick 1%positive] loaded_page).
  assert (tracked s) as Htr by by vm_compute.
  assert (pending s = ["/status/3f9a"]) as Hp by by vm_compute.
  assert (calls s = []) as Hcs by by vm_compute.
  assert (timers s
          = {[ 1%positive := {| cb_session := "3f9a"; period := 2000 |} ]})
    as Ht0 by by vm_compute.
  clearbody s.
  destruct (error_update_is_terminal (JStr "3f9a") s Htr)
    as (_ & Hc & _ & Ht & _ & Hticks & _ & Hquiet).
  destruct (Hquiet
              [EvTick 1%positive;
               EvSettle 0 (Response true 200 "OK"
                             (Some (DataObj (JStr "processing") (JStr "3f9a"))));
               EvTick 1%positive; EvStop])
    as (Hlt & _ & Hlp & _); [by repeat constructor|].
  rewrite Hp in Hlp. rewrite Hcs in Hc.
  split; [exact Htr|]. split; [exact Ht0|]. split; [exact Hp|].
  split; [exact Hc|]. split; [exact Ht|]. split; [apply Hticks|].
  split; [exact Hlt|exact Hlp].
Defined.

(** C2, as the code has it. A 'completed' status update, on a page whose
    only active timer is the one held in [pollingInterval], sets the
    progress to exactly 100, enters [onProcessingComplete] exactly once,
    clears the handle and leaves no timer active. From then on, whatever
    events follow other than a script calling [startPolling] again, no timer
    is active, the handle stays null and no request is issued; timer events
    change nothing, and with no request in flight the handler is entered no
    more. But a request that was in flight at the update is not withdrawn:
    when it is answered 'completed' the handler is entered again. The
    handlers entered afterwards are at most as many as the requests that
    were in flight. *)
Theorem completed_update_is_terminal (sid : jsval) (s : page) :
  tracked s →
  let data := DataObj (JStr "completed") sid in
  let s' := exec (handleStatusUpdate data) s in
  progress s' = 100 ∧
  pb_text (progressBar (doc s')) = 100 ∧
  calls s' = calls s ++ [CallComplete data] ∧
  pollingInterval (app s') = None ∧
  timers s' = ∅ ∧
  pending s' = pending s ∧
  (∀ hs : list positive,
     run (EvTick <$> hs) s' = s' ∧ calls (run (EvTick <$> hs) s') = calls s') ∧
  (pending s = [] → ∀ evs, Forall not_start evs →
     timers (run evs s') = ∅ ∧ calls (run evs s') = calls s') ∧
  (∀ evs, Forall not_start evs →
     timers (run evs s') = ∅ ∧
     pollingInterval (app (run evs s')) = None ∧
     pending (run evs s') `sublist_of` pending s ∧
     calls s' `prefix_of` calls (run evs s') ∧
     (length (calls (run evs s'))
      ≤ length (calls s') + length (pending s))%nat) ∧
  (∀ k url code statusText sid2,
     pending s !! k = Some url →
     calls (step_event
              (EvSettle k (Response true code statusText
                             (Some (DataObj (JStr "completed") sid2)))) s')
     = calls s' ++ [CallComplete (DataObj (JStr "completed") sid2)]).
Proof.
  intros Htr data s'. subst s'. subst data. rewrite handle_completed.
  rewrite (exec_bind _ _ _ tt) by apply result_updateProgress.
  set (s1 := exec (updateProgress 100 "Processamento concluído!") s).
  assert (tracked s1) as Htr1 by by apply (tracked_ext s).
  destruct (onProcessingComplete_frame (DataObj (JStr "completed") sid) s1)
    as (Ha & Ht & Hc & Hp & Hb & _).
  assert (timers (exec (onProcessingComplete (DataObj (JStr "completed") sid)) s1)
          = ∅) as Hnone by (rewrite Ht; by apply tracked_stopPolling_timers).
  assert (pollingInterval
            (app (exec (onProcessingComplete
                          (DataObj (JStr "completed") sid)) s1)) = None) as Hh.
  { rewrite Ha, stopPolling_spec. by destruct (pollingInterval (app s1)) eqn:E. }
  unfold progress. rewrite Hb.
  split_and!; auto.
  - intros hs. split; [by apply ticks_idle|by rewrite ticks_idle].
  - intros Hidle evs Hevs. apply idle_run; [done| |done]. by rewrite Hp.
  - intros evs Hevs.
    destruct (quiet_run evs _ Hnone Hh Hevs) as (Ht' & Ha' & Hp' & Hc' & Hl').
    rewrite Hp in Hp', Hl'.
    split_and!; [done|by rewrite Ha'|done|done|].
    change (pending s1) with (pending s) in Hl'. lia.
  - intros k url code statusText sid2 Hk.
    rewrite (settle_spec k url) by (by rewrite Hp).
    by rewrite calls_checkStatus_settled_ok, calls_handle_completed.
Qed.

Lemma completed_update_is_terminal_witness :
  let s := run [EvStart "3f9a"; EvTick 1%positive] loaded_page in
  let data := DataObj (JStr "completed") (JStr "3f9a") in
  let s' := exec (handleStatusUpdate data) s in
  tracked s ∧
  timers s = {[ 1%positive := {| cb_session := "3f9a"; period := 2000 |} ]} ∧
  pending s = ["/status/3f9a"] ∧
  progress s' = 100 ∧ calls s' = [CallComplete data] ∧ timers s' = ∅ ∧
  calls (run (EvTick <$> [1; 1; 2]%positive) s') = [CallComplete data] ∧
  calls (step_event (EvSettle 0 (Response true 200 "OK" (Some data))) s')
  = [CallComplete data; CallComplete data].
Proof.
  cbv zeta.
  set (s := run [EvStart "3f9a"; EvTick 1%positive] loaded_page).
  assert (tracked s) as Htr by by vm_compute.
  assert (pending s = ["/status/3f9a"]) as Hp by by vm_compute.
  assert (calls s = []) as Hcs by by vm_compute.
  assert (timers s
          = {[ 1%positive := {| cb_session := "3f9a"; period := 2000 |} ]})
    as Ht0 by by vm_compute.
  assert (pending s !! 0%nat = Some "/status/3f9a") as Hk by by rewrite Hp.
  clearbody s.
  destruct (completed_update_is_terminal (JStr "3f9a") s Htr)
    as (Hpr & _ & Hc & _ & Ht & _ & Hticks & _ & _ & Hlate).
  rewrite Hcs in Hc.
  split; [exact Htr|]. split; [exact Ht0|]. split; [exact Hp|].
  split; [exact Hpr|]. split; [exact Hc|]. split; [exact Ht|].
  split; [by rewrite (proj2 (Hticks _))|].
  by rewrite (Hlate 0%nat "/status/3f9a" 200 "OK" (JStr "3f9a") Hk), Hc.
Defined.

(** C2 fails as stated: the completion handler can be entered again after
    the update. On [answering_page] a second poll of the session is still in
    flight when the 'completed' answer is handled; the update stops the
    timer, but the answer to that poll, 'completed' as well, enters
    [onProcessingComplete] a second time. *)
Lemma late_completed_answer_reenters :
  ¬ (∀ (sid : jsval) (s : page) (evs : list event),
       tracked s → Forall not_start evs →
       let data := DataObj (JStr "completed") sid in
       let s' := exec (handleStatusUpdate data) s in
       progress s' = 100 ∧
       calls s' = calls s ++ [CallComplete data] ∧
       timers s' = ∅ ∧
       calls (run evs s') = calls s').
Proof.
  intros Hclaim.
  destruct (Hclaim (JStr "3f9a") answering_page
              [EvSettle 0 (Response true 200 "OK"
                             (Some (DataObj (JStr "completed") (JStr "3f9a"))))])
    as (_ & _ & _ & Hc).
  { by vm_compute. }
  { by repeat constructor. }
  vm_compute in Hc. discriminate.
Qed.

(** [answering_page] is the page the event loop reaches when the later of
    two polls is answered first, and [completed_page] is what the
    'completed' update makes of it. *)
Example answering_page_is_reached :
  let data := DataObj (JStr "completed") (JStr "3f9a") in
  tracked answering_page ∧
  pending answering_page = ["/status/3f9a"] ∧
  calls answering_page = [] ∧
  completed_page = exec (handleStatusUpdate data) answering_page ∧
  calls completed_page = [CallComplete data] ∧
  calls (step_event (EvSettle 0 (Response true 200 "OK" (Some data)))
           completed_page)
  = [CallComplete data; CallComplete data].
Proof. cbv zeta. split_and!; by vm_compute. Qed.

(** ** Polling *)

Lemma apiRequest_settled_cases o s :
  apiRequest_settled o s
  = match o with
    | Rejected what =>
        (set_console (console s ++ [("API Request Error:", NetworkError what)]) s,
         Throw (NetworkError what))
    | Response false code statusText _ =>
        (set_console
           (console s ++ [("API Request Error:", HttpError code statusText)]) s,
         Throw (HttpError code statusText))
    | Response true _ _ None =>
        (set_console (console s ++ [("API Request Error:", SyntaxError)]) s,
         Throw SyntaxError)
    | Response true _ _ (Some data) => (s, Ret data)
    end.
Proof. by destruct o as [what|[|] code statusText [data|]]. Qed.

(** C7. When the fetch of a poll fails (the transport rejects it, the
    response is not ok, or its body does not decode), the handlers log the
    error to the console twice, once in [apiRequest] and once in
    [checkStatus], and show one 'danger' toast; the timers and
    [window.APP] are as before, no terminal handler runs and the document
    is otherwise untouched, so the timer that was polling fires again and
    issues the next status request. *)
Theorem failed_poll_keeps_polling (k : nat) (url : string) (o : fetch_outcome)
    (e : exn) (s : page) :
  pending s !! k = Some url →
  result (apiRequest_settled o) s = Throw e →
  let s' := step_event (EvSettle k o) s in
  timers s' = timers s ∧
  app s' = app s ∧
  console s' = console s ++ [("API Request Error:", e);
                             ("Error checking status:", e)] ∧
  doc s' = set_toasts (toasts (doc s) ++ [("Erro ao verificar status", "danger")])
             (doc s) ∧
  calls s' = calls s ∧
  pending s' = delete k (pending s) ∧
  ∀ h t, timers s !! h = Some t →
         step_event (EvTick h) s'
         = set_pending (pending s' ++ ["/status/" +:+ cb_session t]) s'.
Proof.
  intros Hk Hfail s'.
  assert (s' = set_console (console s ++ [("API Request Error:", e);
                                          ("Error checking status:", e)])
                 (upd_doc (λ d, set_toasts
                             (toasts d ++ [("Erro ao verificar status", "danger")]) d)
                    (set_pending (delete k (pending s)) s))) as Hs'.
  { subst s'. unfold step_event. simpl. unfold mbind, M_bind, bind, gets, exec.
    rewrite Hk. simpl. unfold checkStatus_settled, catch, mbind, M_bind, bind.
    unfold result in Hfail. rewrite apiRequest_settled_cases in Hfail |- *.
    destruct o as [what|[|] code statusText [data|]]; simpl in Hfail |- *;
      simplify_eq; simpl; by rewrite <- (assoc_L (++)). }
  rewrite Hs'. simpl. repeat split; auto.
  intros h t Ht. by apply tick_live.
Qed.

Lemma failed_poll_keeps_polling_witness :
  let s := run [EvStart "3f9a"; EvTick 1%positive] loaded_page in
  let s' := step_event (EvSettle 0 (Response false 502 "Bad Gateway" None)) s in
  pending s !! 0%nat = Some "/status/3f9a" ∧
  timers s' = {[ 1%positive := {| cb_session := "3f9a"; period := 2000 |} ]} ∧
  pending (step_event (EvTick 1%positive) s') = ["/status/3f9a"].
Proof.
  destruct (failed_poll_keeps_polling 0 "/status/3f9a"
              (Response false 502 "Bad Gateway" None)
              (HttpError 502 "Bad Gateway")
              (run [EvStart "3f9a"; EvTick 1%positive] loaded_page)
              eq_refl eq_refl)
    as (Ht & _ & _ & _ & _ & Hp & Htick).
  cbv zeta. split; [reflexivity|]. split; [by rewrite Ht|].
  rewrite (Htick 1%positive {| cb_session := "3f9a"; period := 2000 |} eq_refl).
  rewrite Hp. reflexivity.
Defined.

Lemma set_pending_id s : set_pending (pending s) s = s.
Proof. by destruct s. Qed.

(** With a single timer active, a series of timer events queues one status
    request for that timer's session for each tick of its handle, and
    nothing for the ticks of other handles. *)
Lemma ticks_single_count hB t hs l s :
  timers s = {[ hB := t ]} →
  run (EvTick <$> hs) (set_pending l s)
  = set_pending
      (l ++ replicate (length (filter (λ h, h = hB) hs))
                      ("/status/" +:+ cb_session t)) s.
Proof.
  intros Hone. revert l. induction hs as [|h hs IH]; intros l.
  - simpl. by rewrite (right_id_L [] (++)).
  - simpl. destruct (decide (h = hB)) as [->|Hne].
    + rewrite (tick_live hB t).
      2:{ simpl. rewrite Hone. apply lookup_singleton_eq. }
      change (set_pending (pending (set_pending l s) ++ ?u) (set_pending l s))
        with (set_pending (l ++ u) s).
      rewrite filter_cons_True by done.
      etrans; [apply IH|]. simpl. by rewrite <- (assoc_L (++)).
    + rewrite tick_idle.
      2:{ simpl. rewrite Hone. by apply lookup_singleton_ne. }
      rewrite filter_cons_False by done. apply IH.
Qed.

(** C5. On a page whose only active timer is the one held in
    [pollingInterval], [startPolling(A)] followed by [startPolling(B)], for
    any two sessions, equal or not, leaves exactly one timer active: B's,
    under a handle different from A's, which is cleared. From there every
    tick of B's handle issues exactly one status request for B and a tick
    of any other handle, A's included, issues nothing: a series of timer
    events issues as many requests as it has ticks of B's handle, all of
    them for B. *)
Theorem restart_replaces_timer (A B : string) (s : page) :
  tracked s →
  let s1 := exec (startPolling A) s in
  let s2 := exec (startPolling B) s1 in
  let hA := next_timer s in
  let hB := Pos.succ (next_timer s) in
  pollingInterval (app s1) = Some hA ∧
  timers s1 = {[ hA := {| cb_session := A; period := 2000 |} ]} ∧
  pollingInterval (app s2) = Some hB ∧
  timers s2 = {[ hB := {| cb_session := B; period := 2000 |} ]} ∧
  hA ≠ hB ∧
  timers s2 !! hA = None ∧
  size (timers s2) = 1%nat ∧
  pending s2 = pending s ∧
  step_event (EvTick hB) s2
  = set_pending (pending s ++ ["/status/" +:+ B]) s2 ∧
  (∀ h, h ≠ hB → step_event (EvTick h) s2 = s2) ∧
  ∀ hs : list positive,
    run (EvTick <$> hs) s2
    = set_pending
        (pending s ++ replicate (length (filter (λ h, h = hB) hs))
                                ("/status/" +:+ B)) s2.
Proof.
  intros Htr s1 s2 hA hB.
  assert (tracked s1) as Htr1 by by apply tracked_startPolling.
  assert (timers s1 = {[ hA := {| cb_session := A; period := 2000 |} ]}) as Ht1
    by by apply tracked_startPolling_timers.
  assert (timers s2 = {[ hB := {| cb_session := B; period := 2000 |} ]}) as Ht2.
  { subst s2. rewrite (tracked_startPolling_timers B s1 Htr1).
    subst s1. by rewrite startPolling_spec. }
  assert (hA ≠ hB) as Hne by (subst hA hB; lia).
  assert (pending s2 = pending s) as Hp.
  { subst s2 s1. by rewrite !startPolling_spec. }
  split; [subst s1; by rewrite startPolling_spec|].
  split; [done|].
  split; [subst s2 s1; by rewrite !startPolling_spec|].
  split; [done|]. split; [done|].
  split; [rewrite Ht2; by apply lookup_singleton_ne|].
  split; [rewrite Ht2; apply map_size_singleton|].
  split; [done|].
  split.
  { rewrite (tick_live hB {| cb_session := B; period := 2000 |});
      [by rewrite Hp|]. rewrite Ht2. apply lookup_singleton_eq. }
  split.
  { intros h Hh. apply tick_idle. rewrite Ht2. by apply lookup_singleton_ne. }
  intros hs.
  pose proof (ticks_single_count hB {| cb_session := B; period := 2000 |} hs
                (pending s2) s2 Ht2) as Hn.
  by rewrite set_pending_id, Hp in Hn.
Qed.

Lemma restart_replaces_timer_witness :
  let s1 := exec (startPolling "3f9a") loaded_page in
  let s2 := exec (startPolling "77c0") s1 in
  tracked loaded_page ∧
  timers s1 = {[ 1%positive := {| cb_session := "3f9a"; period := 2000 |} ]} ∧
  timers s2 = {[ 2%positive := {| cb_session := "77c0"; period := 2000 |} ]} ∧
  timers s2 !! 1%positive = None ∧
  pending (run (EvTick <$> [2; 1; 2; 3]%positive) s2)
  = ["/status/77c0"; "/status/77c0"].
Proof.
  assert (tracked loaded_page) as Htr by by vm_compute.
  destruct (restart_replaces_timer "3f9a" "77c0" loaded_page Htr)
    as (_ & Ht1 & _ & Ht2 & _ & Hgone & _ & _ & _ & _ & Hticks).
  cbv zeta. split; [exact Htr|]. split; [exact Ht1|]. split; [exact Ht2|].
  split; [exact Hgone|]. by rewrite Hticks.
Defined.

(** ** Progress under 'processing' *)

Lemma progress_after_processing data s :
  has_status "processing" data →
  progress (exec (handleStatusUpdate data) s) = 60.
Proof. intros [sid ->]. by rewrite handle_processing. Qed.

Lemma progress_trace_processing ds s :
  Forall (has_status "processing") ds →
  progress_trace ds s = replicate (length ds) 60.
Proof.
  intros Hall. revert s.
  induction Hall as [|d ds Hd _ IH]; intros s; simpl; [done|].
  by rewrite IH, progress_after_processing.
Qed.

Lemma Sorted_replicate_le (n : nat) (x : Z) : Sorted Z.le (replicate n x).
Proof.
  induction n as [|n IH]; simpl; constructor; [done|].
  destruct n; simpl; constructor. lia.
Qed.

(** C1, as the code has it. A 'processing' update sets the progress to the
    fixed value 60, whatever it was: there is no increment and no ceiling.
    So after each update of a series of 'processing' updates the progress is
    60, strictly below 100 and below 90, and it does not change from one
    update to the next; it has not decreased over the whole series provided
    it was at most 60 when the series began. *)
Theorem processing_updates_hold_sixty (ds : list jsdata) (s : page) :
  Forall (has_status "processing") ds →
  progress_trace ds s = replicate (length ds) 60 ∧
  Forall (λ p, p < 100 ∧ p ≤ 90) (progress_trace ds s) ∧
  Sorted Z.le (progress_trace ds s) ∧
  (progress s ≤ 60 → Sorted Z.le (progress s :: progress_trace ds s)).
Proof.
  intros Hall. rewrite (progress_trace_processing ds s Hall).
  split; [done|]. split; [|split].
  - apply Forall_replicate. lia.
  - apply Sorted_replicate_le.
  - intros Hle. constructor; [apply Sorted_replicate_le|].
    destruct ds; simpl; constructor. done.
Qed.

Lemma processing_updates_hold_sixty_witness :
  let s := run [EvProgress 10 "Enviando arquivos..."; EvStart "3f9a";
                EvProgress 30 "Processando dados..."] loaded_page in
  let ds := [DataObj (JStr "processing") (JStr "3f9a");
             DataObj (JStr "processing") (JStr "3f9a");
             DataObj (JStr "processing") JUndefined] in
  Forall (has_status "processing") ds ∧
  progress s = 30 ∧
  progress_trace ds s = [60; 60; 60] ∧
  Sorted Z.le (30 :: progress_trace ds s).
Proof.
  cbv zeta.
  assert (Forall (has_status "processing")
            [DataObj (JStr "processing") (JStr "3f9a");
             DataObj (JStr "processing") (JStr "3f9a");
             DataObj (JStr "processing") JUndefined]) as Hall
    by (repeat constructor; eexists; reflexivity).
  destruct (processing_updates_hold_sixty _
              (run [EvProgress 10 "Enviando arquivos..."; EvStart "3f9a";
                    EvProgress 30 "Processando dados..."] loaded_page) Hall)
    as (Htrace & _ & _ & Hsorted).
  split; [exact Hall|]. split; [reflexivity|]. split; [exact Htrace|].
  apply Hsorted. by vm_compute.
Defined.

(** C1 fails as stated: a 'processing' update does not advance the progress.
    On the page the upload flow leaves when polling starts, where no answer
    has been handled yet and the progress is 30, the first 'processing'
    update sets it to 60 and the second leaves it at 60, though 60 is below
    the ceiling of 90. *)
Lemma processing_update_does_not_advance :
  ¬ (∀ (evs : list event) (ds : list jsdata),
       Forall no_completed_answer evs →
       Forall (has_status "processing") ds →
       let s := run evs loaded_page in
       Sorted Z.le (progress s :: progress_trace ds s) ∧
       Forall (λ p, p < 100) (progress_trace ds s) ∧
       Sorted advances (progress s :: progress_trace ds s)).
Proof.
  intros Hclaim.
  destruct (Hclaim [EvProgress 10 "Enviando arquivos..."; EvStart "3f9a";
                    EvProgress 30 "Processando dados..."]
                   [DataObj (JStr "processing") (JStr "3f9a");
                    DataObj (JStr "processing") (JStr "3f9a")])
    as (_ & _ & Hadv).
  { by repeat constructor. }
  { repeat constructor; by eexists. }
  apply Sorted_inv in Hadv as [Hadv _].
  apply Sorted_inv in Hadv as [_ Hhd]. apply HdRel_inv in Hhd.
  vm_compute in Hhd. destruct Hhd as [Hlt _]; [done|]. discriminate Hlt.
Qed.

(** After a session has completed, the answer to a poll that was still in
    flight is handled all the same: answered 'processing', it takes the
    progress from 100 down to 60. *)
Example completed_page_then_late_processing :
  progress completed_page = 100 ∧
  pending completed_page = ["/status/3f9a"] ∧
  progress (step_event
              (EvSettle 0 (Response true 200 "OK"
                             (Some (DataObj (JStr "processing") (JStr "3f9a")))))
              completed_page) = 60.
Proof. by vm_compute. Qed.

(** ** Step indicators *)

Section render.
Variable percent : Z.

Let body (m : gmap string step_el) (st : step) : gmap string step_el :=
  alter (render_step percent st) (step_id st) m.

Lemma foldl_alter_other (l : list step) (m : gmap string step_el) (i : string) :
  i ∉ step_id <$> l → foldl body m l !! i = m !! i.
Proof.
  revert m. induction l as [|st l IH]; intros m Hi; simpl; [done|].
  rewrite fmap_cons in Hi. apply not_elem_of_cons in Hi as [Hne Hi].
  rewrite IH by done. unfold body. by rewrite lookup_alter_ne.
Qed.

Lemma foldl_alter_step (l : list step) (m : gmap string step_el) (st : step) :
  NoDup (step_id <$> l) → st ∈ l →
  foldl body m l !! step_id st = render_step percent st <$> m !! step_id st.
Proof.
  revert m. induction l as [|st0 l IH]; intros m Hnd Hin; simpl.
  - by apply elem_of_nil in Hin.
  - rewrite fmap_cons in Hnd. apply NoDup_cons in Hnd as [Hfresh Hnd].
    apply elem_of_cons in Hin as [->|Hin].
    + rewrite foldl_alter_other by done. unfold body.
      by rewrite lookup_alter_eq.
    + rewrite IH by done. unfold body. rewrite lookup_alter_ne; [done|].
      intros Heq. apply Hfresh. rewrite Heq. by apply list_elem_of_fmap_2.
Qed.
End render.

Lemma steps_NoDup : NoDup (step_id <$> steps).
Proof. apply (bool_decide_unpack _). by vm_compute. Qed.

(** What [updateStepIndicators] does to the node of a catalog step, and to
    any other node. *)
Lemma render_steps_step p m st :
  st ∈ steps →
  render_steps p m !! step_id st = render_step p st <$> m !! step_id st.
Proof. intros Hin. apply foldl_alter_step; [apply steps_NoDup|done]. Qed.

Lemma render_steps_other p m i :
  i ∉ step_id <$> steps → render_steps p m !! i = m !! i.
Proof. apply foldl_alter_other. Qed.




Lemma classify_mark_completed el : classify (mark_completed el) = Completed.
Proof.
  unfold classify, mark_completed, jq_addClass, jq_removeClass. simpl.
  rewrite decide_True; [done|]. set_unfold. tauto.
Qed.

Lemma classify_mark_current el : classify (mark_current el) = Current.
Proof.
  unfold classify, mark_current, jq_addClass, jq_removeClass. simpl.
  rewrite decide_False.
  2:{ set_unfold. intros [[_ Hne]|[Heq|[]]]; [apply Hne; by left|discriminate]. }
  rewrite decide_True; [done|]. set_unfold. tauto.
Qed.




Example same_percent_two_renderings :
  step_classes (step_event (EvProgress 10 "Enviando arquivos...") completed_page)
    !! "step-complete" = Some Completed ∧
  step_classes (step_event (EvProgress 10 "Enviando arquivos...") loaded_page)
    !! "step-complete" = Some Pending.
Proof. by vm_compute. Qed.

(** * Further properties of the tracker *)

(** ** Exceptions stay inside the poll *)

Lemma result_checkStatus_settled o s : result (checkStatus_settled o) s = Ret tt.
Proof.
  unfold checkStatus_settled, console_error, showToast. unfold_m.
  destruct (apiRequest_settled o s) as [s1 [data|e]]; simpl; [|done].
  by destruct (handleStatusUpdate data s1) as [s2 [[]|e]].
Qed.

(** No event handler of the tracker lets an exception escape: whatever the
    fetch or [handleStatusUpdate] throws is caught in [checkStatus]. *)
Theorem dispatch_never_throws (ev : event) (s : page) :
  result (dispatch ev) s = Ret tt.
Proof.
  destruct ev as [sessionId| |percent text|h|k o]; simpl.
  - apply result_startPolling.
  - apply result_stopPolling.
  - done.
  - unfold_m. simpl. by destruct (timers s !! h).
  - unfold result, mbind, M_bind, bind, gets.
    destruct (pending s !! k); simpl; [|done].
    apply result_checkStatus_settled.
Qed.

(** [apiRequest] resolves with the decoded body exactly when the response is
    ok and its body decodes; otherwise it rejects, having logged one line and
    touched nothing else. The body of a response that is not ok is not
    looked at. *)
Theorem apiRequest_resolves_iff (o : fetch_outcome) (s : page) :
  (∀ data, result (apiRequest_settled o) s = Ret data ↔
           ∃ code statusText, o = Response true code statusText (Some data)) ∧
  (∀ e, result (apiRequest_settled o) s = Throw e →
        exec (apiRequest_settled o) s
        = set_console (console s ++ [("API Request Error:", e)]) s) ∧
  (∀ code statusText json,
     o = Response false code statusText json →
     result (apiRequest_settled o) s = Throw (HttpError code statusText)).
Proof.
  unfold result, exec. rewrite apiRequest_settled_cases. split_and!.
  - intros data. split.
    + destruct o as [what|[|] code statusText [d|]]; simpl; intros; simplify_eq.
      eauto.
    + by intros (code & statusText & ->).
  - intros e. destruct o as [what|[|] code statusText [d|]]; simpl; intros;
      by simplify_eq.
  - by intros code statusText json ->.
Qed.

Lemma apiRequest_resolves_iff_witness :
  result (apiRequest_settled
            (Response false 404 "Not Found"
               (Some (DataObj (JStr "completed") (JStr "3f9a"))))) loaded_page
  = Throw (HttpError 404 "Not Found").
Proof.
  destruct (apiRequest_resolves_iff
              (Response false 404 "Not Found"
                 (Some (DataObj (JStr "completed") (JStr "3f9a")))) loaded_page)
    as (_ & _ & Hnot_ok).
  by apply (Hnot_ok 404 "Not Found"
              (Some (DataObj (JStr "completed") (JStr "3f9a")))).
Defined.

(** ** The handle and the timer table *)

Lemma polling_ok_ext s s' :
  app s' = app s → timers s' = timers s → polling_ok s → polling_ok s'.
Proof. unfold polling_ok. by intros -> ->. Qed.

Lemma polling_ok_tracked s : polling_ok s → tracked s.
Proof.
  unfold polling_ok, tracked.
  destruct (pollingInterval (app s)) as [h|]; simpl.
  - intros [sessionId ->]. by rewrite dom_singleton_L.
  - intros ->. by rewrite dom_empty_L.
Qed.

Lemma polling_ok_stopPolling s : polling_ok s → polling_ok (exec stopPolling s).
Proof.
  intros Hok. pose proof (tracked_stopPolling_timers s (polling_ok_tracked s Hok)) as Ht.
  unfold polling_ok. rewrite Ht. rewrite stopPolling_spec.
  by destruct (pollingInterval (app s)) eqn:E; simpl; [|rewrite E].
Qed.

Lemma polling_ok_startPolling sessionId s :
  polling_ok s → polling_ok (exec (startPolling sessionId) s).
Proof.
  intros Hok.
  pose proof (tracked_startPolling_timers sessionId s (polling_ok_tracked s Hok)) as Ht.
  unfold polling_ok. rewrite Ht. rewrite startPolling_spec. simpl. eauto.
Qed.

Lemma polling_ok_step ev s : polling_ok s → polling_ok (step_event ev s).
Proof.
  intros Hok. destruct ev as [sessionId| |percent text|h|k o]; unfold step_event.
  - by apply polling_ok_startPolling.
  - by apply polling_ok_stopPolling.
  - by apply (polling_ok_ext s).
  - simpl. unfold_m. simpl. by destruct (timers s !! h).
  - simpl. unfold mbind, M_bind, bind, gets.
    unfold exec. destruct (pending s !! k) as [u|] eqn:Hk; simpl; [|done].
    change (fst ?x) with (exec (checkStatus_settled o)
                            (set_pending (delete k (pending s)) s)).
    set (s0 := set_pending (delete k (pending s)) s).
    assert (polling_ok s0) as Hok0 by by apply (polling_ok_ext s).
    destruct (checkStatus_settled_polling o s0) as [[Ha Ht]|(data & Ha & Ht)].
    + by apply (polling_ok_ext s0).
    + apply (polling_ok_ext (exec (handleStatusUpdate data) s0)); auto.
      destruct (handleStatusUpdate_polling data s0) as [[Ha' Ht']|[Ha' Ht']].
      * by apply (polling_ok_ext s0).
      * apply (polling_ok_ext (exec stopPolling s0)); auto.
        by apply polling_ok_stopPolling.
Qed.

(** On every page reached from the loaded page, by any events in any order,
    either the handle is null and no timer is active, or the handle holds
    the one active timer, whose period is 2000 ms: the tracker never runs two
    timers and never loses track of one. *)
Theorem reachable_polling_ok (evs : list event) :
  let s := run evs loaded_page in
  polling_ok s ∧ (size (timers s) ≤ 1)%nat ∧
  (pollingInterval (app s) = None ↔ timers s = ∅).
Proof.
  cbv zeta.
  assert (polling_ok (run evs loaded_page)) as Hok.
  { assert (polling_ok loaded_page) as H0 by done.
    revert H0. generalize loaded_page.
    induction evs as [|ev evs IH]; intros s Hs; simpl; [done|].
    apply IH. by apply polling_ok_step. }
  split; [done|]. unfold polling_ok in Hok.
  destruct (pollingInterval (app (run evs loaded_page))) as [h|].
  - destruct Hok as [sessionId ->]. rewrite map_size_singleton.
    split; [lia|]. split; [done|]. intros Hempty.
    apply (f_equal (λ m, m !! h)) in Hempty.
    by rewrite lookup_singleton_eq, lookup_empty in Hempty.
  - rewrite Hok, map_size_empty. split; [lia|done].
Qed.

(** ** Bodies the tracker does not expect *)

Lemma checkStatus_settled_ok code statusText data s :
  exec (checkStatus_settled (Response true code statusText (Some data))) s
  = match handleStatusUpdate data s with
    | (s', Ret _) => s'
    | (s', Throw e) =>
        upd_doc (λ d, set_toasts
                   (toasts d ++ [("Erro ao verificar status", "danger")]) d)
          (set_console (console s' ++ [("Error checking status:", e)]) s')
    end.
Proof.
  unfold checkStatus_settled, console_error, showToast. unfold_m. simpl.
  by destruct (handleStatusUpdate data s) as [s' [[]|e]].
Qed.



(** A [null] body: [handleStatusUpdate] throws on [data.status] before it
    changes anything; run from [checkStatus], the error is logged once, one
    'danger' toast is shown, and the timers and the handle are as before, so
    polling goes on. *)
Theorem null_body_is_survived (code : Z) (statusText : string) (s : page) :
  let s' := exec (checkStatus_settled
                    (Response true code statusText (Some DataNull))) s in
  handleStatusUpdate DataNull s = (s, Throw (TypeError "data.status")) ∧
  s' = upd_doc (λ d, set_toasts
                  (toasts d ++ [("Erro ao verificar status", "danger")]) d)
         (set_console (console s ++ [("Error checking status:",
                                      TypeError "data.status")]) s) ∧
  timers s' = timers s ∧ app s' = app s ∧ calls s' = calls s ∧
  progress s' = progress s.
Proof. cbv zeta. by rewrite checkStatus_settled_ok. Qed.

Lemma stopPolling_frame s :
  doc (exec stopPolling s) = doc s ∧ calls (exec stopPolling s) = calls s ∧
  pending (exec stopPolling s) = pending s ∧
  console (exec stopPolling s) = console s.
Proof. rewrite stopPolling_spec. by destruct (pollingInterval (app s)). Qed.

Lemma stopPolling_doc s : doc (exec stopPolling s) = doc s.
Proof. apply stopPolling_frame. Qed.
Lemma stopPolling_calls s : calls (exec stopPolling s) = calls s.
Proof. apply stopPolling_frame. Qed.
Lemma stopPolling_pending s : pending (exec stopPolling s) = pending s.
Proof. apply stopPolling_frame. Qed.

Lemma run_pair {A} (m : M A) s : m s = (exec m s, result m s).
Proof. unfold exec, result. by destruct (m s). Qed.

Lemma onProcessingComplete_string status sid s :
  let data := DataObj status (JStr sid) in
  onProcessingComplete data s
  = (upd_doc (λ d, set_toasts
                (toasts d ++ [("Documentação gerada com sucesso!", "success")]) d)
       (upd_doc (set_clicks (Some ("/review/" +:+ sid))
                            (Some ("/export/" +:+ sid +:+ "/docx")))
          (upd_doc (set_sessionIdText (String.substring 0 8 sid))
             (upd_doc (set_sections false true)
                (exec stopPolling
                   (set_calls (calls s ++ [CallComplete data]) s))))),
     Ret tt).
Proof.
  cbv zeta.
  unfold onProcessingComplete, stopPolling, data_session_id, clearInterval,
    showToast, setupDownloadButtons.
  unfold_m. simpl.
  by destruct (pollingInterval (app s)).
Qed.

Lemma handle_completed_string sid s :
  let data := DataObj (JStr "completed") (JStr sid) in
  handleStatusUpdate data s
  = (upd_doc (λ d, set_toasts
                (toasts d ++ [("Documentação gerada com sucesso!", "success")]) d)
       (upd_doc (set_clicks (Some ("/review/" +:+ sid))
                            (Some ("/export/" +:+ sid +:+ "/docx")))
          (upd_doc (set_sessionIdText (String.substring 0 8 sid))
             (upd_doc (set_sections false true)
                (exec stopPolling
                   (set_calls (calls s ++ [CallComplete data])
                      (exec (updateProgress 100 "Processamento concluído!") s)))))),
     Ret tt).
Proof.
  cbv zeta. rewrite handle_completed.
  unfold mbind, M_bind, bind.
  rewrite (run_pair (updateProgress 100 "Processamento concluído!")).
  rewrite result_updateProgress.
  by rewrite onProcessingComplete_string.
Qed.

Lemma exec_handle_completed_string sid s :
  let data := DataObj (JStr "completed") (JStr sid) in
  exec (handleStatusUpdate data) s
  = upd_doc (λ d, set_toasts
               (toasts d ++ [("Documentação gerada com sucesso!", "success")]) d)
      (upd_doc (set_clicks (Some ("/review/" +:+ sid))
                           (Some ("/export/" +:+ sid +:+ "/docx")))
         (upd_doc (set_sessionIdText (String.substring 0 8 sid))
            (upd_doc (set_sections false true)
               (exec stopPolling
                  (set_calls (calls s ++ [CallComplete data])
                     (exec (updateProgress 100 "Processamento concluído!") s)))))).
Proof. cbv zeta. unfold exec at 1. by rewrite handle_completed_string. Qed.

Lemma result_handle_completed_string sid s :
  result (handleStatusUpdate (DataObj (JStr "completed") (JStr sid))) s = Ret tt.
Proof. unfold result. by rewrite handle_completed_string. Qed.

Lemma substring_prefix n x : String.prefix (String.substring 0 n x) x = true.
Proof.
  revert x. induction n as [|n IH]; intros [|a x]; simpl; try done.
  rewrite IH. by destruct (Ascii.ascii_dec a a).
Qed.

Lemma substring_length n x :
  String.length (String.substring 0 n x) = (String.length x `min` n)%nat.
Proof.
  revert x. induction n as [|n IH]; intros [|a x]; simpl; try done.
  by rewrite IH.
Qed.

(** A 'completed' body with a string [session_id]: the update returns
    normally, shows at most the first eight characters of the id, points the
    review and download buttons at that session and ends with the success
    toast. *)
Theorem completed_with_session_id (sid : string) (s : page) :
  let data := DataObj (JStr "completed") (JStr sid) in
  let s' := exec (handleStatusUpdate data) s in
  result (handleStatusUpdate data) s = Ret tt ∧
  sessionIdText (doc s') = String.substring 0 8 sid ∧
  String.prefix (sessionIdText (doc s')) sid = true ∧
  String.length (sessionIdText (doc s')) = (String.length sid `min` 8)%nat ∧
  reviewBtnClick (doc s') = Some ("/review/" +:+ sid) ∧
  downloadBtnClick (doc s') = Some ("/export/" +:+ sid +:+ "/docx") ∧
  progressSection (doc s') = false ∧ resultSection (doc s') = true ∧
  toasts (doc s') = toasts (doc s) ++ [("Documentação gerada com sucesso!",
                                        "success")].
Proof.
  cbv zeta. rewrite result_handle_completed_string.
  rewrite exec_handle_completed_string. cbn -[exec].
  rewrite stopPolling_doc. cbn.
  by rewrite substring_prefix, substring_length.
Qed.

(** ** Requests in flight *)

(** [checkStatus] does not look at what is already in flight: a live timer
    that fires n times before any answer arrives leaves n more requests for
    its session pending, and the timer table as it was. *)
Theorem ticks_pile_up (n : nat) (h : positive) (t : timer) (s : page) :
  timers s !! h = Some t →
  run (replicate n (EvTick h)) s
  = set_pending (pending s ++ replicate n ("/status/" +:+ cb_session t)) s.
Proof.
  intros Hh. rewrite <- (set_pending_id s) at 1.
  generalize (pending s) as l. induction n as [|n IH]; intros l; simpl.
  - by rewrite (right_id_L [] (++)).
  - rewrite (tick_live h t) by done.
    change (set_pending (pending (set_pending l s) ++ ?u) (set_pending l s))
      with (set_pending (l ++ u) s).
    rewrite IH. by rewrite <- (assoc_L (++)).
Qed.

Lemma ticks_pile_up_witness :
  pending (run (replicate 3 (EvTick 1%positive))
             (exec (startPolling "3f9a") loaded_page))
  = ["/status/3f9a"; "/status/3f9a"; "/status/3f9a"].
Proof.
  rewrite (ticks_pile_up 3 1%positive {| cb_session := "3f9a"; period := 2000 |});
    reflexivity.
Defined.

(** [stopPolling] clears the timer but not the requests already issued: an
    answer that arrives afterwards is handled like any other. A 'completed'
    answer after the stop still enters [onProcessingComplete], sets the
    progress to 100 and shows the result section. *)
Theorem answer_after_stop_is_handled (k : nat) (url sid : string) (code : Z)
    (statusText : string) (s : page) :
  pending s !! k = Some url →
  let data := DataObj (JStr "completed") (JStr sid) in
  let s' := run [EvStop; EvSettle k (Response true code statusText (Some data))] s in
  pending (step_event EvStop s) = pending s ∧
  calls s' = calls s ++ [CallComplete data] ∧
  progress s' = 100 ∧
  resultSection (doc s') = true ∧
  pending s' = delete k (pending s).
Proof.
  intros Hk data s'.
  assert (pending (exec stopPolling s) = pending s) as Hp.
  { rewrite stopPolling_spec. by destruct (pollingInterval (app s)). }
  assert (calls (exec stopPolling s) = calls s) as Hc.
  { rewrite stopPolling_spec. by destruct (pollingInterval (app s)). }
  split; [done|].
  assert (s' = exec (handleStatusUpdate data)
                 (set_pending (delete k (pending s)) (exec stopPolling s)))
    as ->.
  { subst s'. simpl. change (step_event EvStop s) with (exec stopPolling s).
    rewrite (settle_spec k url) by by rewrite Hp.
    rewrite checkStatus_settled_ok, Hp. subst data.
    rewrite (run_pair (handleStatusUpdate _)).
    by rewrite result_handle_completed_string. }
  subst data. rewrite exec_handle_completed_string.
  unfold progress. cbn -[exec].
  rewrite !stopPolling_doc, !stopPolling_calls, !stopPolling_pending.
  cbn -[exec]. by rewrite ?stopPolling_calls.
Qed.

Lemma answer_after_stop_is_handled_witness :
  let s := run [EvStart "3f9a"; EvTick 1%positive] loaded_page in
  let data := DataObj (JStr "completed") (JStr "3f9a") in
  let s' := run [EvStop; EvSettle 0 (Response true 200 "OK" (Some data))] s in
  pending s !! 0%nat = Some "/status/3f9a" ∧
  timers (step_event EvStop s) = ∅ ∧
  calls s' = [CallComplete data] ∧ progress s' = 100.
Proof.
  destruct (answer_after_stop_is_handled 0 "/status/3f9a" "3f9a" 200 "OK"
              (run [EvStart "3f9a"; EvTick 1%positive] loaded_page) eq_refl)
    as (_ & Hc & Hp & _).
  cbv zeta. split; [reflexivity|]. split; [reflexivity|].
  split; [exact Hc|exact Hp].
Defined.

(** ** Start and stop *)

(** On a page that is not polling, [startPolling] followed by [stopPolling]
    brings everything back as it was, except that the handle just used is
    spent: the next timer gets the following one. *)
Theorem start_then_stop (sessionId : string) (s : page) :
  pollingInterval (app s) = None → timers s = ∅ →
  exec stopPolling (exec (startPolling sessionId) s)
  = set_next_timer (Pos.succ (next_timer s)) s.
Proof.
  intros Hnull Hnone. rewrite stopPolling_spec, startPolling_spec.
  rewrite Hnull. simpl. rewrite Hnone, delete_insert_eq, delete_empty.
  destruct s as [[cur h busy] tm nx pd cs cl d]. simpl in *. by subst.
Qed.

Lemma start_then_stop_witness :
  exec stopPolling (exec (startPolling "3f9a") loaded_page)
  = set_next_timer 2%positive loaded_page.
Proof. by apply (start_then_stop "3f9a" loaded_page). Defined.

(** ** The error styling of the bar *)

Lemma bar_classes_handleStatusUpdate data s :
  let s' := exec (handleStatusUpdate data) s in
  bar_classes s' = bar_classes s ∨
  bar_classes s'
  = jq_addClass ["bg-danger"]
      (jq_removeClass ["progress-bar-striped"; "progress-bar-animated"]
         (bar_classes s)).
Proof.
  destruct data as [|status sid]; [by left|].
  unfold handleStatusUpdate, data_status.
  change (mret status ≫= ?k) with (k status). cbv beta.
  destruct (strict_eq_str status "uploading"); [by left|].
  destruct (strict_eq_str status "processing"); [by left|].
  destruct (strict_eq_str status "completed").
  { left. rewrite (exec_bind _ _ _ tt) by apply result_updateProgress.
    destruct (onProcessingComplete_frame (DataObj status sid)
                (exec (updateProgress 100 "Processamento concluído!") s))
      as (_ & _ & _ & _ & Hb & _).
    unfold bar_classes. by rewrite Hb. }
  destruct (strict_eq_str status "error"); [|by left].
  right. destruct (onProcessingError_frame (DataObj status sid) s)
    as (_ & _ & _ & _ & _ & _ & _ & Hd).
  unfold bar_classes. by rewrite Hd.
Qed.

Lemma bar_classes_step ev s :
  let s' := step_event ev s in
  bar_classes s' = bar_classes s ∨
  bar_classes s'
  = jq_addClass ["bg-danger"]
      (jq_removeClass ["progress-bar-striped"; "progress-bar-animated"]
         (bar_classes s)).
Proof.
  destruct ev as [sessionId| |percent text|h|k o]; cbv zeta.
  - left. unfold step_event. simpl. by rewrite startPolling_spec.
  - left. unfold step_event, bar_classes. simpl. by rewrite stopPolling_doc.
  - by left.
  - left. unfold step_event. simpl. unfold_m. simpl. by destruct (timers s !! h).
  - destruct (pending s !! k) as [url|] eqn:Hk.
    2:{ left. unfold step_event. simpl. unfold_m. simpl. by rewrite Hk. }
    rewrite (settle_spec k url) by done.
    set (s0 := set_pending (delete k (pending s)) s).
    change (bar_classes s) with (bar_classes s0).
    destruct o as [what|[|] code statusText [data|]]; try by left.
    rewrite checkStatus_settled_ok.
    pose proof (bar_classes_handleStatusUpdate data s0) as Hh.
    unfold exec in Hh. by destruct (handleStatusUpdate data s0) as [s1 [[]|e]].
Qed.

(** Nothing in the tracker undoes the error styling: once the bar carries
    [bg-danger] it keeps it through every later event, and once the stripes
    are gone they never come back, also when a new session is polled and
    completes. *)
Theorem error_styling_is_permanent (evs : list event) (s : page) :
  ("bg-danger" ∈ bar_classes s → "bg-danger" ∈ bar_classes (run evs s)) ∧
  ("progress-bar-striped" ∉ bar_classes s →
   "progress-bar-striped" ∉ bar_classes (run evs s)) ∧
  ("progress-bar-animated" ∉ bar_classes s →
   "progress-bar-animated" ∉ bar_classes (run evs s)).
Proof.
  revert s. induction evs as [|ev evs IH]; intros s; simpl; [done|].
  destruct (IH (step_event ev s)) as (IH1 & IH2 & IH3).
  destruct (bar_classes_step ev s) as [Heq|Heq].
  - rewrite Heq in *. done.
  - split_and!; intros H; [apply IH1|apply IH2|apply IH3]; rewrite Heq;
      unfold jq_addClass, jq_removeClass; set_unfold;
      intuition (auto; discriminate).
Qed.

Lemma error_styling_is_permanent_witness :
  let s := exec (handleStatusUpdate (DataObj (JStr "error") JNull)) loaded_page in
  let evs := [EvProgress 10 "Enviando arquivos..."; EvStart "77c0";
              EvTick 1%positive;
              EvSettle 0 (Response true 200 "OK"
                            (Some (DataObj (JStr "completed") (JStr "77c0"))))] in
  "bg-danger" ∈ bar_classes s ∧ "bg-danger" ∈ bar_classes (run evs s).
Proof.
  cbv zeta.
  assert ("bg-danger" ∈ bar_classes
            (exec (handleStatusUpdate (DataObj (JStr "error") JNull)) loaded_page))
    as Hin by (apply (bool_decide_unpack _); by vm_compute).
  split; [exact Hin|].
  by apply (error_styling_is_permanent _ _).
Defined.

(** ** The marks along the catalog *)

Lemma render_step_mark p st el :
  render_step p st el
  = match step_mark p st with
    | Some Completed => mark_completed el
    | Some Current => mark_current el
    | _ => el
    end.
Proof.
  unfold render_step, step_mark.
  destruct (p >=? threshold st); [done|]. by destruct (p >=? threshold st - 15).
Qed.

Lemma classify_render_step p st el :
  classify (render_step p st el) = default (classify el) (step_mark p st).
Proof.
  rewrite render_step_mark. unfold step_mark.
  destruct (p >=? threshold st); simpl; [apply classify_mark_completed|].
  destruct (p >=? threshold st - 15); simpl; [apply classify_mark_current|done].
Qed.

(** The look-behind windows of the six steps do not overlap, so one update
    marks at most one step current; between 80 and 84 it marks none, because
    the last threshold is 20 above the one before it; from 5 to 99 outside
    that gap it marks exactly one. *)
Theorem current_windows (p : Z) :
  (∀ st1 st2, st1 ∈ steps → st2 ∈ steps →
     step_mark p st1 = Some Current → step_mark p st2 = Some Current →
     st1 = st2) ∧
  (80 ≤ p < 85 → ∀ st, st ∈ steps → step_mark p st ≠ Some Current) ∧
  (5 ≤ p < 80 ∨ 85 ≤ p < 100 →
     ∃ st, st ∈ steps ∧ step_mark p st = Some Current).
Proof.
  split_and!.
  - intros st1 st2 H1 H2. each_step H1; each_step H2; decide_marks.
  - intros Hp st Hin. each_step Hin; decide_marks.
  - intros Hp.
    destruct (decide (p < 20));
      [exists {| step_id := "step-upload"; threshold := 20 |};
       split; [in_steps|decide_marks]|].
    destruct (decide (p < 35));
      [exists {| step_id := "step-transcription"; threshold := 35 |};
       split; [in_steps|decide_marks]|].
    destruct (decide (p < 50));
      [exists {| step_id := "step-ocr"; threshold := 50 |};
       split; [in_steps|decide_marks]|].
    destruct (decide (p < 65));
      [exists {| step_id := "step-correlation"; threshold := 65 |};
       split; [in_steps|decide_marks]|].
    destruct (decide (p < 80));
      [exists {| step_id := "step-ai"; threshold := 80 |};
       split; [in_steps|decide_marks]|].
    exists {| step_id := "step-complete"; threshold := 100 |}.
    split; [in_steps|decide_marks].
Qed.

Lemma current_windows_witness :
  step_mark 82 {| step_id := "step-complete"; threshold := 100 |} = None ∧
  step_mark 82 {| step_id := "step-ai"; threshold := 80 |} = Some Completed ∧
  ∃ st, st ∈ steps ∧ step_mark 45 st = Some Current.
Proof.
  split; [reflexivity|]. split; [reflexivity|].
  apply (current_windows 45). left. lia.
Defined.

(** Along the catalog one update marks a run of steps completed, then at
    most one current, and touches none after that: a later step is marked
    completed only if every earlier one is, and once a step is not marked
    completed no later step is marked at all. *)
Theorem marks_along_catalog (p : Z) (i j : nat) (a b : step) :
  steps !! i = Some a → steps !! j = Some b → (i < j)%nat →
  (step_mark p b = Some Completed → step_mark p a = Some Completed) ∧
  (step_mark p a ≠ Some Completed → step_mark p b = None).
Proof.
  intros Ha Hb Hij.
  do 6 (destruct i as [|i]; [
    do 6 (destruct j as [|j]; [
      simpl in Ha, Hb; simplify_eq; try lia; split; decide_marks|]);
    simpl in Hb; discriminate|]).
  simpl in Ha. discriminate.
Qed.

Lemma marks_along_catalog_witness :
  step_mark 60 {| step_id := "step-ocr"; threshold := 50 |} = Some Completed ∧
  step_mark 60 {| step_id := "step-correlation"; threshold := 65 |} = Some Current ∧
  step_mark 60 {| step_id := "step-ai"; threshold := 80 |} = None.
Proof.
  split; [reflexivity|]. split; [reflexivity|].
  apply (marks_along_catalog 60 3 4
           {| step_id := "step-correlation"; threshold := 65 |}
           {| step_id := "step-ai"; threshold := 80 |});
    [reflexivity|reflexivity|lia|done].
Defined.

(** Below 5 percent [updateStepIndicators] changes no node at all; from 100
    up it marks every catalog step that is in the page completed, whatever
    the page showed before. *)
Theorem step_indicator_bounds (p : Z) (m : gmap string step_el) :
  (p < 5 → render_steps p m = m) ∧
  (100 ≤ p → ∀ st el, st ∈ steps → render_steps p m !! step_id st = Some el →
             classify el = Completed).
Proof.
  split.
  - intros Hp. apply map_eq. intros i.
    destruct (decide (i ∈ step_id <$> steps)) as [Hi|Hi].
    + apply list_elem_of_fmap in Hi as (st & -> & Hst).
      rewrite render_steps_step by done.
      destruct (m !! step_id st) as [el|]; simpl; [|done]. f_equal.
      rewrite render_step_mark.
      assert (step_mark p st = None) as -> by (each_step Hst; decide_marks).
      done.
    + by rewrite render_steps_other.
  - intros Hp st el Hst. rewrite render_steps_step by done.
    destruct (m !! step_id st) as [el0|]; simpl; [|done].
    intros [= <-]. rewrite classify_render_step.
    assert (step_mark p st = Some Completed) as ->
      by (each_step Hst; decide_marks).
    done.
Qed.

Lemma step_indicator_bounds_witness :
  render_steps 4 (stepEls (doc completed_page)) = stepEls (doc completed_page) ∧
  classify <$> render_steps 100 (stepEls loaded_doc) !! "step-complete"
  = Some Completed.
Proof.
  destruct (step_indicator_bounds 4 (stepEls (doc completed_page))) as [Hlow _].
  split; [apply Hlow; lia|reflexivity].
Defined.

(** ** Progress that only rises *)

Lemma reads_as_first q m0 :
  (∀ st el, st ∈ steps → m0 !! step_id st = Some el → classify el = Pending) →
  reads_as q m0 (render_steps q m0).
Proof.
  intros Hfresh st Hst [el0 Hel0]. exists (render_step q st el0).
  rewrite render_steps_step, Hel0 by done. split; [done|].
  rewrite classify_render_step. by rewrite (Hfresh st el0).
Qed.

Lemma reads_as_next p q m0 m :
  p ≤ q → reads_as p m0 m → reads_as q m0 (render_steps q m).
Proof.
  intros Hpq Hp st Hst Hsome. destruct (Hp st Hst Hsome) as (el & Hel & Hc).
  exists (render_step q st el). rewrite render_steps_step, Hel by done.
  split; [done|]. rewrite classify_render_step, Hc.
  each_step Hst; decide_marks.
Qed.

Lemma run_progress_stepEls (qs : list (Z * string)) s :
  stepEls (doc (run ((λ x, EvProgress x.1 x.2) <$> qs) s))
  = foldl (λ m x, render_steps x.1 m) (stepEls (doc s)) qs.
Proof.
  revert s. induction qs as [|[q text] qs IH]; intros s; simpl; [done|].
  by rewrite IH.
Qed.

Lemma reads_as_foldl (qs : list (Z * string)) p m0 m :
  Sorted Z.le (p :: qs.*1) → reads_as p m0 m →
  reads_as (default p (last qs.*1)) m0
    (foldl (λ m x, render_steps x.1 m) m qs).
Proof.
  revert p m. induction qs as [|[q text] qs IH]; intros p m Hs Hp; [done|].
  change (reads_as (default p (last (q :: qs.*1))) m0
            (foldl (λ m x, render_steps x.1 m) (render_steps q m) qs)).
  change (Sorted Z.le (p :: q :: qs.*1)) in Hs.
  apply Sorted_inv in Hs as [Hs Hhd]. apply HdRel_inv in Hhd.
  assert (default p (last (q :: qs.*1)) = default q (last qs.*1)) as ->.
  { destruct (qs.*1) as [|q' l] eqn:E; [done|].
    rewrite last_cons. by destruct (last (q' :: l)). }
  apply IH; [done|]. by apply (reads_as_next p).
Qed.

(** On a page whose steps all read pending, as after loading, a series of
    [updateProgress] calls whose percentages are not negative and never go
    down leaves the bar at the last percentage and every step reading as
    that percentage alone decides: completed from its threshold up, current
    within 15 below it, pending otherwise. *)
Theorem rising_progress_reads_by_percent (qs : list (Z * string)) (q : Z)
    (text : string) (s : page) :
  (∀ st el, st ∈ steps → stepEls (doc s) !! step_id st = Some el →
            classify el = Pending) →
  Forall (λ x, 0 ≤ x.1) (qs ++ [(q, text)]) →
  Sorted Z.le ((qs ++ [(q, text)]).*1) →
  let s' := run ((λ x, EvProgress x.1 x.2) <$> (qs ++ [(q, text)])) s in
  progress s' = q ∧
  ∀ st, st ∈ steps → is_Some (stepEls (doc s) !! step_id st) →
        step_classes s' !! step_id st = Some (default Pending (step_mark q st)).
Proof.
  intros Hfresh Hpos Hsorted s'. split.
  - apply Forall_app in Hpos as [_ Hq]. rewrite Forall_singleton in Hq.
    simpl in Hq.
    subst s'. rewrite fmap_app. unfold run. rewrite foldl_app.
    set (s0 := foldl _ s _).
    change (progress (exec (updateProgress q text) s0) = q).
    rewrite updateProgress_spec. unfold progress. simpl. lia.
  - assert (reads_as q (stepEls (doc s)) (stepEls (doc s'))) as Hreads.
    { subst s'. rewrite run_progress_stepEls.
      destruct qs as [|[q0 text0] qs]; simpl.
      - by apply reads_as_first.
      - assert (q = default q0 (last (qs ++ [(q, text)]).*1)) as Hlast
          by (rewrite fmap_app; change ([(q, text)].*1) with [q];
              by rewrite last_snoc).
        rewrite Hlast at 1. apply reads_as_foldl; [done|].
        by apply reads_as_first. }
    intros st Hst Hsome. destruct (Hreads st Hst Hsome) as (el & Hel & Hc).
    unfold step_classes. by rewrite lookup_fmap, Hel, <- Hc.
Qed.

Lemma rising_progress_reads_by_percent_witness :
  let s' := run [EvProgress 10 "Enviando arquivos...";
                 EvProgress 20 "Upload concluído";
                 EvProgress 30 "Processando dados...";
                 EvProgress 60 "Processando dados..."] loaded_page in
  progress s' = 60 ∧
  step_classes s' !! "step-correlation" = Some Current ∧
  step_classes s' !! "step-ai" = Some Pending.
Proof.
  assert (∀ st el, st ∈ steps →
            stepEls (doc loaded_page) !! step_id st = Some el →
            classify el = Pending) as Hfresh.
  { intros st el Hst.
    each_step Hst; intros Hel; vm_compute in Hel; injection Hel as <-;
      by vm_compute. }
  assert (Sorted Z.le (([(10, "Enviando arquivos..."); (20, "Upload concluído");
                         (30, "Processando dados...")]
                        ++ [(60, "Processando dados...")]).*1)) as Hsorted
    by (simpl; repeat constructor; lia).
  assert (Forall (λ x : Z * string, 0 ≤ x.1)
            ([(10, "Enviando arquivos..."); (20, "Upload concluído");
              (30, "Processando dados...")]
             ++ [(60, "Processando dados...")])) as Hpos
    by (repeat constructor; simpl; lia).
  destruct (rising_progress_reads_by_percent _ 60 "Processando dados..."
              loaded_page Hfresh Hpos Hsorted) as [Hp Hsteps].
  cbv zeta. split; [exact Hp|]. split.
  - apply (Hsteps {| step_id := "step-correlation"; threshold := 65 |});
      [in_steps|in_steps].
  - apply (Hsteps {| step_id := "step-ai"; threshold := 80 |});
      [in_steps|in_steps].
Defined.

(** * The upload form *)

(** ** The extension of a file name *)

Lemma split_on_cons c s : ∃ seg segs, split_on c s = seg :: segs.
Proof.
  induction s as [|a s (seg & segs & IH)]; simpl; [by eauto|].
  destruct (Ascii.eqb a c); [by eauto|]. rewrite IH. eauto.
Qed.

Lemma split_on_whole c s : has_char c s = false → split_on c s = [s].
Proof.
  induction s as [|a s IH]; simpl; [done|].
  destruct (Ascii.eqb a c); simpl; [done|]. intros Hs. by rewrite IH.
Qed.

Lemma split_on_app c a b :
  split_on c (a +:+ String c b) = split_on c a ++ split_on c b.
Proof.
  induction a as [|x a IH]; simpl.
  - by rewrite Ascii.eqb_refl.
  - rewrite IH. destruct (Ascii.eqb x c); [done|].
    by destruct (split_on_cons c a) as (seg & segs & ->).
Qed.

Lemma last_app_cons {A} (l : list A) x l' : last (l ++ x :: l') = last (x :: l').
Proof.
  induction l as [|y l IH]; [done|]. simpl.
  destruct (l ++ x :: l') eqn:E; [by destruct l|]. by rewrite <- IH.
Qed.

(** [validateFile] looks only at what follows the last dot of the name,
    lower-cased; a name without a dot is taken whole as its own extension. So
    [notes.final.TXT] passes as a transcription, and so does a file named
    just [vtt]. *)
Theorem extension_is_after_last_dot (base ext : string) (f : file)
    (allowedTypes : list string) :
  has_char "." ext = false →
  extension (base +:+ "." +:+ ext) = toLowerCase ext ∧
  extension ext = toLowerCase ext ∧
  (file_name f = base +:+ "." +:+ ext ∨ file_name f = ext →
   validateFile f allowedTypes = bool_decide (toLowerCase ext ∈ allowedTypes)).
Proof.
  intros Hext.
  assert (extension ext = toLowerCase ext) as Hwhole
    by (unfold extension; by rewrite split_on_whole).
  assert (extension (base +:+ "." +:+ ext) = toLowerCase ext) as Hdot.
  { unfold extension. change ("." +:+ ext) with (String "." ext).
    rewrite split_on_app, (split_on_whole _ ext) by done.
    by rewrite last_app_cons. }
  split; [done|]. split; [done|].
  unfold validateFile. by intros [-> | ->]; rewrite ?Hdot, ?Hwhole.
Qed.

Lemma extension_is_after_last_dot_witness :
  validateFile {| file_name := "notes.final.TXT"; file_size := 10;
                  file_type := "text/plain" |} transcription_types = true ∧
  extension "vtt" = "vtt".
Proof.
  destruct (extension_is_after_last_dot "notes.final" "TXT"
              {| file_name := "notes.final.TXT"; file_size := 10;
                 file_type := "text/plain" |} transcription_types eq_refl)
    as (_ & _ & Hv).
  split; [rewrite Hv; [reflexivity|by left]|reflexivity].
Defined.

(** ** The file list and the upload button *)

Lemma previews_fold l u :
  foldl (λ u f, upd_nodes (λ d, set_fileListContent
                             (fileListContent d ++ [createFilePreview f]) d) u)
    u l
  = upd_nodes (λ d, set_fileListContent
                 (fileListContent d ++ (createFilePreview <$> l)) d) u.
Proof.
  revert u. induction l as [|f l IH]; intros u; simpl.
  - destruct u as [sel [] up pr mn]. unfold upd_nodes, set_nodes. simpl.
    by rewrite (right_id_L [] (++)).
  - rewrite IH. unfold upd_nodes, set_nodes, set_fileListContent. simpl.
    do 2 f_equal. by rewrite <- (assoc_L (++)).
Qed.

Lemma updateFileList_spec u :
  updateFileList u
  = updateFormValidation
      (upd_nodes (λ d, set_fileList (bool_decide (selected_list u ≠ []))
                         (set_fileListContent
                            (createFilePreview <$> selected_list u) d)) u).
Proof.
  unfold updateFileList, seq. cbn [foldl]. rewrite previews_fold.
  f_equal. unfold selected_list, upd_nodes, set_nodes, set_fileList,
    set_fileListContent. simpl.
  destruct (transcription (selectedFiles u)) as [t|] eqn:Ht; simpl;
    rewrite ?Ht; simpl.
  - done.
  - by destruct (screenshots (selectedFiles u)).
Qed.

Lemma updateFileList_frame u :
  selectedFiles (updateFileList u) = selectedFiles u ∧
  onlyModeChecked (nodes (updateFileList u)) = onlyModeChecked (nodes u) ∧
  transcriptionInput (nodes (updateFileList u)) = transcriptionInput (nodes u) ∧
  screenshotsInput (nodes (updateFileList u)) = screenshotsInput (nodes u) ∧
  uploading (updateFileList u) = uploading u ∧
  processing (updateFileList u) = processing u ∧
  toasts (doc (main (updateFileList u))) = toasts (doc (main u)) ∧
  timers (main (updateFileList u)) = timers (main u).
Proof. by rewrite updateFileList_spec. Qed.

Lemma updateFileList_in_sync u : in_sync (updateFileList u).
Proof.
  destruct (updateFileList_frame u) as (Hsel & Hmode & _).
  unfold in_sync, selected_list, isValid. rewrite Hsel, Hmode.
  by rewrite updateFileList_spec.
Qed.

Lemma in_sync_ext u u' :
  selectedFiles u' = selectedFiles u →
  onlyModeChecked (nodes u') = onlyModeChecked (nodes u) →
  fileListContent (nodes u') = fileListContent (nodes u) →
  fileList (nodes u') = fileList (nodes u) →
  uploadBtnDisabled (doc (main u')) = uploadBtnDisabled (doc (main u)) →
  in_sync u → in_sync u'.
Proof.
  unfold in_sync, selected_list, isValid. by intros -> -> -> -> ->.
Qed.

Lemma add_toasts_nil u : add_toasts [] u = u.
Proof.
  destruct u as [sel nd up pr [ap tm nx pd cs cl []]].
  unfold add_toasts, upd_main, set_main, upd_doc, set_toasts. simpl.
  by rewrite (right_id_L [] (++)).
Qed.

Lemma total_size_app l1 l2 : total_size (l1 ++ l2) = total_size l1 + total_size l2.
Proof. induction l1 as [|f l1 IH]; simpl; [done|]. rewrite IH. lia. Qed.

Lemma screenshots_fold_spec files acc total u :
  foldl (λ '(validFiles, totalSize, u) f,
           if validateFile f screenshot_types
           then (validFiles ++ [f], totalSize + file_size f, u)
           else (validFiles, totalSize,
                 toast ("Formato não suportado: " +:+ file_name f) "warning" u))
    (acc, total, u) files
  = (acc ++ accepted files, total + total_size (accepted files),
     add_toasts (refusals files) u).
Proof.
  revert acc total u. induction files as [|f files IH]; intros acc total u.
  - change (accepted []) with (@nil file).
    change (refusals []) with (@nil (string * string)). simpl.
    by rewrite (right_id_L [] (++)), Z.add_0_r, add_toasts_nil.
  - cbn [foldl]. unfold accepted, refusals in *.
    destruct (validateFile f screenshot_types) eqn:Hv.
    + rewrite IH. rewrite filter_cons_True by by rewrite Hv.
      rewrite filter_cons_False by (rewrite Hv; by intros H; apply H).
      simpl. by rewrite <- (assoc_L (++)), <- Z.add_assoc.
    + rewrite IH. rewrite filter_cons_False by (rewrite Hv; by intros []).
      rewrite filter_cons_True by (rewrite Hv; by intros []).
      rewrite fmap_cons. f_equal.
      unfold add_toasts, toast, upd_main, set_main, upd_doc, set_toasts,
        showToast. unfold_m. simpl. by rewrite <- (assoc_L (++)).
Qed.

Lemma screenshots_loop_spec files u :
  screenshots_loop files u
  = (accepted files, total_size (accepted files), add_toasts (refusals files) u).
Proof. unfold screenshots_loop. by rewrite screenshots_fold_spec. Qed.

Lemma drop_one_fold_frame files u :
  onlyModeChecked (nodes (foldl drop_one u files)) = onlyModeChecked (nodes u).
Proof.
  revert u. induction files as [|f files IH]; intros u; simpl; [done|].
  rewrite IH. unfold drop_one.
  repeat (case_match; simpl; try done).
Qed.

(** Every file-selection handler leaves the list and the button in step with
    what is selected. *)
Lemma selection_step_in_sync ev u :
  is_selection_event ev → in_sync u → in_sync (upload_step ev u).
Proof.
  intros Hev Hu. destruct ev as [files|isChecked|files|files|filename| | | | |];
    try done; simpl.
  - unfold on_transcription_change, seq. cbn [foldl].
    destruct files as [|f files]; [by apply (in_sync_ext u)|].
    destruct (validateFile f transcription_types);
      [destruct (validateSize f (10 * MB))|]; cbn [foldl];
      [apply updateFileList_in_sync|by apply (in_sync_ext u)..].
  - unfold on_onlyMode_change, seq. cbn [foldl]. apply updateFileList_in_sync.
  - unfold on_screenshots_change, seq. cbn [foldl].
    rewrite screenshots_loop_spec.
    destruct (total_size (accepted files) >? 40 * MB); cbn [foldl];
      [|apply updateFileList_in_sync].
    by apply (in_sync_ext u).
  - unfold processDraggedFiles, seq. cbn [foldl]. apply updateFileList_in_sync.
  - unfold removeFile, seq. cbn [foldl]. apply updateFileList_in_sync.
Qed.

Lemma in_sync_loaded_upload : in_sync loaded_upload.
Proof. by vm_compute. Qed.

(** From the load on, through any series of file-selection events (picking
    or dropping files, removing one, switching the transcription-only box),
    the file list shows exactly the selected files, it is visible exactly
    when there are some, and the upload button is enabled exactly when
    [validateForm] would let the submit through. *)
Theorem selection_keeps_form_in_sync (evs : list upload_event) :
  Forall is_selection_event evs →
  let u := upload_run evs loaded_upload in
  in_sync u ∧
  (validateForm u).2 = negb (uploadBtnDisabled (doc (main u))).
Proof.
  intros Hevs.
  assert (in_sync (upload_run evs loaded_upload)) as Hsync.
  { pose proof in_sync_loaded_upload as H0. revert H0.
    generalize loaded_upload. induction Hevs as [|ev evs Hev _ IH];
      intros u Hu; simpl; [done|].
    apply IH. by apply selection_step_in_sync. }
  cbv zeta. split; [done|].
  destruct Hsync as (_ & _ & ->). rewrite negb_involutive.
  unfold validateForm, isValid.
  destruct (transcription (selectedFiles _)) as [t|];
    destruct (onlyModeChecked _);
    destruct (screenshots (selectedFiles _)); simpl; done.
Qed.

Lemma selection_keeps_form_in_sync_witness :
  let shot := {| file_name := "tela.PNG"; file_size := 2 * MB;
                 file_type := "image/png" |} in
  let note := {| file_name := "fala.txt"; file_size := 3000;
                 file_type := "text/plain" |} in
  let u := upload_run [UvScreenshots [shot]; UvTranscription [note];
                       UvRemove "tela.PNG"] loaded_upload in
  fileListContent (nodes u) = [createFilePreview note] ∧
  (validateForm u).2 = false ∧
  uploadBtnDisabled (doc (main u)) = true.
Proof.
  cbv zeta.
  edestruct (selection_keeps_form_in_sync
               [UvScreenshots [{| file_name := "tela.PNG"; file_size := 2 * MB;
                                  file_type := "image/png" |}];
                UvTranscription [{| file_name := "fala.txt"; file_size := 3000;
                                    file_type := "text/plain" |}];
                UvRemove "tela.PNG"]) as [(Hlist & _) Hbtn].
  { repeat constructor. }
  split; [by rewrite Hlist|]. split; [by rewrite Hbtn|reflexivity].
Defined.

(** ** Picking files *)

Lemma on_screenshots_change_spec files u :
  on_screenshots_change files u
  = if total_size (accepted files) >? 40 * MB then
      upd_nodes (set_screenshotsInput [])
        (toast "Total de screenshots muito grande (máximo 40MB)" "warning"
           (add_toasts (refusals files)
              (upd_nodes (set_screenshotsInput files) u)))
    else
      updateFileList
        (set_screenshots (accepted files)
           (add_toasts (refusals files)
              (upd_nodes (set_screenshotsInput files) u))).
Proof.
  unfold on_screenshots_change, seq. cbn [foldl].
  rewrite screenshots_loop_spec.
  by destruct (total_size (accepted files) >? 40 * MB).
Qed.

(** Picking screenshots replaces the earlier ones by the picked files whose
    extension is allowed, in the order picked, and warns once for each file
    refused. When the files kept weigh more than 40 MB together, nothing is
    replaced: the earlier screenshots stay selected and listed, the input is
    emptied and one more warning is shown. The transcription is never
    touched. *)
Theorem screenshots_pick (files : list file) (u : upload_page) :
  let u' := on_screenshots_change files u in
  let tooBig := total_size (accepted files) >? 40 * MB in
  transcription (selectedFiles u') = transcription (selectedFiles u) ∧
  screenshots (selectedFiles u')
  = (if tooBig then screenshots (selectedFiles u) else accepted files) ∧
  screenshotsInput (nodes u') = (if tooBig then [] else files) ∧
  toasts (doc (main u'))
  = toasts (doc (main u)) ++ refusals files
    ++ (if tooBig
        then [("Total de screenshots muito grande (máximo 40MB)", "warning")]
        else []) ∧
  (tooBig = true → fileListContent (nodes u') = fileListContent (nodes u)) ∧
  (tooBig = false →
   total_size (screenshots (selectedFiles u')) ≤ 40 * MB ∧
   Forall (λ f, extension (file_name f) ∈ screenshot_types)
     (screenshots (selectedFiles u'))).
Proof.
  cbv zeta. rewrite on_screenshots_change_spec.
  destruct (total_size (accepted files) >? 40 * MB) eqn:Hbig.
  - split_and!; try done. simpl. by rewrite <- (assoc_L (++)).
  - destruct (updateFileList_frame
                (set_screenshots (accepted files)
                   (add_toasts (refusals files)
                      (upd_nodes (set_screenshotsInput files) u))))
      as (Hsel & _ & _ & Hin & _ & _ & Ht & _).
    rewrite Hsel, Hin, Ht. simpl. split_and!; try done.
    + by rewrite (right_id_L [] (++)).
    + intros _. split; [lia|].
      unfold accepted. apply Forall_forall. intros f Hf.
      apply list_elem_of_filter in Hf as [Hf _].
      unfold validateFile in Hf. by apply bool_decide_unpack in Hf.
Qed.

Lemma screenshots_pick_witness :
  let shot := {| file_name := "tela.PNG"; file_size := 2 * MB;
                 file_type := "image/png" |} in
  let doc1 := {| file_name := "notas.pdf"; file_size := 5;
                 file_type := "application/pdf" |} in
  let u' := on_screenshots_change [shot; doc1] loaded_upload in
  screenshots (selectedFiles u') = [shot] ∧
  toasts (doc (main u')) = [("Formato não suportado: notas.pdf", "warning")] ∧
  total_size (screenshots (selectedFiles u')) ≤ 40 * MB.
Proof.
  cbv zeta.
  destruct (screenshots_pick
              [{| file_name := "tela.PNG"; file_size := 2 * MB;
                  file_type := "image/png" |};
               {| file_name := "notas.pdf"; file_size := 5;
                  file_type := "application/pdf" |}] loaded_upload)
    as (_ & Hs & _ & Ht & _ & Hok).
  split; [by rewrite Hs|]. split; [by rewrite Ht|]. by apply Hok.
Defined.

(** A picked transcription replaces the selected one only when its extension
    is txt or vtt and its size is at most 10 MB, the bound included.
    Otherwise one warning is shown and the input is emptied, but the file
    selected before stays selected and listed. The screenshots are never
    touched, and closing the dialog with no file changes no selection. *)
Theorem transcription_pick (files : list file) (u : upload_page) :
  let u' := on_transcription_change files u in
  screenshots (selectedFiles u') = screenshots (selectedFiles u) ∧
  match files with
  | [] => selectedFiles u' = selectedFiles u ∧
          toasts (doc (main u')) = toasts (doc (main u))
  | f :: _ =>
      if validateFile f transcription_types && (file_size f <=? 10 * MB) then
        transcription (selectedFiles u') = Some f ∧
        transcriptionInput (nodes u') = files ∧
        toasts (doc (main u')) = toasts (doc (main u))
      else
        selectedFiles u' = selectedFiles u ∧
        fileListContent (nodes u') = fileListContent (nodes u) ∧
        transcriptionInput (nodes u') = [] ∧
        toasts (doc (main u'))
        = toasts (doc (main u))
          ++ [(if validateFile f transcription_types
               then "Arquivo de transcrição muito grande (máximo 10MB)"
               else "Formato de transcrição não suportado", "warning")]
  end.
Proof.
  cbv zeta. unfold on_transcription_change, seq. cbn [foldl].
  destruct files as [|f files]; [done|].
  unfold validateSize.
  destruct (validateFile f transcription_types);
    [destruct (file_size f <=? 10 * MB)|]; cbn [foldl andb]; try done.
  destruct (updateFileList_frame
              (set_transcription (Some f)
                 (upd_nodes (set_transcriptionInput (f :: files)) u)))
    as (Hsel & _ & Hin & _ & _ & _ & Ht & _).
  by rewrite Hsel, Hin, Ht.
Qed.

Lemma filter_all {A} (P : A → Prop) `{∀ x, Decision (P x)} (l : list A) :
  Forall P l → filter P l = l.
Proof.
  induction 1 as [|x l Hx _ IH]; [done|].
  rewrite filter_cons_True by done. by rewrite IH.
Qed.

(** [removeFile(name)] drops every selected file of that name, the
    transcription and all the screenshots that carry it, keeps the others in
    their order, copies the screenshots left into the input and redraws the
    list. A name no selected file has changes no selection. *)
Theorem removeFile_by_name (filename : string) (u : upload_page) :
  let u' := removeFile filename u in
  transcription (selectedFiles u')
  = (match transcription (selectedFiles u) with
     | Some t => if bool_decide (file_name t = filename) then None else Some t
     | None => None
     end) ∧
  screenshots (selectedFiles u')
  = filter (λ f, file_name f ≠ filename) (screenshots (selectedFiles u)) ∧
  screenshotsInput (nodes u') = screenshots (selectedFiles u') ∧
  Forall (λ f, file_name f ≠ filename) (selected_list u') ∧
  (Forall (λ f, file_name f ≠ filename) (selected_list u) →
   selectedFiles u' = selectedFiles u) ∧
  in_sync u'.
Proof.
  cbv zeta.
  assert (∃ u0, removeFile filename u = updateFileList u0 ∧
     transcription (selectedFiles u0)
     = (match transcription (selectedFiles u) with
        | Some t => if bool_decide (file_name t = filename) then None else Some t
        | None => None
        end) ∧
     screenshots (selectedFiles u0)
     = filter (λ f, file_name f ≠ filename) (screenshots (selectedFiles u)) ∧
     screenshotsInput (nodes u0) = screenshots (selectedFiles u0))
    as (u0 & -> & Ht & Hs & Hin).
  { unfold removeFile, seq. cbn [foldl].
    destruct (transcription (selectedFiles u)) as [t|] eqn:E;
      [destruct (bool_decide (file_name t = filename))|]; cbn [foldl];
      (eexists; split; [reflexivity|]); simpl; by rewrite ?E. }
  destruct (updateFileList_frame u0) as (Hsel & _ & _ & Hinp & _).
  assert (Forall (λ f, file_name f ≠ filename)
            (selected_list (updateFileList u0))) as Hnone.
  { unfold selected_list. rewrite Hsel, Ht, Hs. apply Forall_app. split.
    - destruct (transcription (selectedFiles u)) as [t|]; [|constructor].
      case_bool_decide; simpl; [constructor|]. by repeat constructor.
    - apply Forall_forall. intros f Hf.
      by apply list_elem_of_filter in Hf as [Hf _]. }
  rewrite Hsel, Hinp. split_and!; try done; [|apply updateFileList_in_sync].
  intros Hall. unfold selected_list in Hall. apply Forall_app in Hall as [Ha Hb].
  destruct (selectedFiles u0) as [t0 s0], (selectedFiles u) as [t1 s1].
  simpl in *. subst t0 s0. f_equal.
  - destruct t1 as [t|]; [|done]. simpl in Ha. apply Forall_cons in Ha as [Ha _].
    by rewrite bool_decide_false.
  - by apply filter_all.
Qed.

Lemma removeFile_by_name_witness :
  let shot := {| file_name := "tela.png"; file_size := 2 * MB;
                 file_type := "image/png" |} in
  let u := upload_run [UvDrop [shot; shot]] loaded_upload in
  screenshots (selectedFiles u) = [shot; shot] ∧
  screenshots (selectedFiles (removeFile "tela.png" u)) = [] ∧
  selectedFiles (removeFile "outra.png" u) = selectedFiles u.
Proof.
  cbv zeta. split; [reflexivity|].
  set (u := upload_run _ loaded_upload).
  destruct (removeFile_by_name "tela.png" u) as (_ & Hs & _).
  destruct (removeFile_by_name "outra.png" u) as (_ & _ & _ & _ & Hid & _).
  split; [by rewrite Hs|]. apply Hid.
  apply (bool_decide_unpack _). by vm_compute.
Defined.

(** ** Dropping files *)

Lemma types_disjoint ext :
  ext ∈ transcription_types → ext ∉ screenshot_types.
Proof.
  unfold transcription_types, screenshot_types. intros Ht Hs.
  repeat (apply elem_of_cons in Ht as [->|Ht]);
    [..|by apply elem_of_nil in Ht];
    repeat (apply elem_of_cons in Hs as [Hs|Hs]; [discriminate|]);
    by apply elem_of_nil in Hs.
Qed.

Lemma drop_fold files u :
  let u' := foldl drop_one u files in
  screenshots (selectedFiles u')
  = screenshots (selectedFiles u) ++ dropped_screenshots files ∧
  transcription (selectedFiles u')
  = (match transcription (selectedFiles u) with
     | Some t => Some t
     | None => dropped_transcription files
     end) ∧
  onlyModeChecked (nodes u') = onlyModeChecked (nodes u) ∧
  uploading u' = uploading u ∧ processing u' = processing u ∧
  timers (main u') = timers (main u).
Proof.
  revert u. induction files as [|f files IH]; intros u.
  - change (dropped_screenshots []) with (@nil file).
    cbn [foldl]. cbv zeta. rewrite (right_id_L [] (++)).
    by destruct (transcription (selectedFiles u)).
  - cbn [foldl]. cbv zeta in IH. destruct (IH (drop_one u f))
      as (Hs & Ht & Hm & Hu & Hp & Htm).
    rewrite Hs, Ht, Hm, Hu, Hp, Htm. clear Hs Ht Hm Hu Hp Htm IH.
    unfold drop_one, dropped_screenshots, dropped_transcription, validateSize.
    cbn [List.find].
    destruct (bool_decide (extension (file_name f) ∈ transcription_types))
      eqn:Htr.
    + apply bool_decide_eq_true in Htr.
      rewrite filter_cons_False by by apply types_disjoint.
      destruct (transcription (selectedFiles u)) as [t|] eqn:Et; simpl;
        [by rewrite Et|].
      destruct (file_size f <=? 10 * MB); simpl; [done|by rewrite Et].
    + apply bool_decide_eq_false in Htr.
      destruct (bool_decide (extension (file_name f) ∈ screenshot_types))
        eqn:Him.
      * apply bool_decide_eq_true in Him. rewrite filter_cons_True by done.
        simpl. by rewrite <- (assoc_L (++)).
      * apply bool_decide_eq_false in Him. rewrite filter_cons_False by done.
        done.
Qed.

(** Dropped images are appended to the screenshots already selected, as
    many times as they are dropped, with no limit on their size and whether
    or not the transcription-only box is checked. Of the dropped
    transcriptions the first that is at most 10 MB is taken, and only when
    none was selected. *)
Theorem dropped_files (files : list file) (u : upload_page) :
  let u' := processDraggedFiles files u in
  screenshots (selectedFiles u')
  = screenshots (selectedFiles u) ++ dropped_screenshots files ∧
  transcription (selectedFiles u')
  = (match transcription (selectedFiles u) with
     | Some t => Some t
     | None => dropped_transcription files
     end) ∧
  onlyModeChecked (nodes u') = onlyModeChecked (nodes u) ∧
  (screenshots (selectedFiles u') ≠ [] →
   screenshotsInput (nodes u') = screenshots (selectedFiles u')) ∧
  in_sync u'.
Proof.
  cbv zeta. unfold processDraggedFiles, seq. cbn [foldl].
  destruct (drop_fold files u) as (Hs & Ht & Hm & _). cbv zeta in Hs, Ht, Hm.
  set (u1 := foldl drop_one u files) in *.
  set (u2 := if (0 <? length (screenshots (selectedFiles u1)))%nat
             then upd_nodes (set_screenshotsInput (screenshots (selectedFiles u1))) u1
             else u1).
  assert (selectedFiles u2 = selectedFiles u1 ∧
          onlyModeChecked (nodes u2) = onlyModeChecked (nodes u1) ∧
          (screenshots (selectedFiles u1) ≠ [] →
           screenshotsInput (nodes u2) = screenshots (selectedFiles u1)))
    as (Hsel2 & Hm2 & Hin2).
  { subst u2. destruct (screenshots (selectedFiles u1)); simpl; done. }
  destruct (updateFileList_frame u2) as (Hsel & Hmode & _ & Hin & _).
  rewrite Hsel, Hmode, Hin, Hsel2, Hm2, Hs, Ht, Hm.
  split_and!; try done; [|apply updateFileList_in_sync].
  rewrite <- Hs. apply Hin2.
Qed.

Lemma dropped_files_witness :
  let big := {| file_name := "video.bmp"; file_size := 90 * MB;
                file_type := "image/bmp" |} in
  let u := on_onlyMode_change true loaded_upload in
  let u' := processDraggedFiles [big; big] u in
  onlyModeChecked (nodes u') = true ∧
  screenshots (selectedFiles u') = [big; big] ∧
  screenshotsInput (nodes u') = [big; big].
Proof.
  cbv zeta.
  destruct (dropped_files
              [{| file_name := "video.bmp"; file_size := 90 * MB;
                  file_type := "image/bmp" |};
               {| file_name := "video.bmp"; file_size := 90 * MB;
                  file_type := "image/bmp" |}]
              (on_onlyMode_change true loaded_upload))
    as (Hs & _ & Hm & Hin & _).
  split; [by rewrite Hm|]. split; [by rewrite Hs|].
  rewrite Hin; [by rewrite Hs|]. by rewrite Hs.
Defined.

(** ** Submitting *)

Lemma validateForm_verdict u : (validateForm u).2 = isValid u.
Proof.
  unfold validateForm, isValid.
  destruct (transcription (selectedFiles u)) as [t|];
    destruct (onlyModeChecked (nodes u));
    destruct (screenshots (selectedFiles u)); simpl; done.
Qed.

(** A submit of a valid form issues one /upload request with the selected
    transcription and, unless the transcription-only box is checked, the
    selected screenshots: with the box checked none is sent, also when some
    are still selected and listed. It disables the form, shows the progress
    section and sets the progress to 10. A submit of an invalid form sends
    nothing and shows one warning. *)
Theorem submit_sends_selection (u : upload_page) :
  let u' := on_submit u in
  if isValid u then
    (∃ fd, uploading u' = uploading u ++ [fd] ∧
           fd_transcription fd = transcription (selectedFiles u) ∧
           fd_screenshots fd = (if onlyModeChecked (nodes u) then []
                                else screenshots (selectedFiles u)) ∧
           fd_transcription_only_mode fd = onlyModeChecked (nodes u)) ∧
    progress (main u') = 10 ∧
    formInputsDisabled (doc (main u')) = true ∧
    uploadBtnDisabled (doc (main u')) = true ∧
    progressSection (doc (main u')) = true ∧
    toasts (doc (main u')) = toasts (doc (main u)) ∧
    timers (main u') = timers (main u)
  else
    uploading u' = uploading u ∧ selectedFiles u' = selectedFiles u ∧
    nodes u' = nodes u ∧ progress (main u') = progress (main u) ∧
    (∃ message, toasts (doc (main u'))
                = toasts (doc (main u)) ++ [(message, "warning")]).
Proof.
  cbv zeta. pose proof (validateForm_verdict u) as Hv.
  unfold on_submit. destruct (validateForm u) as [u1 ok] eqn:Hvf.
  simpl in Hv. subst ok. destruct (isValid u) eqn:Hvalid.
  - assert (u1 = u) as ->.
    { unfold validateForm, isValid in *.
      destruct (transcription (selectedFiles u)) as [t|];
        destruct (onlyModeChecked (nodes u));
        destruct (screenshots (selectedFiles u)); simpl in *; congruence. }
    unfold uploadFiles, seq. cbn [foldl]. split_and!; try done.
    eexists. split; [reflexivity|]. done.
  - unfold validateForm, isValid in *.
    destruct (transcription (selectedFiles u)) as [t|];
      destruct (onlyModeChecked (nodes u));
      destruct (screenshots (selectedFiles u)); simpl in *; simplify_eq;
      split_and!; try done; eexists; reflexivity.
Qed.

Lemma submit_sends_selection_witness :
  let note := {| file_name := "fala.vtt"; file_size := 3000;
                 file_type := "text/vtt" |} in
  let shot := {| file_name := "tela.png"; file_size := 2 * MB;
                 file_type := "image/png" |} in
  let u := upload_run [UvTranscription [note]; UvOnlyMode true; UvDrop [shot]]
             loaded_upload in
  screenshots (selectedFiles u) = [shot] ∧
  fd_screenshots <$> uploading (on_submit u) = [[]] ∧
  fd_transcription <$> uploading (on_submit u) = [Some note].
Proof.
  cbv zeta. split; [by vm_compute|].
  set (u := upload_run _ loaded_upload).
  pose proof (submit_sends_selection u) as Hsub.
  assert (isValid u = true) as Hvalid by by vm_compute.
  rewrite Hvalid in Hsub. cbv zeta in Hsub.
  destruct Hsub as ((fd & Hup & Ht & Hs & _) & _).
  rewrite Hup. assert (uploading u = []) as -> by by vm_compute.
  change ([fd_screenshots fd] = [[]] ∧ [fd_transcription fd] = [Some
    {| file_name := "fala.vtt"; file_size := 3000; file_type := "text/vtt" |}]).
  rewrite Ht, Hs. split; by vm_compute.
Defined.

(** ** The answers to /upload and /process *)

(** What the catch handlers of the upload script do to the page. *)
Lemma upload_failed_spec error u :
  upload_failed error u
  = hide_progressSection
      (enable_form
         (toast "Erro no upload. Tente novamente." "danger"
            (upd_main (exec (console_error "Upload error:" error)) u))).
Proof. done. Qed.



(** An ok answer to /upload whose body has no [session_id]: the script goes
    on as after a success, asks for [/process/undefined] and, when that is
    answered ok, polls [/status/undefined]. *)
Example upload_without_session_id :
  let u := on_submit
             (on_transcription_change
                [{| file_name := "fala.vtt"; file_size := 3000;
                    file_type := "text/vtt" |}]
                (on_onlyMode_change true loaded_upload)) in
  let u1 := upload_step
              (UvUploadSettled 0 (PostResponse true 200 (Some (BodyObj JUndefined))))
              u in
  let u2 := upload_step
              (UvProcessSettled 0 (PostResponse true 200 (Some tt))) u1 in
  processing u1 = ["undefined"] ∧
  currentSessionId (app (main u1)) = JUndefined ∧
  progress (main u1) = 20 ∧
  uploadFormParent (nodes u1) = false ∧
  timers (main u2)
  = {[ 1%positive := {| cb_session := "undefined"; period := 2000 |} ]} ∧
  template_string (JNum 42) = "42".
Proof. cbv zeta. split_and!; by vm_compute. Qed.

Lemma process_settled_ok sessionId code u :
  process_settled sessionId (PostResponse true code (Some tt)) u
  = upd_main (set_isProcessing true)
      (upd_main (exec (updateProgress 30 "Processando dados..."))
         (upd_main (exec (startPolling sessionId))
            (toast "Processamento iniciado" "info" u))).
Proof. done. Qed.

Lemma process_settled_ok_polling sessionId code u :
  tracked (main u) →
  let u' := process_settled sessionId (PostResponse true code (Some tt)) u in
  timers (main u')
  = {[ next_timer (main u) := {| cb_session := sessionId; period := 2000 |} ]} ∧
  pollingInterval (app (main u')) = Some (next_timer (main u)) ∧
  progress (main u') = 30 ∧
  isProcessing (app (main u')) = true ∧
  toasts (doc (main u'))
  = toasts (doc (main u)) ++ [("Processamento iniciado", "info")] ∧
  nodes u' = nodes u ∧
  formInputsDisabled (doc (main u')) = formInputsDisabled (doc (main u)) ∧
  uploadBtnDisabled (doc (main u')) = uploadBtnDisabled (doc (main u)).
Proof.
  intros Htr. cbv zeta. rewrite process_settled_ok.
  pose proof (tracked_startPolling_timers sessionId
                (main (toast "Processamento iniciado" "info" u))) as Ht.
  unfold toast, upd_main, set_main in *. cbn [main nodes] in *.
  rewrite updateProgress_spec. unfold progress. cbn -[render_steps exec].
  rewrite Ht by done. rewrite startPolling_spec. by cbn.
Qed.

(** Polling starts only when /process answers ok with a body that decodes:
    then, on a page whose only timer is the one the handle holds, exactly one
    timer runs afterwards, for the session uploaded, the progress is 30 and
    [isProcessing] is set. Any other answer starts no timer, logs the error,
    re-enables the form and hides the progress section. *)
Theorem process_answer (sessionId : string) (o : post_outcome unit)
    (u : upload_page) :
  tracked (main u) →
  let u' := process_settled sessionId o u in
  if post_ok o then
    timers (main u')
    = {[ next_timer (main u) := {| cb_session := sessionId; period := 2000 |} ]} ∧
    pollingInterval (app (main u')) = Some (next_timer (main u)) ∧
    progress (main u') = 30 ∧
    isProcessing (app (main u')) = true ∧
    toasts (doc (main u'))
    = toasts (doc (main u)) ++ [("Processamento iniciado", "info")]
  else
    timers (main u') = timers (main u) ∧
    app (main u') = app (main u) ∧
    progress (main u') = progress (main u) ∧
    formInputsDisabled (doc (main u')) = false ∧
    uploadBtnDisabled (doc (main u')) = false ∧
    progressSection (doc (main u')) = false ∧
    length (console (main u')) = S (length (console (main u))) ∧
    toasts (doc (main u'))
    = toasts (doc (main u)) ++ [("Erro ao iniciar processamento", "danger")].
Proof.
  intros Htr. cbv zeta.
  destruct o as [what|[|] code [[]|]]; cbn [post_ok].
  2:{ destruct (process_settled_ok_polling sessionId code u Htr)
        as (Ht & Hh & Hp & Hi & Hto & _).
      by split_and!. }
  all: cbn [process_settled]; unfold process_failed, seq, toast, enable_form,
         hide_progressSection, seq; cbn [foldl]; unfold progress; cbn;
       rewrite ?length_app; cbn; split_and!; try done; lia.
Qed.

Lemma process_answer_witness :
  tracked (main loaded_upload) ∧
  timers (main (process_settled "3f9a" (PostResponse true 200 (Some tt))
                  loaded_upload))
  = {[ next_timer (main loaded_upload) :=
         {| cb_session := "3f9a"; period := 2000 |} ]}.
Proof.
  assert (tracked (main loaded_upload)) as Htr by by vm_compute.
  split; [exact Htr|].
  exact (proj1 (process_answer "3f9a" (PostResponse true 200 (Some tt))
                  loaded_upload Htr)).
Defined.

(** ** Cancelling *)

Lemma exec_showToast message type s :
  exec (showToast message type) s
  = upd_doc (λ d, set_toasts (toasts d ++ [(message, type)]) d) s.
Proof. done. Qed.

Lemma on_cancel_spec u :
  on_cancel true u
  = toast "Processamento cancelado" "info"
      (hide_progressSection
         (upd_nodes (set_uploadFormParent true)
            (enable_form
               (upd_main (set_isProcessing false)
                  (upd_main (exec stopPolling) u))))).
Proof. done. Qed.

(** A confirmed cancel clears the timer and gives the form back, but
    withdraws nothing that is in flight: the /process request still pending
    stays pending, and when it is answered ok the polling starts all the
    same, with the form shown and enabled. A cancel that is not confirmed
    changes nothing. *)
Theorem cancel_leaves_requests (k : nat) (sessionId : string) (code : Z)
    (u : upload_page) :
  tracked (main u) →
  processing u !! k = Some sessionId →
  on_cancel false u = u ∧
  let u1 := on_cancel true u in
  let u2 := upload_step (UvProcessSettled k (PostResponse true code (Some tt))) u1 in
  timers (main u1) = ∅ ∧
  pollingInterval (app (main u1)) = None ∧
  isProcessing (app (main u1)) = false ∧
  processing u1 = processing u ∧ uploading u1 = uploading u ∧
  pending (main u1) = pending (main u) ∧
  timers (main u2)
  = {[ next_timer (main u) := {| cb_session := sessionId; period := 2000 |} ]} ∧
  isProcessing (app (main u2)) = true ∧
  uploadFormParent (nodes u2) = true ∧
  formInputsDisabled (doc (main u2)) = false ∧
  uploadBtnDisabled (doc (main u2)) = false.
Proof.
  intros Htr Hk. split; [done|]. cbv zeta.
  pose proof (tracked_stopPolling_timers (main u) Htr) as Hnone.
  assert (pollingInterval (app (exec stopPolling (main u))) = None ∧
          next_timer (exec stopPolling (main u)) = next_timer (main u) ∧
          pending (exec stopPolling (main u)) = pending (main u))
    as (Hh & Hnext & Hpend).
  { rewrite stopPolling_spec. by destruct (pollingInterval (app (main u))) eqn:E. }
  set (u1 := on_cancel true u).
  assert (timers (main u1) = ∅ ∧ pollingInterval (app (main u1)) = None ∧
          isProcessing (app (main u1)) = false ∧
          processing u1 = processing u ∧ uploading u1 = uploading u ∧
          pending (main u1) = pending (main u) ∧
          next_timer (main u1) = next_timer (main u) ∧
          uploadFormParent (nodes u1) = true ∧
          formInputsDisabled (doc (main u1)) = false ∧
          uploadBtnDisabled (doc (main u1)) = false)
    as (Ht1 & Hh1 & Hi1 & Hp1 & Hu1 & Hpd1 & Hn1 & Hf1 & Hd1 & Hb1).
  { subst u1. rewrite on_cancel_spec.
    unfold toast, hide_progressSection, enable_form, seq, upd_nodes, upd_main,
      set_main, set_nodes. rewrite exec_showToast.
    cbn -[exec]. by rewrite Hnone, Hh, Hnext, Hpend. }
  clearbody u1.
  split_and!; try done;
    unfold upload_step; rewrite Hp1, Hk;
    set (u1' := set_processing (delete k (processing u)) u1);
    (assert (tracked (main u1')) as Htr1
       by (unfold tracked; subst u1'; cbn [main set_processing];
           rewrite Ht1, dom_empty_L; set_unfold; tauto));
    destruct (process_settled_ok_polling sessionId code u1' Htr1)
      as (Ht & _ & _ & Hi & _ & Hnd & Hfd & Hbd);
    subst u1'; cbn [main nodes set_processing] in *.
  - by rewrite Ht, Hn1.
  - done.
  - by rewrite Hnd.
  - by rewrite Hfd.
  - by rewrite Hbd.
Qed.

Lemma cancel_leaves_requests_witness :
  let u := set_processing ["3f9a"] loaded_upload in
  tracked (main u) ∧ processing u !! 0%nat = Some "3f9a" ∧
  timers (main (upload_step
                  (UvProcessSettled 0 (PostResponse true 200 (Some tt)))
                  (on_cancel true u)))
  = {[ next_timer (main u) := {| cb_session := "3f9a"; period := 2000 |} ]}.
Proof.
  cbv zeta.
  assert (tracked (main (set_processing ["3f9a"] loaded_upload))) as Htr
    by by vm_compute.
  split; [exact Htr|]. split; [reflexivity|].
  destruct (cancel_leaves_requests 0 "3f9a" 200
              (set_processing ["3f9a"] loaded_upload) Htr eq_refl)
    as (_ & _ & _ & _ & _ & _ & _ & Ht & _).
  exact Ht.
Defined.

(** ** The skipped OCR step *)

Lemma updateFileList_stepEls u :
  stepEls (doc (main (updateFileList u))) = stepEls (doc (main u)).
Proof. by rewrite updateFileList_spec. Qed.

Lemma ocr_span_main t u : main (ocr_span t u) = main u.
Proof. unfold ocr_span. by case_bool_decide. Qed.

Lemma on_onlyMode_stepEls isChecked u :
  stepEls (doc (main (on_onlyMode_change isChecked u)))
  = alter (λ el, {| el_classes := el_classes el;
                    el_icons :=
                      (λ i, {| i_classes :=
                                 if isChecked
                                 then jq_addClass ["fa-minus-circle"; "text-muted"]
                                        (jq_removeClass ["fa-circle"] (i_classes i))
                                 else jq_addClass ["fa-circle"]
                                        (jq_removeClass
                                           ["fa-minus-circle"; "text-muted"]
                                           (i_classes i));
                               i_color := i_color i |}) <$> el_icons el |})
      "step-ocr" (stepEls (doc (main u))).
Proof.
  unfold on_onlyMode_change, seq. cbn [foldl]. rewrite updateFileList_stepEls.
  destruct isChecked; cbn [foldl];
    unfold toast, ocr_icon, upd_main, set_main; cbn [main];
    rewrite exec_showToast; cbn [doc upd_doc stepEls set_toasts set_stepEls];
    by rewrite ocr_span_main.
Qed.

(** Checking the transcription-only box puts [fa-minus-circle] and
    [text-muted] on the icon of the OCR step, but the step indicator knows
    nothing of them: once the progress reaches 50 the OCR step is marked
    completed like any other, and its icon carries the check mark together
    with the minus sign. *)
Theorem skipped_ocr_step_completes (p : Z) (text : string) (u : upload_page)
    (el : step_el) :
  50 ≤ p →
  stepEls (doc (main u)) !! "step-ocr" = Some el →
  let u' := upd_main (exec (updateProgress p text)) (on_onlyMode_change true u) in
  ∃ el', stepEls (doc (main u')) !! "step-ocr" = Some el' ∧
         classify el' = Completed ∧
         length (el_icons el') = length (el_icons el) ∧
         Forall (λ i, "fa-check-circle" ∈ i_classes i ∧
                      "fa-minus-circle" ∈ i_classes i ∧
                      "text-muted" ∈ i_classes i ∧
                      "fa-circle" ∉ i_classes i) (el_icons el').
Proof.
  intros Hp Hel. cbv zeta.
  unfold upd_main, set_main. cbn [main]. rewrite updateProgress_spec.
  cbn -[render_steps on_onlyMode_change]. rewrite on_onlyMode_stepEls.
  change "step-ocr" with (step_id {| step_id := "step-ocr"; threshold := 50 |}).
  rewrite render_steps_step by in_steps. cbn [step_id].
  rewrite lookup_alter_eq, Hel. cbn [fmap option_fmap option_map].
  eexists. split; [reflexivity|].
  rewrite render_step_mark.
  assert (step_mark p {| step_id := "step-ocr"; threshold := 50 |}
          = Some Completed) as -> by decide_marks.
  split; [apply classify_mark_completed|].
  unfold mark_completed. cbn [el_icons]. split; [by rewrite !length_fmap|].
  rewrite <- list_fmap_compose. apply Forall_fmap, Forall_true. intros i.
  unfold compose, jq_addClass, jq_removeClass. cbn [i_classes].
  set_unfold. intuition (auto; discriminate).
Qed.

Lemma skipped_ocr_step_completes_witness :
  ∃ el', stepEls (doc (main (upd_main (exec (updateProgress 60 "Processando dados..."))
                              (on_onlyMode_change true loaded_upload))))
           !! "step-ocr" = Some el' ∧
         classify el' = Completed.
Proof.
  destruct (skipped_ocr_step_completes 60 "Processando dados..." loaded_upload
              pending_step) as (el' & Hel & Hc & _); [lia|reflexivity|].
  exists el'. by split.
Defined.

(** ** From submit to polling *)

Lemma on_submit_valid u : isValid u = true → on_submit u = uploadFiles u.
Proof.
  intros Hv. unfold on_submit.
  assert (validateForm u = (u, true)) as ->; [|done].
  unfold validateForm, isValid in *.
  destruct (transcription (selectedFiles u)) as [t|];
    destruct (onlyModeChecked (nodes u));
    destruct (screenshots (selectedFiles u)); simpl in *; done.
Qed.

Lemma delete_last_app {A} (l : list A) x : delete (length l) (l ++ [x]) = l.
Proof. induction l as [|y l IH]; [done|]. simpl. by rewrite IH. Qed.

Lemma reads_as_fresh m0 :
  (∀ st el, st ∈ steps → m0 !! step_id st = Some el → classify el = Pending) →
  reads_as 30 m0 (render_steps 30 (render_steps 20 (render_steps 10 m0))).
Proof.
  intros Hfresh. apply (reads_as_next 20); [lia|].
  apply (reads_as_next 10); [lia|]. by apply reads_as_first.
Qed.

Lemma uploadFiles_frame u :
  ∃ fd, uploading (uploadFiles u) = uploading u ++ [fd] ∧
        processing (uploadFiles u) = processing u ∧
        nodes (uploadFiles u) = nodes u ∧
        selectedFiles (uploadFiles u) = selectedFiles u ∧
        main (uploadFiles u)
        = exec (updateProgress 10 "Enviando arquivos...")
            (upd_doc (λ d, set_sections true (resultSection d) d)
               (upd_doc (λ d, set_form true true spinner_label d) (main u))).
Proof. eexists. split_and!; reflexivity. Qed.

Lemma upload_settled_session code sessionId u :
  let u' := upload_settled
              (PostResponse true code (Some (BodyObj (JStr sessionId)))) u in
  uploading u' = uploading u ∧
  processing u' = processing u ++ [sessionId] ∧
  uploadFormParent (nodes u') = false ∧
  main u'
  = exec (updateProgress 20 "Upload concluído")
      (set_currentSessionId (JStr sessionId)
         (exec (showToast "Arquivos enviados com sucesso!" "success") (main u))).
Proof. cbv zeta. split_and!; reflexivity. Qed.

Lemma updateProgress_frame p t s :
  let s' := exec (updateProgress p t) s in
  app s' = app s ∧ timers s' = timers s ∧ next_timer s' = next_timer s ∧
  progress s' = 0 `max` p ∧
  stepEls (doc s') = render_steps p (stepEls (doc s)) ∧
  formInputsDisabled (doc s') = formInputsDisabled (doc s) ∧
  uploadBtnDisabled (doc s') = uploadBtnDisabled (doc s) ∧
  progressSection (doc s') = progressSection (doc s).
Proof. cbv zeta. rewrite updateProgress_spec. by split_and!. Qed.

Lemma process_settled_ok_frame sessionId code u :
  let u' := process_settled sessionId (PostResponse true code (Some tt)) u in
  let sP := exec (startPolling sessionId)
              (exec (showToast "Processamento iniciado" "info") (main u)) in
  uploading u' = uploading u ∧ processing u' = processing u ∧
  main u' = set_isProcessing true
              (exec (updateProgress 30 "Processando dados...") sP) ∧
  currentSessionId (app sP) = currentSessionId (app (main u)) ∧
  progressSection (doc sP) = progressSection (doc (main u)) ∧
  stepEls (doc sP) = stepEls (doc (main u)).
Proof.
  cbv zeta. rewrite process_settled_ok. split; [reflexivity|].
  split; [reflexivity|]. split; [reflexivity|].
  rewrite startPolling_spec, exec_showToast. by split_and!.
Qed.

Lemma set_isProcessing_session (b : bool) (s : page) :
  currentSessionId (app (set_isProcessing b s)) = currentSessionId (app s).
Proof. done. Qed.

Lemma set_isProcessing_doc (b : bool) (s : page) :
  doc (set_isProcessing b s) = doc s.
Proof. done. Qed.

(** On a page with a valid form, fresh steps and no timer beyond the one the
    handle may hold, a submit whose /upload and /process requests are both
    answered ok ends with exactly one timer polling the session the server
    named, the progress at 30 after 10 and 20, each step reading as 30
    percent decides, nothing left in flight, and the form disabled and
    hidden. *)
Theorem submit_to_polling (sessionId : string) (code1 code2 : Z)
    (u : upload_page) :
  isValid u = true →
  tracked (main u) →
  (∀ st el, st ∈ steps → stepEls (doc (main u)) !! step_id st = Some el →
            classify el = Pending) →
  let u' := upload_run
              [UvSubmit;
               UvUploadSettled (length (uploading u))
                 (PostResponse true code1 (Some (BodyObj (JStr sessionId))));
               UvProcessSettled (length (processing u))
                 (PostResponse true code2 (Some tt))] u in
  timers (main u')
  = {[ next_timer (main u) := {| cb_session := sessionId; period := 2000 |} ]} ∧
  progress (main u') = 30 ∧
  currentSessionId (app (main u')) = JStr sessionId ∧
  isProcessing (app (main u')) = true ∧
  uploading u' = uploading u ∧ processing u' = processing u ∧
  formInputsDisabled (doc (main u')) = true ∧
  uploadBtnDisabled (doc (main u')) = true ∧
  uploadFormParent (nodes u') = false ∧
  progressSection (doc (main u')) = true ∧
  (∀ st, st ∈ steps → is_Some (stepEls (doc (main u)) !! step_id st) →
         step_classes (main u') !! step_id st
         = Some (default Pending (step_mark 30 st))).
Proof.
  intros Hvalid Htr Hfresh. cbv zeta.
  (* submit *)
  destruct (uploadFiles_frame u) as (fd & Hup1 & Hpr1 & _ & _ & Hm1).
  destruct (updateProgress_frame 10 "Enviando arquivos..."
              (upd_doc (λ d, set_sections true (resultSection d) d)
                 (upd_doc (λ d, set_form true true spinner_label d) (main u))))
    as (Ha1 & Ht1 & Hn1 & _ & Hs1 & Hf1 & Hb1 & Hps1).
  rewrite <- Hm1 in Ha1, Ht1, Hn1, Hs1, Hf1, Hb1, Hps1.
  assert (on_submit u = uploadFiles u) as Hsub by by apply on_submit_valid.
  set (u1 := uploadFiles u) in *. clearbody u1.
  cbn -[render_steps] in Ha1, Ht1, Hn1, Hs1, Hf1, Hb1, Hps1.
  (* the answer to /upload *)
  set (u1' := set_uploading (uploading u) u1).
  destruct (upload_settled_session code1 sessionId u1')
    as (Hup2 & Hpr2 & Hfp2 & Hm2).
  destruct (updateProgress_frame 20 "Upload concluído"
              (set_currentSessionId (JStr sessionId)
                 (exec (showToast "Arquivos enviados com sucesso!" "success")
                    (main u1'))))
    as (Ha2 & Ht2 & Hn2 & _ & Hs2 & Hf2 & Hb2 & Hps2).
  rewrite <- Hm2 in Ha2, Ht2, Hn2, Hs2, Hf2, Hb2, Hps2.
  remember (upload_settled
              (PostResponse true code1 (Some (BodyObj (JStr sessionId)))) u1')
    as u2 eqn:Hu2.
  rewrite exec_showToast in Ha2, Ht2, Hn2, Hs2, Hf2, Hb2, Hps2.
  subst u1'. cbn -[render_steps] in Hup2, Hpr2, Ha2, Ht2, Hn2, Hs2, Hf2, Hb2, Hps2.
  (* the answer to /process *)
  remember (set_processing (processing u) u2) as u2' eqn:Hu2'.
  assert (main u2' = main u2 ∧ nodes u2' = nodes u2 ∧
          uploading u2' = uploading u2 ∧ processing u2' = processing u)
    as (Hm2' & Hnd2' & Hup2' & Hpr2') by (by subst u2').
  assert (tracked (main u2')) as Htr2.
  { unfold tracked in *. rewrite Hm2', Ht2, Ht1, Ha2.
    cbn [app set_currentSessionId pollingInterval upd_doc].
    by rewrite Ha1. }
  destruct (process_settled_ok_polling sessionId code2 u2' Htr2)
    as (Ht & _ & Hp & Hi & _ & Hnd & Hfd & Hbd).
  assert (upload_run
            [UvSubmit;
             UvUploadSettled (length (uploading u))
               (PostResponse true code1 (Some (BodyObj (JStr sessionId))));
             UvProcessSettled (length (processing u))
               (PostResponse true code2 (Some tt))] u
          = process_settled sessionId (PostResponse true code2 (Some tt)) u2')
    as ->.
  { unfold upload_run. cbn [foldl]. unfold upload_step.
    rewrite Hsub.
    rewrite Hup1, lookup_app_r, Nat.sub_diag by done.
    cbn [lookup list_lookup]. rewrite delete_last_app.
    rewrite <- Hu2. rewrite Hpr2, Hpr1, lookup_app_r, Nat.sub_diag by done.
    cbn [lookup list_lookup]. by rewrite delete_last_app, Hu2'. }
  destruct (process_settled_ok_frame sessionId code2 u2')
    as (Hup3 & Hpr3 & Hm3 & HcP & HpsP & HsPs).
  cbv zeta in Hm3, HcP, HpsP, HsPs.
  set (sP := exec (startPolling sessionId)
               (exec (showToast "Processamento iniciado" "info") (main u2')))
    in *.
  destruct (updateProgress_frame 30 "Processando dados..." sP)
    as (Ha3 & _ & _ & _ & Hs3 & _ & _ & Hps3).
  clearbody sP.
  set (u3 := process_settled sessionId _ u2') in *. clearbody u3.
  rewrite Hm2' in *. rewrite Hnd2' in *. rewrite Hup2' in *. rewrite Hpr2' in *.
  rewrite Ht, Hn2, Hn1, Hp, Hi, Hup3, Hpr3, Hup2, Hnd, Hfp2, Hfd, Hbd, Hf2, Hb2,
    Hf1, Hb1.
  rewrite Hm3.
  rewrite set_isProcessing_session, set_isProcessing_doc.
  rewrite Ha3, Hps3, HcP, HpsP, Ha2, Hps2, Hps1.
  split_and!; try done.
  intros st Hst Hsome.
  destruct (reads_as_fresh (stepEls (doc (main u))) Hfresh st Hst Hsome)
    as (el & Hel & Hcl).
  unfold step_classes. rewrite set_isProcessing_doc.
  rewrite lookup_fmap, Hs3, HsPs, Hs2, Hs1, Hel.
  cbn [fmap option_fmap option_map]. by rewrite Hcl.
Qed.

Lemma submit_to_polling_witness :
  let u := on_transcription_change
             [{| file_name := "fala.vtt"; file_size := 3000;
                 file_type := "text/vtt" |}]
             (on_onlyMode_change true loaded_upload) in
  isValid u = true ∧ tracked (main u) ∧
  timers (main (upload_run
                  [UvSubmit;
                   UvUploadSettled (length (uploading u))
                     (PostResponse true 200 (Some (BodyObj (JStr "3f9a"))));
                   UvProcessSettled (length (processing u))
                     (PostResponse true 200 (Some tt))] u))
  = {[ next_timer (main u) := {| cb_session := "3f9a"; period := 2000 |} ]}.
Proof.
  cbv zeta. set (u := on_transcription_change _ _).
  assert (isValid u = true) as Hv by by vm_compute.
  assert (tracked (main u)) as Htr by by vm_compute.
  assert (∀ st el, st ∈ steps →
            stepEls (doc (main u)) !! step_id st = Some el →
            classify el = Pending) as Hfresh.
  { intros st el Hst.
    each_step Hst; intros Hel; vm_compute in Hel; injection Hel as <-;
      by vm_compute. }
  clearbody u.
  split; [exact Hv|]. split; [exact Htr|].
  exact (proj1 (submit_to_polling "3f9a" 200 200 u Hv Htr Hfresh)).
Defined.

(** ** Resetting the form *)

Lemma UploadHandler_reset_frame dflt u :
  let u' := (UploadHandler_reset dflt u).1 in
  selectedFiles u' = selectedFiles u ∧
  uploading u' = uploading u ∧ processing u' = processing u ∧
  onlyModeChecked (nodes u') = default_onlyModeChecked dflt ∧
  ai (nodes u') = default_ai dflt ∧
  formInputsDisabled (doc (main u')) = formInputsDisabled (doc (main u)) ∧
  uploadBtnDisabled (doc (main u')) = uploadBtnDisabled (doc (main u)) ∧
  toasts (doc (main u')) = toasts (doc (main u)) ∧
  timers (main u') = timers (main u) ∧ app (main u') = app (main u).
Proof. by destruct u as [sel nd up pr [ap tm nx pd cs cl []]]. Qed.

(** [UploadHandler.reset] empties the file inputs and the list on screen and
    hides the progress and result sections, but the selection the handlers
    of the upload script work on is not the variable it clears: the files
    selected before stay selected, the upload button stays as it was, and
    the page no longer shows what is selected. A submit after the reset
    still uploads the transcription selected before it, with the earlier
    screenshots unless the checkbox is checked by default. *)
Theorem reset_keeps_selection (dflt : form_defaults) (u : upload_page) :
  let u' := (UploadHandler_reset dflt u).1 in
  (UploadHandler_reset dflt u).2 = {| transcription := None; screenshots := [] |} ∧
  selectedFiles u' = selectedFiles u ∧
  transcriptionInput (nodes u') = [] ∧ screenshotsInput (nodes u') = [] ∧
  fileListContent (nodes u') = [] ∧ fileList (nodes u') = false ∧
  progressSection (doc (main u')) = false ∧
  resultSection (doc (main u')) = false ∧
  uploadFormParent (nodes u') = true ∧
  uploadBtnDisabled (doc (main u')) = uploadBtnDisabled (doc (main u)) ∧
  (selected_list u ≠ [] → ¬ in_sync u') ∧
  (∀ t, transcription (selectedFiles u) = Some t →
        screenshots (selectedFiles u) ≠ [] →
        ∃ fd, uploading (on_submit u') = uploading u ++ [fd] ∧
              fd_transcription fd = Some t ∧
              fd_screenshots fd = (if default_onlyModeChecked dflt then []
                                   else screenshots (selectedFiles u)) ∧
              fd_aiProvider fd = aiProvider (default_ai dflt)).
Proof.
  destruct (UploadHandler_reset_frame dflt u)
    as (Hsel & Hup & _ & Hchk & Hai & _ & Hbtn & _).
  cbv zeta in *.
  split_and!; try done; try by destruct u as [sel nd up pr [ap tm nx pd cs cl []]].
  - intros Hne (Hl & _). apply Hne.
    assert (fileListContent (nodes (UploadHandler_reset dflt u).1) = []) as Hnil
      by by destruct u as [sel nd up pr [ap tm nx pd cs cl []]].
    rewrite Hnil in Hl. symmetry in Hl. apply fmap_nil_inv in Hl.
    unfold selected_list in *. by rewrite Hsel in Hl.
  - intros t Ht Hs.
    set (u' := (UploadHandler_reset dflt u).1) in *. clearbody u'.
    assert (isValid u' = true) as Hv.
    { unfold isValid. rewrite Hsel, Ht.
      destruct (screenshots (selectedFiles u)); [done|].
      by destruct (onlyModeChecked (nodes u')). }
    rewrite (on_submit_valid u' Hv).
    eexists. split; [|split_and!].
    + unfold uploadFiles, seq. cbn [foldl uploading set_uploading upd_main set_main].
      by rewrite Hup.
    + cbn. by rewrite Hsel.
    + cbn. by rewrite Hchk, Hsel.
    + cbn. by rewrite Hai.
Qed.

Lemma reset_keeps_selection_witness :
  let vtt := {| file_name := "fala.vtt"; file_size := 3000;
                file_type := "text/vtt" |} in
  let png := {| file_name := "tela.png"; file_size := 52000;
                file_type := "image/png" |} in
  let dflt := {| default_onlyModeChecked := false;
                 default_ai := ai (nodes loaded_upload) |} in
  let u := upload_run [UvTranscription [vtt]; UvScreenshots [png]]
             loaded_upload in
  let u' := (UploadHandler_reset dflt u).1 in
  selected_list u ≠ [] ∧ ¬ in_sync u' ∧
  ∃ fd, uploading (on_submit u') = uploading u ++ [fd] ∧
        fd_transcription fd = Some vtt ∧ fd_screenshots fd = [png].
Proof.
  cbv zeta. set (u := upload_run _ _). set (dflt := Build_form_defaults _ _).
  assert (transcription (selectedFiles u)
          = Some {| file_name := "fala.vtt"; file_size := 3000;
                    file_type := "text/vtt" |}) as Ht by by vm_compute.
  assert (screenshots (selectedFiles u)
          = [{| file_name := "tela.png"; file_size := 52000;
                file_type := "image/png" |}]) as Hs by by vm_compute.
  assert (selected_list u ≠ []) as Hne
    by (unfold selected_list; by rewrite Ht).
  assert (screenshots (selectedFiles u) ≠ []) as Hs' by by rewrite Hs.
  assert (default_onlyModeChecked dflt = false) as Hd by done.
  clearbody u dflt.
  destruct (reset_keeps_selection dflt u)
    as (_ & _ & _ & _ & _ & _ & _ & _ & _ & _ & Hns & Hsub).
  split; [exact Hne|]. split; [exact (Hns Hne)|].
  destruct (Hsub _ Ht Hs') as (fd & H1 & H2 & H3 & _).
  exists fd. rewrite Hd, Hs in H3. by split_and!.
Defined.

(** * The history page *)

(** ** The page links *)

Lemma numbered_numbers (f : Z → bool) l :
  numbered ((λ i, LinkNumber i (f i)) <$> l) = (λ i, (i, f i)) <$> l.
Proof. induction l as [|i l IH]; [done|]. csimpl. by rewrite <- IH. Qed.

Lemma numbered_displayPagination p :
  1 < pg_pages p →
  numbered (displayPagination p)
  = (λ i, (i, bool_decide (i = pg_page p)))
      <$> seqZ (1 `max` (pg_page p - 2))
            (pg_pages p `min` (pg_page p + 2) - 1 `max` (pg_page p - 2) + 1).
Proof.
  intros Hp. unfold displayPagination, numbered.
  destruct (Z.leb_spec (pg_pages p) 1) as [?|_]; [lia|].
  rewrite !omap_app.
  rewrite (numbered_numbers (λ i, bool_decide (i = pg_page p))).
  destruct (has_prev p), (has_next p); simpl; by rewrite ?app_nil_r.
Qed.

Lemma seqZ_sorted m n : StronglySorted Z.lt (seqZ m n).
Proof.
  remember (Z.to_nat n) as k eqn:Hk. revert m n Hk.
  induction k as [|k IH]; intros m n Hk.
  - rewrite seqZ_nil by lia. constructor.
  - rewrite seqZ_cons by lia. constructor; [apply IH; lia|].
    apply Forall_forall. intros x Hx. apply elem_of_seqZ in Hx. lia.
Qed.

(** The nav of the history page: with at most one page there are no links at
    all. Otherwise the numbered links are exactly the existing pages within
    two of the current one, in rising order and so at most five, each once;
    only the current page is highlighted, and it is whenever it exists. A
    click on the highlighted link of the page shown loads nothing, a click
    on any other numbered link loads that page. *)
Theorem page_links (p : pagination) :
  (pg_pages p ≤ 1 → displayPagination p = []) ∧
  (1 < pg_pages p →
   let nums := numbered (displayPagination p) in
   (∀ i a, (i, a) ∈ nums ↔
           1 ≤ i ≤ pg_pages p ∧ pg_page p - 2 ≤ i ≤ pg_page p + 2 ∧
           a = bool_decide (i = pg_page p)) ∧
   StronglySorted Z.lt nums.*1 ∧
   (length nums ≤ 5)%nat ∧
   (1 ≤ pg_page p ≤ pg_pages p → (pg_page p, true) ∈ nums) ∧
   (∀ i a currentPage, (i, a) ∈ nums →
      on_page_click (LinkNumber i a) currentPage
      = if bool_decide (i = currentPage) then (currentPage, false)
        else (i, true))).
Proof.
  split.
  { intros Hp. unfold displayPagination.
    by destruct (Z.leb_spec (pg_pages p) 1) as [_|?]; [|lia]. }
  intros Hp. cbv zeta. rewrite (numbered_displayPagination p Hp).
  assert (∀ i a, (i, a) ∈ (λ i, (i, bool_decide (i = pg_page p)))
                   <$> seqZ (1 `max` (pg_page p - 2))
                         (pg_pages p `min` (pg_page p + 2)
                          - 1 `max` (pg_page p - 2) + 1)
                 ↔ 1 ≤ i ≤ pg_pages p ∧ pg_page p - 2 ≤ i ≤ pg_page p + 2 ∧
                   a = bool_decide (i = pg_page p)) as Hin.
  { intros i a. rewrite list_elem_of_fmap. split.
    - intros (j & [= -> ->] & Hj). apply elem_of_seqZ in Hj.
      split_and!; [lia..|done].
    - intros (H1 & H2 & ->). exists i. split; [done|].
      apply elem_of_seqZ. lia. }
  split_and!.
  - exact Hin.
  - rewrite <- list_fmap_compose.
    assert (∀ l : list Z,
              (fst ∘ (λ i, (i, bool_decide (i = pg_page p)))) <$> l = l) as ->
      by (intros l; induction l as [|x l IH]; [done|]; csimpl; by rewrite IH).
    apply seqZ_sorted.
  - rewrite length_fmap, length_seqZ. lia.
  - intros Hr. apply Hin. rewrite bool_decide_eq_true_2 by done. lia.
  - intros i a currentPage Hi. apply Hin in Hi as (H1 & _ & _).
    unfold on_page_click, data_page.
    destruct (Z.eqb_spec i 0) as [?|_]; [lia|].
    destruct (Z.eqb_spec i currentPage) as [->|Hne]; simpl.
    + by rewrite bool_decide_eq_true_2.
    + by rewrite bool_decide_eq_false_2.
Qed.

Lemma page_links_witness :
  let p := {| pg_page := 7; pg_pages := 8; has_prev := true;
              has_next := true |} in
  1 < pg_pages p ∧
  (numbered (displayPagination p)).*1 = [5; 6; 7; 8] ∧
  (7, true) ∈ numbered (displayPagination p) ∧
  StronglySorted Z.lt (numbered (displayPagination p)).*1.
Proof.
  cbv zeta.
  assert (1 < pg_pages {| pg_page := 7; pg_pages := 8; has_prev := true;
                          has_next := true |}) as Hp by (simpl; lia).
  destruct (proj2 (page_links _) Hp) as (_ & Hs & _ & Hc & _).
  split; [exact Hp|]. split; [by vm_compute|].
  split; [apply Hc; simpl; lia|exact Hs].
Defined.

(** ** Debounced calls *)

Lemma db_tracked_step {A} wait (ev : db_event A) (s : debounced A) :
  db_tracked s → db_tracked (db_step wait ev s).
Proof.
  intros Htr h. destruct ev as [args|h']; simpl.
  - unfold executedFunction, db_clear. simpl.
    destruct (db_timeout s) as [h0|] eqn:E; simpl; intros [x Hx].
    + destruct (decide (h = db_next s)) as [->|Hne]; [done|].
      rewrite lookup_insert_ne in Hx by done.
      destruct (decide (h = h0)) as [->|Hne0].
      * by rewrite lookup_delete_eq in Hx.
      * rewrite lookup_delete_ne in Hx by done.
        specialize (Htr h (mk_is_Some _ _ Hx)). congruence.
    + destruct (decide (h = db_next s)) as [->|Hne]; [done|].
      rewrite lookup_insert_ne in Hx by done.
      specialize (Htr h (mk_is_Some _ _ Hx)). congruence.
  - unfold db_fire. destruct (db_timers s !! h') as [[args w]|] eqn:E; [|apply Htr].
    unfold db_clear. simpl.
    destruct (db_timeout s) as [h0|] eqn:E0; simpl; intros [x Hx].
    + destruct (decide (h = h0)) as [->|Hne0].
      * by rewrite lookup_delete_eq in Hx.
      * rewrite lookup_delete_ne in Hx by done.
        destruct (decide (h = h')) as [->|Hne'].
        -- by rewrite lookup_delete_eq in Hx.
        -- rewrite lookup_delete_ne in Hx by done.
           specialize (Htr h (mk_is_Some _ _ Hx)). congruence.
    + specialize (Htr h' (mk_is_Some _ _ E)). congruence.
Qed.

Lemma db_tracked_run {A} wait (evs : list (db_event A)) (s : debounced A) :
  db_tracked s → db_tracked (db_run wait evs s).
Proof.
  revert s. induction evs as [|ev evs IH]; intros s Hs; [done|].
  apply IH. by apply db_tracked_step.
Qed.

Lemma executedFunction_tracked {A} wait (a : A) s :
  db_tracked s →
  let s' := executedFunction wait a s in
  db_timers s' = {[ db_next s := (a, wait) ]} ∧
  db_timeout s' = Some (db_next s) ∧ db_calls s' = db_calls s.
Proof.
  intros Htr. cbv zeta. split_and!; [|by destruct s as [[] ? ? ?]..].
  apply map_eq. intros h. unfold executedFunction, db_clear.
  destruct (db_timeout s) as [h0|] eqn:E; simpl.
  - destruct (decide (h = db_next s)) as [->|Hne].
    + by rewrite lookup_insert_eq, lookup_singleton_eq.
    + rewrite lookup_insert_ne, lookup_singleton_ne by done.
      destruct (decide (h = h0)) as [->|Hne0]; [by rewrite lookup_delete_eq|].
      rewrite lookup_delete_ne by done.
      destruct (db_timers s !! h) eqn:Eh; [|done].
      specialize (Htr h (mk_is_Some _ _ Eh)). congruence.
  - destruct (decide (h = db_next s)) as [->|Hne].
    + by rewrite lookup_insert_eq, lookup_singleton_eq.
    + rewrite lookup_insert_ne, lookup_singleton_ne by done.
      destruct (db_timers s !! h) eqn:Eh; [|done].
      specialize (Htr h (mk_is_Some _ _ Eh)). congruence.
Qed.

Lemma db_calls_only {A} wait (args : list A) (s : debounced A) :
  db_tracked s →
  db_tracked (db_run wait (DbCall <$> args) s) ∧
  db_calls (db_run wait (DbCall <$> args) s) = db_calls s.
Proof.
  revert s. induction args as [|b args IH]; intros s Htr; [done|].
  rewrite fmap_cons.
  change (db_run wait (DbCall b :: (DbCall <$> args)) s)
    with (db_run wait (DbCall <$> args) (executedFunction wait b s)).
  destruct (IH (executedFunction wait b s)) as [H1 H2].
  { by apply (db_tracked_step wait (DbCall b)). }
  split; [exact H1|]. rewrite H2.
  by destruct (executedFunction_tracked wait b s Htr) as (_ & _ & ->).
Qed.

Lemma db_run_app {A} wait (l1 l2 : list (db_event A)) s :
  db_run wait (l1 ++ l2) s = db_run wait l2 (db_run wait l1 s).
Proof. apply foldl_app. Qed.

(** Of a run of calls to a debounced function with no timeout expiring in
    between, only the last one reaches [func]: after the calls exactly one
    timeout is pending, set for [wait] with the arguments of the last call,
    [func] has not been called, and when that timeout expires [func] is
    called once with those arguments and nothing stays pending. This holds
    from every state the closure can be in. *)
Theorem debounce_last_call_wins {A} (wait : Z) (evs : list (db_event A))
    (args : list A) (a : A) :
  let s := db_run wait evs db_init in
  let s1 := db_run wait (DbCall <$> (args ++ [a])) s in
  ∃ h, db_timers s1 = {[ h := (a, wait) ]} ∧
       db_timeout s1 = Some h ∧
       db_calls s1 = db_calls s ∧
       db_calls (db_step wait (DbFire h) s1) = db_calls s ++ [a] ∧
       db_timers (db_step wait (DbFire h) s1) = ∅.
Proof.
  cbv zeta.
  assert (db_tracked (db_run wait evs (@db_init A))) as Htr.
  { apply db_tracked_run. intros h [x Hx]. simpl in Hx.
    by rewrite lookup_empty in Hx. }
  set (s := db_run wait evs db_init) in *. clearbody s.
  rewrite fmap_app, db_run_app.
  destruct (db_calls_only wait args s Htr) as [Htr0 Hc0].
  set (s0 := db_run wait (DbCall <$> args) s) in *. clearbody s0.
  change (db_run wait (DbCall <$> [a]) s0) with (executedFunction wait a s0).
  destruct (executedFunction_tracked wait a s0 Htr0) as (Ht & Hto & Hc).
  exists (db_next s0). split_and!; [done|done|congruence|..].
  - unfold db_step, db_fire. rewrite Ht, lookup_singleton_eq.
    cbn [db_calls]. by rewrite Hc, Hc0.
  - unfold db_step, db_fire. rewrite Ht, lookup_singleton_eq.
    unfold db_clear. cbn [db_timeout db_timers]. rewrite Hto.
    cbn [db_timers]. by rewrite delete_singleton_eq, delete_empty.
Qed.
